(** * Pywalfox: native-messaging session and colorscheme generation

    A shallow embedding of [src/communication/native-messenger.ts] (the
    [NativeApp] class) and of the colorscheme generator (the file that
    exports [generatePywalPalette], [generateColorscheme], ...), with the
    properties the specification states about them.

    The code is embedded in a state-and-exception monad: the state is
    whatever the code can mutate or act upon, and a thrown [TypeError] is
    an outcome of its own.  For the session the state is the fields of the
    [NativeApp] object, the window's timers and the calls made so far on
    the callbacks and on the port; for the generator it is a store of
    arrays and objects, which the code receives and returns by reference.
    Writes to the console are left out, and the two [async] handlers, which
    never await, run as ordinary methods: a [TypeError] thrown in one of
    them is the rejection of the promise it returns. *)

From Stdlib Require Import Floats.
From stdpp Require Import base option list gmap strings pretty sorting.

Open Scope string_scope.
Set Warnings "-register-all".

(** ** The monad of JavaScript statements *)

Inductive exn : Type :=
| TypeError.

Inductive outcome (A : Type) : Type :=
| Returns (a : A)
| Throws (e : exn).
Arguments Returns {A} a.
Arguments Throws {A} e.

(** A computation over a mutable state [S]: the state survives a throw. *)
Definition M (S A : Type) : Type := S → outcome A * S.

Definition ret {S A} (a : A) : M S A := λ s, (Returns a, s).

Definition bind {S A B} (m : M S A) (k : A → M S B) : M S B :=
  λ s, match m s with
       | (Returns a, s') => k a s'
       | (Throws e, s') => (Throws e, s')
       end.

Definition throw {S A} (e : exn) : M S A := λ s, (Throws e, s).

(** An operation of the language that reads no state: it returns or
    throws. *)
Definition of_outcome {S A} (o : outcome A) : M S A := λ s, (o, s).

Definition returns {A} (o : outcome A) : bool :=
  match o with
  | Returns _ => true
  | Throws _ => false
  end.

(** The outcomes of a list of operations run from left to right: the
    first throw ends the run. *)
Fixpoint collect {A} (os : list (outcome A)) : outcome (list A) :=
  match os with
  | [] => Returns []
  | Returns a :: rest =>
      match collect rest with
      | Returns l => Returns (a :: l)
      | Throws e => Throws e
      end
  | Throws e :: _ => Throws e
  end.
Definition gets {S A} (f : S → A) : M S A := λ s, (Returns (f s), s).
Definition modify {S} (f : S → S) : M S unit := λ s, (Returns tt, f s).

#[global] Instance M_ret S : MRet (M S) := @ret S.
#[global] Instance M_bind S : MBind (M S) := λ A B k m, bind m k.

(** [array.forEach(f)] over a list of immutable items. *)
Fixpoint forEach {S A} (xs : list A) (f : A → M S unit) : M S unit :=
  match xs with
  | [] => ret tt
  | x :: xs' => bind (f x) (λ _, forEach xs' f)
  end.

(** ECMAScript numbers are IEEE-754 doubles. *)
Definition number : Type := float.

(** [ToBoolean] on a number: [0], [-0] and [NaN] are falsy. *)
Definition number_truthy (x : number) : bool :=
  negb (PrimFloat.is_zero x || PrimFloat.is_nan x).

(** ** The native-messaging session: [NativeApp] *)

Module NativeApp.

(** The [data?: any] field of a message off the wire: a JSON value. *)
Inductive json : Type :=
| JNull
| JBool (b : bool)
| JNumber (x : number)
| JString (s : string)
| JArray (items : list json)
| JObject (props : list (string * json)).

(** [ToBoolean]: what [if (v)] and [!v] test. *)
Definition truthy (v : json) : bool :=
  match v with
  | JNull => false
  | JBool b => b
  | JNumber x => number_truthy x
  | JString s => negb (String.eqb s "")
  | JArray _ => true
  | JObject _ => true
  end.

(** An optional boolean field ([success?: boolean]); absent is falsy. *)
Definition truthy_flag (b : option bool) : bool := default false b.

(** [key] is the decimal spelling of an index below [n]. *)
Definition own_index (key : string) (n : nat) : bool :=
  bool_decide (key ∈ (pretty <$> seq 0 n)).

(** [v] owns the property [key]: objects own their keys, arrays and
    strings own their indices and [length], the other values own
    nothing. *)
Definition owns (v : json) (key : string) : bool :=
  match v with
  | JObject props => bool_decide (key ∈ props.*1)
  | JArray items => String.eqb key "length" || own_index key (length items)
  | JString s => String.eqb key "length" || own_index key (String.length s)
  | JNull | JBool _ | JNumber _ => false
  end.

(** [v.hasOwnProperty(key)].  The method is looked up on [v] first: an
    object that owns a key [hasOwnProperty] holds a value off the wire
    there, which is no function, and calling it throws.  Every other value
    but [null] reaches the method of [Object.prototype]. *)
Definition hasOwnProperty (v : json) (key : string) : outcome bool :=
  match v with
  | JNull => Throws TypeError
  | JObject props =>
      if bool_decide ("hasOwnProperty" ∈ props.*1) then Throws TypeError
      else Returns (owns v key)
  | JBool _ | JNumber _ | JString _ | JArray _ => Returns (owns v key)
  end.

(** [INativeAppMessage]: [{action, success?, error?, data?}], and whatever
    else the message owns ([others]: the interface is open to further
    keys).  [data] is [None] when the message has no own property
    ['data']. *)
Record INativeAppMessage : Type := {
  action : string;
  success : option bool;
  error : option string;
  data : option json;
  others : list (string * json);
}.

(** The message owns a key [hasOwnProperty], which hides the method of
    that name. *)
Definition shadowed (message : INativeAppMessage) : bool :=
  bool_decide ("hasOwnProperty" ∈ (others message).*1).

(** [INativeAppRequest]: [{action, target?, size?}]. *)
Record INativeAppRequest : Type := {
  req_action : string;
  req_target : option string;
  req_size : option number;
}.

(** The members of [NativeAppErrors] that the session uses; [None_] is
    [NativeAppErrors.None]. *)
Inductive NativeAppErrors : Type :=
| None_
| ManifestNotInstalled
| UnexpectedError
| Unknown.

(** [INativeAppError]: [{type, message}], [message] being [null] or a string. *)
Record INativeAppError : Type := {
  type : NativeAppErrors;
  message : option string;
}.

(** The [error?: {message}] carried by a [browser.runtime.Port]. *)
Record PortError : Type := { error_message : string }.
Record Port : Type := { port_error : option PortError }.

(** What the session does to the outside: a call of one of the
    [INativeAppMessageCallbacks], or a message posted on the port. *)
Inductive event : Type :=
| Output (message : string) (error : option bool)
| Connected
| Disconnected (e : INativeAppError)
| Version (v : json)
| UpdateNeeded
| PywalColorsFetchSuccess (pywalData : json)
| PywalColorsFetchFailed (error : option string)
| PostMessage (m : INativeAppRequest).

(** The fields of the [NativeApp] object; a field never assigned is
    [undefined], here [None]. *)
Record fields : Type := {
  isConnected : option bool;
  port : option Port;
  versionCheckTimeout : option nat;
  connectedCheckTimeout : option nat;
}.

(** The session with what surrounds it: the window's pending timers (the
    callback each will call when it fires) and the events so far, oldest
    first. *)
Record world : Type := {
  this : fields;
  timers : gmap nat event;
  next_timer : nat;
  trace : list event;
}.

Definition emit (e : event) : M world unit :=
  modify (λ w, {| this := this w; timers := timers w;
                  next_timer := next_timer w; trace := trace w ++ [e] |}).

Definition set_this (f : fields → fields) : M world unit :=
  modify (λ w, {| this := f (this w); timers := timers w;
                  next_timer := next_timer w; trace := trace w |}).

(** [window.setTimeout(callback, ms)]: a fresh handle. *)
Definition setTimeout (callback : event) (ms : number) : M world nat :=
  λ w, (Returns (next_timer w),
        {| this := this w; timers := <[next_timer w := callback]> (timers w);
           next_timer := S (next_timer w); trace := trace w |}).

(** [clearTimeout(handle)]: nothing happens on [undefined]. *)
Definition clearTimeout (handle : option nat) : M world unit :=
  match handle with
  | Some id =>
      modify (λ w, {| this := this w; timers := delete id (timers w);
                      next_timer := next_timer w; trace := trace w |})
  | None => ret tt
  end.

(** The environment fires a pending timer: its callback runs once. *)
Definition timer_fires (id : nat) : M world unit :=
  t ← gets (λ w, timers w !! id);
  match t with
  | Some callback => clearTimeout (Some id);; emit callback
  | None => ret tt
  end.

Section NativeApp.

(** [RESPONSE_TIMEOUT_MS] and [NATIVE_MESSAGES] of [@config/general], and
    the host's conversion of a port's [error] to a string in a template
    literal. *)
Variable RESPONSE_TIMEOUT_MS : number.
Variables VERSION PYWAL_COLORS CSS_ENABLE CSS_DISABLE CSS_FONT_SIZE : string.
Variable error_to_string : option PortError → string.

Definition log (message : string) (error : option bool) : M world unit :=
  emit (Output message error).

Definition logError (error : string) : M world unit :=
  log error (Some true).

(** [message.hasOwnProperty('data')] calls what the message has under
    [hasOwnProperty]. *)
Definition getData (message : INativeAppMessage) : M world json :=
  if shadowed message then throw TypeError
  else
    match data message with
    | Some d => ret d
    | None =>
        logError "Recieved invalid message from native app. The 'data' field is undefined.";;
        ret JNull
    end.

Definition onVersionResponse (message : INativeAppMessage) : M world unit :=
  version ← getData message;
  (if truthy version then emit (Version version) else emit UpdateNeeded);;
  handle ← gets (λ w, versionCheckTimeout (this w));
  clearTimeout handle.

Definition onPywalColorsResponse (message : INativeAppMessage) : M world unit :=
  if negb (truthy_flag (success message)) then
    emit (PywalColorsFetchFailed (error message))
  else
    pywalData ← getData message;
    if negb (truthy pywalData) then
      logError "Pywal data was read successfully but contained null"
    else
      wallpaper ← of_outcome (hasOwnProperty pywalData "wallpaper");
      if wallpaper : bool then
        emit (PywalColorsFetchSuccess pywalData)
      else
        emit (PywalColorsFetchSuccess
                (JObject [("colors", pywalData); ("wallpaper", JNull)])).

(** A [switch] whose clauses have no [break]: control enters at the first
    [case] equal to the scrutinee, or at [default] when there is none, and
    runs every clause from there to the end. *)
Inductive label : Type :=
| Case (s : string)
| Default.

Definition enters (x : string) (l : label) : bool :=
  match l with
  | Case s => String.eqb x s
  | Default => false
  end.

Definition is_default (l : label) : bool :=
  match l with
  | Case _ => false
  | Default => true
  end.

Fixpoint from_first {A} (p : label → bool) (clauses : list (label * A))
  : option (list (label * A)) :=
  match clauses with
  | [] => None
  | c :: rest => if p c.1 then Some clauses else from_first p rest
  end.

Definition switch_no_break {A} (x : string) (clauses : list (label * (A → A)))
  (a : A) : A :=
  let entered :=
    match from_first (enters x) clauses with
    | Some cs => cs
    | None => default [] (from_first is_default clauses)
    end in
  foldl (λ a c, c.2 a) a entered.

Definition set_type (t : NativeAppErrors) (e : INativeAppError) : INativeAppError :=
  {| type := t; message := message e |}.

Definition set_message (m : option string) (e : INativeAppError) : INativeAppError :=
  {| type := type e; message := m |}.

Definition onDisconnect (port : Port) : M world unit :=
  let error := port_error port in
  v ← gets (λ w, versionCheckTimeout (this w));
  clearTimeout v;;
  c ← gets (λ w, connectedCheckTimeout (this w));
  clearTimeout c;;
  let nativeError := {| type := None_; message := None |} in
  let nativeError :=
    match error with
    | Some error =>
        let nativeError :=
          switch_no_break (error_message error)
            [ (Case "Error: No such native application pywalfox",
               set_type ManifestNotInstalled);
              (Case "Error: An unexpected error occurred",
               set_type UnexpectedError);
              (Default, set_type Unknown) ]
            nativeError in
        set_message (Some (error_message error)) nativeError
    | None => nativeError
    end in
  logError ("Disconnected from native messaging host: " +:+ error_to_string error);;
  emit (Disconnected nativeError).

(** [this.port.postMessage(message)]; [this.port] is [undefined] until
    [connect] has run. *)
Definition port_postMessage (message : INativeAppRequest) : M world unit :=
  p ← gets (λ w, port (this w));
  match p with
  | Some _ => emit (PostMessage message)
  | None => throw TypeError
  end.

Definition sendMessage (message : INativeAppRequest) : M world unit :=
  c ← gets (λ w, isConnected (this w));
  if negb (truthy_flag c) then
    logError "Failed to send data to native app. You are not connected"
  else
    port_postMessage message.

Definition requestVersion : M world unit :=
  sendMessage {| req_action := VERSION; req_target := None; req_size := None |}.

Definition requestPywalColors : M world unit :=
  sendMessage {| req_action := PYWAL_COLORS; req_target := None; req_size := None |}.

Definition requestCssEnabled (target : string) (enabled : bool) : M world unit :=
  let action := if enabled then CSS_ENABLE else CSS_DISABLE in
  sendMessage {| req_action := action; req_target := Some target; req_size := None |}.

Definition requestFontSizeSet (target : string) (size : number) : M world unit :=
  sendMessage {| req_action := CSS_FONT_SIZE; req_target := Some target;
                 req_size := Some size |}.

(** [connect()]; [newPort] is what [browser.runtime.connectNative] hands
    back.  [setupListeners] only registers [onMessage] and [onDisconnect]
    with the port. *)
Definition connect (newPort : Port) : M world unit :=
  set_this (λ t, {| isConnected := isConnected t; port := Some newPort;
                    versionCheckTimeout := versionCheckTimeout t;
                    connectedCheckTimeout := connectedCheckTimeout t |});;
  match port_error newPort with
  | None =>
      set_this (λ t, {| isConnected := Some true; port := port t;
                        versionCheckTimeout := versionCheckTimeout t;
                        connectedCheckTimeout := connectedCheckTimeout t |});;
      handle ← setTimeout UpdateNeeded RESPONSE_TIMEOUT_MS;
      set_this (λ t, {| isConnected := isConnected t; port := port t;
                        versionCheckTimeout := Some handle;
                        connectedCheckTimeout := connectedCheckTimeout t |});;
      requestVersion;;
      emit Connected
  | Some error =>
      logError ("Failed to connect to native app: " +:+ error_message error)
  end.

End NativeApp.

(** A new [NativeApp(callbacks)] in a window with no timer pending. *)
Definition new_world : world :=
  {| this := {| isConnected := None; port := None;
                versionCheckTimeout := None; connectedCheckTimeout := None |};
     timers := ∅; next_timer := 1; trace := [] |}.

(** A session that was connected and is marked as no longer so. *)
Definition disconnected_world : world :=
  {| this := {| isConnected := Some false; port := Some {| port_error := None |};
                versionCheckTimeout := Some 1; connectedCheckTimeout := None |};
     timers := ∅; next_timer := 2; trace := [Connected] |}.

(** [w] after the events [es], and [w] after [clearTimeout(handle)]. *)
Definition with_events (w : world) (es : list event) : world :=
  {| this := this w; timers := timers w; next_timer := next_timer w;
     trace := trace w ++ es |}.

Definition cancelled (handle : option nat) (w : world) : world :=
  {| this := this w;
     timers := from_option (λ id, delete id (timers w)) (timers w) handle;
     next_timer := next_timer w; trace := trace w |}.

Definition is_error_log (e : event) : bool :=
  match e with
  | Output _ (Some true) => true
  | _ => false
  end.

Definition is_PostMessage (e : event) : bool :=
  match e with
  | PostMessage _ => true
  | _ => false
  end.

Definition is_PywalColorsFetchSuccess (e : event) : bool :=
  match e with
  | PywalColorsFetchSuccess _ => true
  | _ => false
  end.

End NativeApp.

(** ** The colorscheme generator *)

Module Colorscheme.

(** A color as the code holds it: a string, or [undefined] when a lookup
    found nothing. *)
Inductive value : Type :=
| VUndefined
| VString (s : string).

(** The value inside a template literal. *)
Definition ToString (v : value) : string :=
  match v with
  | VUndefined => "undefined"
  | VString s => s
  end.

(** Own properties of an object, in insertion order. *)
Definition props : Type := list (string * value).

(** [o[key]] on a table of own properties: [None] is [undefined]. *)
Fixpoint own {V} (key : string) (o : list (string * V)) : option V :=
  match o with
  | [] => None
  | (k, v) :: rest => if String.eqb key k then Some v else own key rest
  end.

Definition props_get (key : string) (o : props) : value :=
  default VUndefined (own key o).

(** [o[key] = v]: an existing key keeps its place, a new one goes last. *)
Fixpoint props_set (key : string) (v : value) (o : props) : props :=
  match o with
  | [] => [(key, v)]
  | (k, w) :: rest =>
      if String.eqb key k then (k, v) :: rest else (k, w) :: props_set key v rest
  end.

(** Palettes and color arrays are JavaScript objects: the code is handed
    references to them, and the store says what each reference holds. *)
Definition loc : Type := positive.

Inductive cell : Type :=
| Arr (items : list value)
| Obj (o : props).

Abbreviation heap := (gmap loc cell).

Definition alloc (c : cell) : M heap loc :=
  λ h, let l := fresh (dom h) in (Returns l, <[l := c]> h).

Definition write (l : loc) (c : cell) : M heap unit :=
  modify (λ h, <[l := c]> h).

(** Reading through a reference.  The signatures say which references
    are arrays and which are objects; a reference of the other kind, or
    to nothing, is outside them and ends the call. *)
Definition read_arr (l : loc) : M heap (list value) :=
  λ h, match h !! l with
       | Some (Arr items) => (Returns items, h)
       | _ => (Throws TypeError, h)
       end.

Definition read_obj (l : loc) : M heap props :=
  λ h, match h !! l with
       | Some (Obj o) => (Returns o, h)
       | _ => (Throws TypeError, h)
       end.

(** [items[i]]: [undefined] out of range. *)
Definition items_get (i : Z) (items : list value) : value :=
  if (i <? 0)%Z then VUndefined else default VUndefined (items !! Z.to_nat i).

(** [items.splice(start, 0, item)]: a negative [start] counts from the
    end, and [start] is clamped to the array. *)
Definition items_splice (start : Z) (item : value) (items : list value)
  : list value :=
  let len := Z.of_nat (length items) in
  let k := if (start <? 0)%Z then Z.max (len + start) 0 else Z.min start len in
  take (Z.to_nat k) items ++ item :: drop (Z.to_nat k) items.

Definition array_get (l : loc) (i : Z) : M heap value :=
  items ← read_arr l; mret (items_get i items).

Definition array_splice (l : loc) (start : Z) (item : value) : M heap unit :=
  items ← read_arr l; write l (Arr (items_splice start item items)).

(** [[...array]] *)
Definition array_spread (l : loc) : M heap loc :=
  items ← read_arr l; alloc (Arr items).

Definition obj_get (l : loc) (key : string) : M heap value :=
  o ← read_obj l; mret (props_get key o).

Definition obj_set (l : loc) (key : string) (v : value) : M heap unit :=
  o ← read_obj l; write l (Obj (props_set key v o)).

Definition Object_keys (l : loc) : M heap (list string) :=
  o ← read_obj l; mret o.*1.

(** [Object.assign(target, source)] *)
Definition Object_assign (target source : loc) : M heap loc :=
  o ← read_obj source;
  forEach o (λ kv, obj_set target kv.1 kv.2);;
  mret target.

(** A loop whose body updates a local variable. *)
Fixpoint foldM {S A B} (f : B → A → M S B) (b : B) (xs : list A) : M S B :=
  match xs with
  | [] => ret b
  | x :: xs' => bind (f b x) (λ b', foldM f b' xs')
  end.

(** [a > b] on strings compares them code unit by code unit. *)
Definition string_gt (a b : string) : bool := String.ltb b a.

(** [array.sort(compareFn)]: a merge sort, where [a] goes before [b] when
    [compareFn(a, b)] is negative. *)
Definition before (compareFn : string → string → Z) (a b : string) : Prop :=
  (compareFn a b < 0)%Z.

#[global] Instance before_dec compareFn : RelDecision (before compareFn).
Proof. intros a b. unfold before. apply _. Defined.

Definition Array_sort (compareFn : string → string → Z) (xs : list string)
  : list string :=
  merge_sort (before compareFn) xs.

(** [color.substring(1)] *)
Definition substring_1 (s : string) : string :=
  match s with
  | EmptyString => EmptyString
  | String _ rest => rest
  end.

(** [IExtendedPywalColor]: an [ICustomPywalColor] carries [colorString],
    the other kind carries the index of the color it is made from. *)
Inductive IExtendedPywalColor : Type :=
| IModifiedPywalColor (targetIndex colorIndex : Z) (modifier : number)
    (min max : option number)
| ICustomPywalColor (targetIndex : Z) (colorString : string).

Definition targetIndex (color : IExtendedPywalColor) : Z :=
  match color with
  | IModifiedPywalColor t _ _ _ _ => t
  | ICustomPywalColor t _ => t
  end.

Record ITemplateItem : Type := {
  target : string;
  cssVariable : value;
}.

Record IDuckDuckGoThemeTemplateItem : Type := {
  colorKey : string;
  modifier : option number;
}.

(** [IColorschemeTemplate]: configuration, which the code only reads;
    each template is the table of its own properties. *)
Record IColorschemeTemplate : Type := {
  palette : list (string * Z);
  browser : list (string * string);
  duckduckgo : list (string * IDuckDuckGoThemeTemplateItem);
}.

Inductive ThemeModes : Type :=
| Dark
| Light
| Auto.

#[global] Instance ThemeModes_eq_dec : EqDecision ThemeModes.
Proof. solve_decision. Defined.

(** The object [generateColorscheme] returns. *)
Record Colorscheme : Type := {
  cs_hash : string;
  cs_palette : loc;
  cs_browser : loc;
  cs_extension : string;
  cs_duckduckgo : loc;
  cs_darkreader : loc;
}.

(** [values[k]] for the two kinds of [values] that
    [createObjectFromTemplateData] is called with: an array of colors read
    at a number, a palette read at a key.  [k] is [None] when the template
    has no entry, and then the property read is ["undefined"]. *)
Class Values (K : Type) : Type :=
  values_get : loc → option K → M heap value.

#[global] Instance IPywalColors_values : Values Z :=
  λ values k,
    match k with
    | Some i => array_get values i
    | None => read_arr values;; mret VUndefined
    end.

#[global] Instance IPalette_values : Values string :=
  λ values k, obj_get values (default "undefined" k).

Section Colorscheme.

(** [changeLuminance] of [@utils/colors], [EXTENDED_PYWAL_COLORS] of
    [@config/default-themes], the two tables of [@config/template-data]
    and [EXTENSION_THEME_SELCTOR] of [@config/general]. *)
Variable changeLuminance : value → number → option number → option number → string.
Variable EXTENDED_PYWAL_COLORS : list IExtendedPywalColor.
Variables PALETTE_TEMPLATE_DATA BROWSER_TEMPLATE_DATA : list ITemplateItem.
Variable EXTENSION_THEME_SELCTOR : string.

Definition generatePywalPalette (pywalColors : loc) : M heap loc :=
  colors ← array_spread pywalColors;
  forEach EXTENDED_PYWAL_COLORS (λ color,
    let targetIndex := targetIndex color in
    match color with
    | ICustomPywalColor _ colorString =>
        array_splice colors targetIndex (VString colorString)
    | IModifiedPywalColor _ colorIndex modifier min max =>
        source ← array_get colors colorIndex;
        array_splice colors targetIndex
          (VString (changeLuminance source modifier min max))
    end);;
  mret colors.

Definition stripHashSymbol (color : value) : M heap string :=
  match color with
  | VString s => mret (substring_1 s)
  | VUndefined => throw TypeError
  end.

(** [(a, b) => ((a > b) ? 1 : -1)] *)
Definition compareFn (a b : string) : Z :=
  if string_gt a b then 1 else -1.

Definition generatePaletteHash (palette : loc) : M heap string :=
  colors ← Object_keys palette;
  let colors := Array_sort compareFn colors in
  foldM (λ hash key,
           color ← obj_get palette key;
           stripped ← stripHashSymbol color;
           mret (hash +:+ stripped))
        "" colors.

Definition createObjectFromTemplateData {K} `{Values K}
  (data : list ITemplateItem) (values : loc) (template : list (string * K))
  : M heap loc :=
  obj ← alloc (Obj []);
  forEach data (λ item,
    v ← values_get values (own (target item) template);
    obj_set obj (target item) v);;
  mret obj.

Definition generatePalette (pywalColors customColors : loc)
  (template : list (string * Z)) : M heap loc :=
  defaultPalette ← createObjectFromTemplateData PALETTE_TEMPLATE_DATA pywalColors template;
  Object_assign defaultPalette customColors.

Definition generateBrowserTheme (palette : loc) (template : list (string * string))
  : M heap loc :=
  createObjectFromTemplateData BROWSER_TEMPLATE_DATA palette template.

Definition generateDuckduckgoTheme (palette : loc)
  (template : list (string * IDuckDuckGoThemeTemplateItem)) : M heap loc :=
  theme ← alloc (Obj []);
  forEach template.*1 (λ key,
    match own key template with
    | Some item =>
        color ← obj_get palette (colorKey item);
        let color :=
          match modifier item with
          | Some m => VString (changeLuminance color m None None)
          | None => color
          end in
        stripped ← stripHashSymbol color;
        obj_set theme key (VString stripped)
    | None => throw TypeError
    end);;
  mret theme.

Definition generateExtensionTheme (palette : loc) : M heap string :=
  variables ← foldM (λ variables item,
                       color ← obj_get palette (target item);
                       mret (variables +:+ ToString (cssVariable item) +:+ ":"
                               +:+ ToString color +:+ ";"))
                    "" PALETTE_TEMPLATE_DATA;
  mret (EXTENSION_THEME_SELCTOR +:+ "{" +:+ variables +:+ "}").

Definition generateDarkreaderScheme (palette : loc) (mode : ThemeModes)
  : M heap loc :=
  background ← obj_get palette "background";
  text ← obj_get palette "text";
  if decide (mode = Dark) then
    alloc (Obj [("darkSchemeTextColor", text);
                ("darkSchemeBackgroundColor", background)])
  else
    alloc (Obj [("lightSchemeTextColor", text);
                ("lightSchemeBackgroundColor", background)]).

Definition generateColorscheme (mode : ThemeModes) (pywalColors customColors : loc)
  (template : IColorschemeTemplate) : M heap Colorscheme :=
  palette ← generatePalette pywalColors customColors (palette template);
  hash ← generatePaletteHash palette;
  browser ← generateBrowserTheme palette (browser template);
  extension ← generateExtensionTheme palette;
  duckduckgo ← generateDuckduckgoTheme palette (duckduckgo template);
  darkreader ← generateDarkreaderScheme palette mode;
  mret {| cs_hash := hash; cs_palette := palette; cs_browser := browser;
          cs_extension := extension; cs_duckduckgo := duckduckgo;
          cs_darkreader := darkreader |}.

End Colorscheme.

(** [PYWAL_PALETTE_LENGTH] *)
Definition PYWAL_PALETTE_LENGTH : nat := 18.

(** *** What the generated objects hold

    The contents of each object the generator builds, as a function of
    the contents of the objects it was given. *)

Definition read_items (items : list value) (k : option Z) : value :=
  match k with
  | Some i => items_get i items
  | None => VUndefined
  end.

Definition read_props (o : props) (k : option string) : value :=
  props_get (default "undefined" k) o.

(** [read] is what [values[k]] reads in [h], whatever the object under
    construction at [l] holds. *)
Definition reads {K} `{Values K} (values : loc) (read : option K → value)
  (h : heap) (l : loc) : Prop :=
  ∀ o k, values_get values k (<[l := Obj o]> h) = (Returns (read k), <[l := Obj o]> h).

Definition template_props {K} (read : option K → value)
  (data : list ITemplateItem) (template : list (string * K)) (o : props) : props :=
  foldl (λ o item, props_set (target item) (read (own (target item) template)) o)
        o data.

Definition assign_props (target source : props) : props :=
  foldl (λ o kv, props_set kv.1 kv.2 o) target source.

Definition palette_props (data : list ITemplateItem) (items : list value)
  (customColors : props) (template : list (string * Z)) : props :=
  assign_props (template_props (read_items items) data template []) customColors.

Definition strip (color : value) : outcome string :=
  match color with
  | VString s => Returns (substring_1 s)
  | VUndefined => Throws TypeError
  end.

Fixpoint hash_from (o : props) (hash : string) (keys : list string)
  : outcome string :=
  match keys with
  | [] => Returns hash
  | key :: rest =>
      match strip (props_get key o) with
      | Returns stripped => hash_from o (hash +:+ stripped) rest
      | Throws e => Throws e
      end
  end.

Definition palette_hash (o : props) : outcome string :=
  hash_from o "" (Array_sort compareFn o.*1).

Definition extension_variables (data : list ITemplateItem) (o : props)
  (variables : string) : string :=
  foldl (λ variables item,
           variables +:+ ToString (cssVariable item) +:+ ":"
             +:+ ToString (props_get (target item) o) +:+ ";")
        variables data.

Fixpoint duckduckgo_from
  (changeLuminance : value → number → option number → option number → string)
  (o : props) (template : list (string * IDuckDuckGoThemeTemplateItem))
  (theme : props) (keys : list string) : outcome unit * props :=
  match keys with
  | [] => (Returns tt, theme)
  | key :: rest =>
      match own key template with
      | Some item =>
          let color := props_get (colorKey item) o in
          let color :=
            match modifier item with
            | Some m => VString (changeLuminance color m None None)
            | None => color
            end in
          match strip color with
          | Returns stripped =>
              duckduckgo_from changeLuminance o template
                (props_set key (VString stripped) theme) rest
          | Throws e => (Throws e, theme)
          end
      | None => (Throws TypeError, theme)
      end
  end.

Definition darkreader_props (o : props) (mode : ThemeModes) : props :=
  if decide (mode = Dark) then
    [("darkSchemeTextColor", props_get "text" o);
     ("darkSchemeBackgroundColor", props_get "background" o)]
  else
    [("lightSchemeTextColor", props_get "text" o);
     ("lightSchemeBackgroundColor", props_get "background" o)].

(** One step of [generatePywalPalette]: the value a spec stands for is
    spliced into the sequence built so far. *)
Definition insert_color
  (changeLuminance : value → number → option number → option number → string)
  (colors : list value) (color : IExtendedPywalColor) : list value :=
  match color with
  | ICustomPywalColor targetIndex colorString =>
      items_splice targetIndex (VString colorString) colors
  | IModifiedPywalColor targetIndex colorIndex modifier min max =>
      items_splice targetIndex
        (VString (changeLuminance (items_get colorIndex colors) modifier min max))
        colors
  end.

(** The target indices go up strictly, from [lo] on, and none lies
    beyond the end of the sequence at the time it is used. *)
Fixpoint ascending (lo len : Z) (specs : list IExtendedPywalColor) : Prop :=
  match specs with
  | [] => True
  | color :: rest =>
      (lo ≤ targetIndex color ≤ len)%Z ∧
      ascending (targetIndex color + 1) (len + 1) rest
  end.

(** Two colors that are the same from their second character on. *)
Definition same_after_first (v1 v2 : value) : Prop :=
  v1 = v2 ∨ ∃ c1 c2 s, v1 = VString (String c1 s) ∧ v2 = VString (String c2 s).

(** What a caller can see of a generated colorscheme in the store [h]:
    the two strings, and what the four references hold. *)
Abbreviation view :=
  (string * option cell * option cell * string * option cell * option cell)%type.

Definition snapshot (c : Colorscheme) (h : heap) : view :=
  (cs_hash c, h !! cs_palette c, h !! cs_browser c, cs_extension c,
   h !! cs_duckduckgo c, h !! cs_darkreader c).

Definition observe (r : outcome Colorscheme * heap) : outcome view :=
  match r.1 with
  | Returns c => Returns (snapshot c r.2)
  | Throws e => Throws e
  end.

(** What [generateColorscheme] shows its caller, from the contents of
    the two objects it is given. *)
Definition colorscheme_view
  (changeLuminance : value → number → option number → option number → string)
  (PALETTE_TEMPLATE_DATA BROWSER_TEMPLATE_DATA : list ITemplateItem)
  (EXTENSION_THEME_SELCTOR : string)
  (mode : ThemeModes) (items : list value) (customColors : props)
  (template : IColorschemeTemplate) : outcome view :=
  let o := palette_props PALETTE_TEMPLATE_DATA items customColors (palette template) in
  match palette_hash o with
  | Throws e => Throws e
  | Returns hash =>
      let theme :=
        duckduckgo_from changeLuminance o (duckduckgo template) []
          (duckduckgo template).*1 in
      match theme.1 with
      | Throws e => Throws e
      | Returns _ =>
          Returns
            (hash,
             Some (Obj o),
             Some (Obj (template_props (read_props o) BROWSER_TEMPLATE_DATA
                          (browser template) [])),
             EXTENSION_THEME_SELCTOR +:+ "{"
               +:+ extension_variables PALETTE_TEMPLATE_DATA o "" +:+ "}",
             Some (Obj theme.2),
             Some (Obj (darkreader_props o mode)))
      end
  end.

(** *** A sample configuration

    The palette template is [DEFAULT_THEME_TEMPLATE]; the rest stands in
    for configuration files that are not part of these sources. *)

Definition sample_luminance (color : value) (modifier : number)
  (min max : option number) : string :=
  ToString color.

Definition sample_extended : list IExtendedPywalColor :=
  [ ICustomPywalColor 16 "#ffffff";
    IModifiedPywalColor 17 0 1.25%float None None;
    ICustomPywalColor 19 "#000000" ].


Definition sample_colors : list value :=
  VString <$>
    [ "#1d2021"; "#cc241d"; "#98971a"; "#d79921"; "#458588"; "#b16286";
      "#689d6a"; "#a89984"; "#928374"; "#fb4934"; "#b8bb26"; "#fabd2f";
      "#83a598"; "#d3869b"; "#8ec07c"; "#ebdbb2"; "#fbf1c7"; "#3c3836" ].

Definition sample_custom : props :=
  [ ("text", VString "#ffffff"); ("accentPrimary", VString "0284f7") ].

Definition sample_palette : props :=
  [ ("background", VString "#1d2021"); ("text", VString "#fbf1c7");
    ("accentPrimary", VString "#cc241d") ].

Definition sample_palette_reordered : props :=
  [ ("text", VString "#fbf1c7"); ("accentPrimary", VString "#cc241d");
    ("background", VString "#1d2021") ].

Definition sample_palette_unmarked : props :=
  [ ("text", VString "#fbf1c7"); ("background", VString "x1d2021");
    ("accentPrimary", VString "ccc241d") ].

Definition sample_store : heap :=
  <[5%positive := Obj sample_palette_unmarked]>
    (<[4%positive := Obj sample_palette_reordered]>
       (<[3%positive := Obj sample_palette]>
          (<[2%positive := Obj sample_custom]>
             (<[1%positive := Arr sample_colors]> ∅)))).

Definition sample_palette_data : list ITemplateItem :=
  [ {| target := "background"; cssVariable := VString "--background" |};
    {| target := "foreground"; cssVariable := VString "--foreground" |};
    {| target := "backgroundLight"; cssVariable := VString "--background-light" |};
    {| target := "accentPrimary"; cssVariable := VString "--accent-primary" |};
    {| target := "accentSecondary"; cssVariable := VString "--accent-secondary" |};
    {| target := "text"; cssVariable := VString "--text-color" |} ].

Definition sample_browser_data : list ITemplateItem :=
  [ {| target := "frame"; cssVariable := VUndefined |};
    {| target := "tab_text"; cssVariable := VUndefined |};
    {| target := "popup"; cssVariable := VUndefined |} ].

Definition DEFAULT_THEME_TEMPLATE : list (string * Z) :=
  [ ("accentPrimary", 1%Z); ("accentSecondary", 2%Z); ("background", 0%Z);
    ("foreground", 15%Z); ("text", 16%Z); ("backgroundLight", 17%Z) ].

Definition sample_template : IColorschemeTemplate :=
  {| palette := DEFAULT_THEME_TEMPLATE;
     browser := [ ("frame", "background"); ("tab_text", "text") ];
     duckduckgo :=
       [ ("background", {| colorKey := "background"; modifier := None |});
         ("headerBackground",
          {| colorKey := "background"; modifier := Some 1.25%float |}) ] |}.

End Colorscheme.

(** ** The message handlers of [NativeApp]

    [onMessage] and the handlers it dispatches to.  They call callbacks
    that [NativeApp.event] does not name, so the calls are recorded here
    in a type of their own, and the two handlers embedded above are run
    through [earlier]. *)

Module NativeAppHandlers.
Import NativeApp.

(** A call of one of the [INativeAppMessageCallbacks], or of
    [port.postMessage].  [output] takes any value: [onDebuggingOutput]
    passes the payload on as it came. *)
Inductive call : Type :=
| CallOutput (message : json) (error : option bool)
| CallConnected
| CallDisconnected (e : INativeAppError)
| CallVersion (v : json)
| CallUpdateNeeded
| CallPywalColorsFetchSuccess (pywalData : json)
| CallPywalColorsFetchFailed (error : option string)
| CallCssToggleSuccess (target : json)
| CallCssToggleFailed (target : json) (error : option string)
| CallCssFontSizeSetSuccess (size : number)
| CallCssFontSizeSetFailed (error : option string)
| CallThemeModeSet (mode : Colorscheme.ThemeModes)
| CallPostMessage (m : INativeAppRequest).

Definition of_event (e : event) : call :=
  match e with
  | Output message error => CallOutput (JString message) error
  | Connected => CallConnected
  | Disconnected e => CallDisconnected e
  | Version v => CallVersion v
  | UpdateNeeded => CallUpdateNeeded
  | PywalColorsFetchSuccess pywalData => CallPywalColorsFetchSuccess pywalData
  | PywalColorsFetchFailed error => CallPywalColorsFetchFailed error
  | PostMessage m => CallPostMessage m
  end.

(** The session as in [world], with the calls made so far, oldest first. *)
Record session : Type := {
  s_this : fields;
  s_timers : gmap nat event;
  s_next_timer : nat;
  calls : list call;
}.

(** A method embedded over [world], run in a [session]: its events are
    the calls it makes. *)
Definition earlier {A} (m : M world A) : M session A :=
  λ s, let r := m {| this := s_this s; timers := s_timers s;
                     next_timer := s_next_timer s; trace := [] |} in
       (r.1, {| s_this := this r.2; s_timers := timers r.2;
                s_next_timer := next_timer r.2;
                calls := calls s ++ (of_event <$> trace r.2) |}).

Definition make (c : call) : M session unit :=
  modify (λ s, {| s_this := s_this s; s_timers := s_timers s;
                  s_next_timer := s_next_timer s; calls := calls s ++ [c] |}).

(** [a === b] for a value off the wire and a string. *)
Definition strict_eq_string (v : json) (s : string) : bool :=
  match v with
  | JString t => String.eqb t s
  | _ => false
  end.

(** The double quote character. *)
Definition quote : string := String (Ascii.ascii_of_nat 34) "".

(** [items.join(',')] from the strings of the items. *)
Fixpoint join (items : list string) : string :=
  match items with
  | [] => ""
  | [s] => s
  | s :: rest => s +:+ "," +:+ join rest
  end.

Section NativeAppHandlers.

(** [NATIVE_MESSAGES] of [@config/general]; the strings that are the
    values of the [ThemeModes] enumeration of [@definitions]; and two
    functions of the language: [parseInt(text, 10)] on a string, and the
    conversion of a number to a string. *)
Variables VERSION OUTPUT PYWAL_COLORS CSS_ENABLE CSS_DISABLE : string.
Variables CSS_FONT_SIZE THEME_MODE INVALID_ACTION : string.
Variable ThemeModes_value : Colorscheme.ThemeModes → string.
Variable parseInt_string : string → number.
Variable Number_toString : number → string.

(** The conversion of a value to a string, as a template literal and
    [parseInt] do it.  An object is converted by its [toString] method: one
    that owns a key [toString] holds a value off the wire there, which is
    no function, and the conversion throws; any other object answers with
    the method of [Object.prototype].  An array joins the strings of its
    items. *)
Fixpoint ToString (v : json) : outcome string :=
  match v with
  | JNull => Returns "null"
  | JBool true => Returns "true"
  | JBool false => Returns "false"
  | JNumber x => Returns (Number_toString x)
  | JString s => Returns s
  | JArray items =>
      match collect (map (λ item, match item with
                                  | JNull => Returns ""
                                  | _ => ToString item
                                  end) items) with
      | Returns texts => Returns (join texts)
      | Throws e => Throws e
      end
  | JObject props =>
      if bool_decide ("toString" ∈ props.*1) then Throws TypeError
      else Returns "[object Object]"
  end.

(** [parseInt(v, 10)]: the value is converted to a string first. *)
Definition parseInt (v : json) : outcome number :=
  match ToString v with
  | Returns text => Returns (parseInt_string text)
  | Throws e => Throws e
  end.

Definition logError (error : string) : M session unit :=
  make (CallOutput (JString error) (Some true)).

Definition getData (message : INativeAppMessage) : M session json :=
  earlier (NativeApp.getData message).

Definition onCssToggleResponse (message : INativeAppMessage) : M session unit :=
  target ← getData message;
  if truthy_flag (success message) then
    if negb (truthy target) then
      logError "Custom CSS was applied successfully, but the target was not specified"
    else
      make (CallCssToggleSuccess target)
  else
    make (CallCssToggleFailed target (error message)).

Definition onCssFontSizeResponse (message : INativeAppMessage) : M session unit :=
  if truthy_flag (success message) then
    updatedFontSize ← getData message;
    if negb (truthy updatedFontSize) then
      logError "Font size was updated successfully, but the new size was not specified"
    else
      size ← of_outcome (parseInt updatedFontSize);
      make (CallCssFontSizeSetSuccess size)
  else
    make (CallCssFontSizeSetFailed (error message)).

Definition onThemeModeResponse (message : INativeAppMessage) : M session unit :=
  mode ← getData message;
  if negb (truthy mode) then
    logError "Received theme mode command, but the new mode was not specified"
  else if strict_eq_string mode (ThemeModes_value Colorscheme.Dark) then
    make (CallThemeModeSet Colorscheme.Dark)
  else if strict_eq_string mode (ThemeModes_value Colorscheme.Light) then
    make (CallThemeModeSet Colorscheme.Light)
  else if strict_eq_string mode (ThemeModes_value Colorscheme.Auto) then
    make (CallThemeModeSet Colorscheme.Auto)
  else
    text ← of_outcome (ToString mode);
    logError ("Received theme mode command, but the mode " +:+ quote
                +:+ text +:+ quote +:+ " was invalid").

Definition onDebuggingOutput (message : INativeAppMessage) : M session unit :=
  output ← getData message;
  if truthy output then make (CallOutput output None) else mret tt.

(** The [switch] of [onMessage]: every clause ends in [break], so the
    first label equal to the action decides. *)
Definition onMessage (message : INativeAppMessage) : M session unit :=
  let a := action message in
  if String.eqb a VERSION then earlier (onVersionResponse message)
  else if String.eqb a OUTPUT then onDebuggingOutput message
  else if String.eqb a PYWAL_COLORS then earlier (onPywalColorsResponse message)
  else if String.eqb a CSS_ENABLE || String.eqb a CSS_DISABLE then
    onCssToggleResponse message
  else if String.eqb a CSS_FONT_SIZE then onCssFontSizeResponse message
  else if String.eqb a THEME_MODE then onThemeModeResponse message
  else if String.eqb a INVALID_ACTION then
    logError ("Native app recieved unhandled message action: " +:+ a)
  else
    logError ("Received unhandled message action: " +:+ a).

End NativeAppHandlers.

(** [s] after the calls [cs]. *)
Definition with_calls (s : session) (cs : list call) : session :=
  {| s_this := s_this s; s_timers := s_timers s; s_next_timer := s_next_timer s;
     calls := calls s ++ cs |}.

(** [s] after [clearTimeout] of its version-check timer. *)
Definition version_timer_cancelled (s : session) : session :=
  {| s_this := s_this s;
     s_timers := from_option (λ id, delete id (s_timers s)) (s_timers s)
                   (versionCheckTimeout (s_this s));
     s_next_timer := s_next_timer s; calls := calls s |}.

Definition is_callback_error_log (c : call) : bool :=
  match c with
  | CallOutput _ (Some true) => true
  | _ => false
  end.

Definition posts (c : call) : bool :=
  match c with
  | CallPostMessage _ => true
  | _ => false
  end.

(** [s'] is [s] after some calls, none of which posts on the port. *)
Definition quiet (s s' : session) : Prop :=
  ∃ cs, s' = with_calls s cs ∧ existsb posts cs = false.

(** A message on which no handler throws: neither the message nor its
    payload owns a key [hasOwnProperty], and the payload can be converted
    to a string. *)
Definition plain (Number_toString : number → string) (message : INativeAppMessage)
  : Prop :=
  shadowed message = false ∧
  ∀ d, data message = Some d →
    owns d "hasOwnProperty" = false ∧ returns (ToString Number_toString d) = true.

(** What a handler has done to the session [s] when it ends at [r],
    whether it returns or throws: some calls, none of which posts on the
    port; and on a [plain] message it returns. *)
Definition harmless (Number_toString : number → string) (message : INativeAppMessage)
  (s : session) (r : outcome unit * session) : Prop :=
  quiet s r.2 ∧ (plain Number_toString message → r.1 = Returns tt).

Definition empty_session : session :=
  {| s_this := this new_world; s_timers := ∅; s_next_timer := 1; calls := [] |}.

(** Sample values for what is not part of these sources. *)
Definition sample_mode_value (mode : Colorscheme.ThemeModes) : string :=
  match mode with
  | Colorscheme.Dark => "dark"
  | Colorscheme.Light => "light"
  | Colorscheme.Auto => "auto"
  end.

Definition sample_parseInt (text : string) : number := 13%float.

Definition sample_Number_toString (x : number) : string := "13".

End NativeAppHandlers.

(** * Properties of the native-messaging session *)

Module NativeAppSpec.
Import NativeApp.

Ltac run :=
  unfold onVersionResponse, onPywalColorsResponse, onDisconnect, sendMessage,
    requestVersion, requestPywalColors, requestCssEnabled, requestFontSizeSet,
    getData, logError, log, emit, clearTimeout, with_events, cancelled;
  cbv [mbind mret M_bind M_ret bind ret gets modify throw of_outcome].

Lemma with_events_app w es1 es2 :
  with_events (with_events w es1) es2 = with_events w (es1 ++ es2).
Proof. unfold with_events; simpl. by rewrite app_assoc. Qed.

(** The classification is the same whatever the error says: with no
    [break], every entry point of the [switch] runs into [default]. *)
Lemma classification_is_Unknown (m : string) (e : INativeAppError) :
  type (switch_no_break m
          [ (Case "Error: No such native application pywalfox",
             set_type ManifestNotInstalled);
            (Case "Error: An unexpected error occurred", set_type UnexpectedError);
            (Default, set_type Unknown) ] e) = Unknown.
Proof.
  unfold switch_no_break; simpl.
  destruct (String.eqb m _); [reflexivity|].
  destruct (String.eqb m _); reflexivity.
Qed.

(** C1, on the code: a disconnect whose error message is
    "Error: No such native application pywalfox" assigns
    [ManifestNotInstalled], falls through the two clauses below it, and
    the [disconnected] callback receives the type [Unknown]. *)
Theorem onDisconnect_no_such_application error_to_string w :
  let error := {| error_message := "Error: No such native application pywalfox" |} in
  onDisconnect error_to_string {| port_error := Some error |} w =
    (Returns tt,
     with_events
       (cancelled (connectedCheckTimeout (this w))
          (cancelled (versionCheckTimeout (this w)) w))
       [ Output ("Disconnected from native messaging host: "
                   +:+ error_to_string (Some error)) (Some true);
         Disconnected {| type := Unknown;
                         message := Some "Error: No such native application pywalfox" |} ]).
Proof.
  intros error. run. destruct w as [[c p v k] ts n tr]; simpl.
  destruct v, k; simpl; rewrite <- ?app_assoc; reflexivity.
Qed.

(** Whatever the error says, the callback is told [Unknown]; with no
    error it is told [None]. *)
Lemma onDisconnect_any_error error_to_string error w :
  onDisconnect error_to_string {| port_error := Some error |} w =
    (Returns tt,
     with_events
       (cancelled (connectedCheckTimeout (this w))
          (cancelled (versionCheckTimeout (this w)) w))
       [ Output ("Disconnected from native messaging host: "
                   +:+ error_to_string (Some error)) (Some true);
         Disconnected {| type := Unknown; message := Some (error_message error) |} ]).
Proof.
  run. destruct w as [[c p v k] ts n tr]; simpl.
  pose proof (classification_is_Unknown (error_message error)
                {| type := None_; message := None |}) as Hclass.
  unfold set_message.
  destruct v, k; simpl; rewrite <- ?app_assoc, Hclass; reflexivity.
Qed.

Example onDisconnect_no_error error_to_string :
  onDisconnect error_to_string {| port_error := None |} new_world =
    (Returns tt,
     with_events new_world
       [ Output ("Disconnected from native messaging host: " +:+ error_to_string None)
           (Some true);
         Disconnected {| type := None_; message := None |} ]).
Proof. reflexivity. Qed.

(** A connected session does post its requests. *)
Example requestPywalColors_connected :
  trace (requestPywalColors "action:get:pywal"
           (connect 3000%float "debug:version" {| port_error := None |} new_world).2).2 =
    [ PostMessage {| req_action := "debug:version"; req_target := None; req_size := None |};
      Connected;
      PostMessage {| req_action := "action:get:pywal"; req_target := None;
                     req_size := None |} ].
Proof. reflexivity. Qed.

Lemma sendMessage_not_connected message w :
  truthy_flag (isConnected (this w)) = false →
  sendMessage message w =
    (Returns tt,
     with_events w
       [Output "Failed to send data to native app. You are not connected" (Some true)]).
Proof. intros Hc. run. rewrite Hc. reflexivity. Qed.

(** C2: while [isConnected] is [false] (or was never set), each of the
    four request methods returns having done one thing only: one call of
    the [output] callback, with the error flag.  Nothing is posted on the
    port, and no field of the session changes, so nothing is kept for
    later. *)
Theorem request_while_not_connected
  (VERSION PYWAL_COLORS CSS_ENABLE CSS_DISABLE CSS_FONT_SIZE : string)
  (target : string) (enabled : bool) (size : number) (w : world) :
  truthy_flag (isConnected (this w)) = false →
  ∀ request,
    request ∈ [ requestVersion VERSION; requestPywalColors PYWAL_COLORS;
                requestCssEnabled CSS_ENABLE CSS_DISABLE target enabled;
                requestFontSizeSet CSS_FONT_SIZE target size ] →
    ∃ w' entry,
      request w = (Returns tt, w') ∧
      w' = with_events w [entry] ∧
      is_error_log entry = true ∧
      is_PostMessage entry = false ∧
      this w' = this w ∧ timers w' = timers w.
Proof.
  intros Hc request Hin.
  repeat (apply elem_of_cons in Hin as [->|Hin]);
    [ eexists _, _; (split; [by apply sendMessage_not_connected|by repeat split]) ..
    | by apply elem_of_nil in Hin ].
Qed.

Lemma request_while_not_connected_witness :
  truthy_flag (isConnected (this disconnected_world)) = false ∧
  ∃ w' entry,
    requestPywalColors "action:get:pywal" disconnected_world = (Returns tt, w') ∧
    w' = with_events disconnected_world [entry] ∧
    is_error_log entry = true ∧
    is_PostMessage entry = false ∧
    this w' = this disconnected_world ∧ timers w' = timers disconnected_world.
Proof.
  split; [reflexivity|].
  apply (request_while_not_connected "debug:version" "action:get:pywal"
           "css:enable" "css:disable" "css:font:size" "userChrome" true 13%float
           disconnected_world);
    [reflexivity|].
  apply list_elem_of_further, list_elem_of_here.
Defined.

Lemma cancelled_not_pending id w es :
  timers (with_events (cancelled (Some id) w) es) !! id = None.
Proof. simpl. apply lookup_delete_eq. Qed.

(** A timer that is not pending does nothing when its time comes. *)
Lemma timer_fires_not_pending id w :
  timers w !! id = None → timer_fires id w = (Returns tt, w).
Proof.
  intros Hid. unfold timer_fires.
  cbv [mbind M_bind bind gets]. by rewrite Hid.
Qed.

Lemma hasOwnProperty_Returns d key :
  truthy d = true → owns d "hasOwnProperty" = false →
  hasOwnProperty d key = Returns (owns d key).
Proof.
  destruct d as [| | | | |props]; simpl; try done.
  by intros _ ->.
Qed.

(** C3, as amended: a palette-fetch response whose [success] is falsy
    hands the carried error to [pywalColorsFetchFailed].  On a message
    that owns no key [hasOwnProperty]: when [success] is true and the
    payload is truthy and owns no key [hasOwnProperty] either,
    [pywalColorsFetchSuccess] receives the payload itself if it owns a
    [wallpaper] property, and exactly [{colors: payload, wallpaper: null}]
    otherwise; when [success] is true and the payload is missing or falsy
    ([null], [false], [0], [NaN], the empty string), only error log entries
    are produced. *)
Theorem onPywalColorsResponse_spec message w :
  ∃ r es,
    onPywalColorsResponse message w = (r, with_events w es) ∧
    (truthy_flag (success message) = false →
       r = Returns tt ∧ es = [PywalColorsFetchFailed (error message)]) ∧
    (truthy_flag (success message) = true → shadowed message = false →
       ∀ d, data message = Some d → truthy d = true →
         owns d "hasOwnProperty" = false →
         r = Returns tt ∧
         es = [PywalColorsFetchSuccess
                 (if owns d "wallpaper" then d
                  else JObject [("colors", d); ("wallpaper", JNull)])]) ∧
    (truthy_flag (success message) = true → shadowed message = false →
       data message = None ∨ (∃ d, data message = Some d ∧ truthy d = false) →
         r = Returns tt ∧ es ≠ [] ∧ forallb is_error_log es = true).
Proof.
  destruct message as [a s e d o]; unfold shadowed; simpl.
  destruct (truthy_flag s) eqn:Hs.
  2:{ exists (Returns tt), [PywalColorsFetchFailed e].
      split; [|split; [done|split; done]].
      run; simpl. rewrite Hs; simpl. reflexivity. }
  destruct (bool_decide ("hasOwnProperty" ∈ o.*1)) eqn:Ho.
  { exists (Throws TypeError), [].
    split; [|split; [done|split; done]].
    run; unfold shadowed; simpl. rewrite Hs, Ho; simpl.
    unfold with_events. rewrite app_nil_r. by destruct w. }
  destruct d as [d|].
  - destruct (truthy d) eqn:Hd.
    + destruct (hasOwnProperty d "wallpaper") as [wallpaper|x] eqn:Hw.
      * exists (Returns tt),
          [PywalColorsFetchSuccess
             (if wallpaper then d else JObject [("colors", d); ("wallpaper", JNull)])].
        split; [|split; [done|split]].
        -- run; unfold shadowed, of_outcome; simpl. rewrite Hs, Ho, Hd; simpl.
           rewrite Hw. destruct wallpaper; reflexivity.
        -- intros _ _ d' [= <-] _ Hown.
           rewrite (hasOwnProperty_Returns _ _ Hd Hown) in Hw.
           by injection Hw as <-.
        -- intros _ _ [?|(d' & [= <-] & ?)]; congruence.
      * exists (Throws x), [].
        split; [|split; [done|split]].
        -- run; unfold shadowed, of_outcome; simpl. rewrite Hs, Ho, Hd; simpl.
           rewrite Hw. unfold with_events. rewrite app_nil_r. by destruct w.
        -- intros _ _ d' [= <-] _ Hown.
           by rewrite (hasOwnProperty_Returns _ _ Hd Hown) in Hw.
        -- intros _ _ [?|(d' & [= <-] & ?)]; congruence.
    + exists (Returns tt),
        [Output "Pywal data was read successfully but contained null" (Some true)].
      split; [|split; [done|split]].
      * run; unfold shadowed; simpl. rewrite Hs, Ho, Hd; simpl. reflexivity.
      * intros _ _ d' [= <-] ?; congruence.
      * done.
  - exists (Returns tt),
      [Output "Recieved invalid message from native app. The 'data' field is undefined."
         (Some true);
       Output "Pywal data was read successfully but contained null" (Some true)].
    split; [|split; [done|split]].
    + run; unfold shadowed; simpl. rewrite Hs, Ho; simpl. rewrite <- app_assoc. reflexivity.
    + done.
    + done.
Qed.

Lemma onPywalColorsResponse_spec_witness :
  truthy_flag (Some true) = true ∧
  truthy (JArray [JString "#000000"; JString "#ffffff"]) = true ∧
  owns (JArray [JString "#000000"; JString "#ffffff"]) "hasOwnProperty" = false ∧
  onPywalColorsResponse
    {| action := "action:get:pywal"; success := Some true; error := None;
       data := Some (JArray [JString "#000000"; JString "#ffffff"]); others := [] |}
    new_world =
  (Returns tt,
   with_events new_world
     [PywalColorsFetchSuccess
        (JObject [("colors", JArray [JString "#000000"; JString "#ffffff"]);
                  ("wallpaper", JNull)])]).
Proof.
  split; [reflexivity|split; [reflexivity|split; [reflexivity|]]].
  destruct (onPywalColorsResponse_spec
              {| action := "action:get:pywal"; success := Some true; error := None;
                 data := Some (JArray [JString "#000000"; JString "#ffffff"]);
                 others := [] |}
              new_world) as (r & es & Hrun & _ & Hok & _).
  rewrite Hrun.
  destruct (Hok eq_refl eq_refl _ eq_refl eq_refl eq_refl) as [-> ->]. reflexivity.
Defined.

(** C3, as stated, at a payload that is not [null] and is falsy: the
    response [{success: true, data: ''}] has no [wallpaper] property, and
    [pywalColorsFetchSuccess] is not called. *)
Lemma onPywalColorsResponse_empty_string_payload :
  JString "" ≠ JNull ∧
  hasOwnProperty (JString "") "wallpaper" = Returns false ∧
  onPywalColorsResponse
    {| action := "action:get:pywal"; success := Some true; error := None;
       data := Some (JString ""); others := [] |}
    new_world =
  (Returns tt,
   with_events new_world
     [Output "Pywal data was read successfully but contained null" (Some true)]) ∧
  existsb is_PywalColorsFetchSuccess
    (trace (onPywalColorsResponse
              {| action := "action:get:pywal"; success := Some true; error := None;
                 data := Some (JString ""); others := [] |}
              new_world).2) = false.
Proof. repeat split; [discriminate|..]; reflexivity. Qed.

(** A payload that owns a key [hasOwnProperty]: calling it throws, and no
    callback is called.  So does [getData] on a message that owns one. *)
Example onPywalColorsResponse_shadowed_payload :
  onPywalColorsResponse
    {| action := "action:get:pywal"; success := Some true; error := None;
       data := Some (JObject [("hasOwnProperty", JNumber 1%float)]); others := [] |}
    new_world =
  (Throws TypeError, new_world).
Proof. reflexivity. Qed.

Lemma getData_shadowed message w :
  shadowed message = true → getData message w = (Throws TypeError, w).
Proof. intros Hs. unfold getData. by rewrite Hs. Qed.

Lemma onPywalColorsResponse_shadowed message w :
  truthy_flag (success message) = true → shadowed message = true →
  onPywalColorsResponse message w = (Throws TypeError, w).
Proof.
  intros Hok Hs. unfold onPywalColorsResponse. rewrite Hok. simpl.
  cbv [mbind M_bind bind]. by rewrite getData_shadowed.
Qed.

(** C4, as amended: a version response that owns no key [hasOwnProperty]
    cancels the version-check timer, which then does nothing if its time
    comes.  With a truthy payload the [version] callback receives exactly
    that payload and [updateNeeded] is not called; with a payload that is
    absent or falsy, [updateNeeded] is called and [version] is not. *)
Theorem onVersionResponse_spec message w :
  shadowed message = false →
  ∃ es,
    onVersionResponse message w =
      (Returns tt, with_events (cancelled (versionCheckTimeout (this w)) w) es) ∧
    (∀ id w', versionCheckTimeout (this w) = Some id →
       (onVersionResponse message w).2 = w' →
       timers w' !! id = None ∧ timer_fires id w' = (Returns tt, w')) ∧
    (∀ v, data message = Some v → truthy v = true → es = [Version v]) ∧
    (∀ v, data message = Some v → truthy v = false → es = [UpdateNeeded]) ∧
    (data message = None →
       es = [Output "Recieved invalid message from native app. The 'data' field is undefined."
               (Some true);
             UpdateNeeded]).
Proof.
  intros Ho.
  assert (∃ es,
    onVersionResponse message w =
      (Returns tt, with_events (cancelled (versionCheckTimeout (this w)) w) es) ∧
    (∀ v, data message = Some v → truthy v = true → es = [Version v]) ∧
    (∀ v, data message = Some v → truthy v = false → es = [UpdateNeeded]) ∧
    (data message = None →
       es = [Output "Recieved invalid message from native app. The 'data' field is undefined."
               (Some true);
             UpdateNeeded])) as (es & Hrun & H1 & H2 & H3).
  { unfold onVersionResponse, getData. rewrite Ho.
    destruct message as [a s e d o]; simpl.
    destruct d as [d|].
    - destruct (truthy d) eqn:Hd.
      + exists [Version d]. split; [|split; [|split]].
        * run; simpl. rewrite Hd; simpl.
          destruct (versionCheckTimeout (this w)); reflexivity.
        * by intros v [= <-] _.
        * intros v [= <-] ?; congruence.
        * done.
      + exists [UpdateNeeded]. split; [|split; [|split]].
        * run; simpl. rewrite Hd; simpl.
          destruct (versionCheckTimeout (this w)); reflexivity.
        * intros v [= <-] ?; congruence.
        * by intros v [= <-] _.
        * done.
    - exists [Output "Recieved invalid message from native app. The 'data' field is undefined."
                (Some true);
              UpdateNeeded].
      split; [|split; [|split]].
      + run; simpl. rewrite <- app_assoc.
        destruct (versionCheckTimeout (this w)); reflexivity.
      + done.
      + done.
      + done. }
  exists es. split; [exact Hrun|]. split; [|by repeat split].
  intros id w' Hid <-. rewrite Hrun, Hid.
  assert (timers (with_events (cancelled (Some id) w) es) !! id = None) as Hgone
    by apply cancelled_not_pending.
  split; [exact Hgone|]. by apply timer_fires_not_pending.
Qed.

Lemma onVersionResponse_spec_witness :
  shadowed {| action := "debug:version"; success := None; error := None;
              data := Some (JString "2.0"); others := [] |} = false ∧
  truthy (JString "2.0") = true ∧
  onVersionResponse
    {| action := "debug:version"; success := None; error := None;
       data := Some (JString "2.0"); others := [] |}
    (connect 3000%float "debug:version" {| port_error := None |} new_world).2 =
  (Returns tt,
   {| this := {| isConnected := Some true; port := Some {| port_error := None |};
                 versionCheckTimeout := Some 1; connectedCheckTimeout := None |};
      timers := ∅; next_timer := 2;
      trace := [ PostMessage {| req_action := "debug:version"; req_target := None;
                                req_size := None |};
                 Connected; Version (JString "2.0") ] |}).
Proof.
  split; [reflexivity|]. split; [reflexivity|].
  destruct (onVersionResponse_spec
              {| action := "debug:version"; success := None; error := None;
                 data := Some (JString "2.0"); others := [] |}
              (connect 3000%float "debug:version" {| port_error := None |} new_world).2
              eq_refl)
    as (es & Hrun & _ & Hok & _).
  rewrite Hrun, (Hok _ eq_refl eq_refl). vm_compute. reflexivity.
Defined.

(** C4, as stated, at a payload that is present and falsy: on
    [{action: version, data: ''}] the [version] callback is not called and
    [updateNeeded] is. *)
Lemma onVersionResponse_empty_string_payload :
  data {| action := "debug:version"; success := Some true; error := None;
          data := Some (JString ""); others := [] |} = Some (JString "") ∧
  onVersionResponse
    {| action := "debug:version"; success := Some true; error := None;
       data := Some (JString ""); others := [] |}
    new_world =
  (Returns tt, with_events new_world [UpdateNeeded]).
Proof. split; reflexivity. Qed.

(** A version response that owns a key [hasOwnProperty]: [getData] throws
    before any callback is called, and the version-check timer stays
    armed. *)
Lemma onVersionResponse_shadowed message w :
  shadowed message = true → onVersionResponse message w = (Throws TypeError, w).
Proof.
  intros Hs. unfold onVersionResponse.
  cbv [mbind M_bind bind]. by rewrite getData_shadowed.
Qed.

Example onVersionResponse_shadowed_message :
  onVersionResponse
    {| action := "debug:version"; success := None; error := None;
       data := Some (JString "2.0"); others := [("hasOwnProperty", JBool true)] |}
    (connect 3000%float "debug:version" {| port_error := None |} new_world).2 =
  (Throws TypeError,
   (connect 3000%float "debug:version" {| port_error := None |} new_world).2) ∧
  timers (connect 3000%float "debug:version" {| port_error := None |} new_world).2 !! 1 =
    Some UpdateNeeded.
Proof. split; reflexivity. Qed.

(** ** Connecting and disconnecting *)

Ltac run_connect :=
  unfold connect, requestVersion, sendMessage, port_postMessage, set_this, setTimeout,
    timer_fires, logError, log, emit, clearTimeout;
  cbv [mbind mret M_bind M_ret bind ret gets modify throw].

(** X16: when the port handed back by [connectNative] carries an error,
    [connect] reports it through one error log entry and does nothing
    else: the session is not marked connected, no timer is armed and
    nothing is posted, so a request made next on a session that was not
    connected is dropped. *)
Theorem connect_failure RESPONSE_TIMEOUT_MS VERSION PYWAL_COLORS error w :
  ∃ w',
    connect RESPONSE_TIMEOUT_MS VERSION {| port_error := Some error |} w =
      (Returns tt, w') ∧
    trace w' =
      (trace w ++ [Output ("Failed to connect to native app: " +:+ error_message error)
                     (Some true)])%list ∧
    isConnected (this w') = isConnected (this w) ∧
    versionCheckTimeout (this w') = versionCheckTimeout (this w) ∧
    timers w' = timers w ∧
    (truthy_flag (isConnected (this w)) = false →
       requestPywalColors PYWAL_COLORS w' =
         (Returns tt,
          with_events w'
            [Output "Failed to send data to native app. You are not connected"
               (Some true)])).
Proof.
  eexists. split; [run_connect; reflexivity|]. simpl.
  repeat split. intros Hc. by apply sendMessage_not_connected.
Qed.

(** X17: when the port carries no error, [connect] marks the session
    connected, posts the version request, calls [connected], and arms one
    timer, under the handle [setTimeout] hands out, leaving every other
    timer as it was; if that timer fires (no version response came),
    [updateNeeded] is called, and it is called once only. *)
Theorem connect_then_timeout RESPONSE_TIMEOUT_MS VERSION w :
  ∃ w' id,
    connect RESPONSE_TIMEOUT_MS VERSION {| port_error := None |} w = (Returns tt, w') ∧
    isConnected (this w') = Some true ∧
    versionCheckTimeout (this w') = Some id ∧
    timers w' !! id = Some UpdateNeeded ∧
    trace w' =
      (trace w ++ [ PostMessage {| req_action := VERSION; req_target := None;
                                   req_size := None |};
                    Connected ])%list ∧
    id = next_timer w ∧
    next_timer w' = S (next_timer w) ∧
    timers w' = <[id := UpdateNeeded]> (timers w) ∧
    port (this w') = Some {| port_error := None |} ∧
    connectedCheckTimeout (this w') = connectedCheckTimeout (this w) ∧
    ∃ w'',
      timer_fires id w' = (Returns tt, w'') ∧
      trace w'' = (trace w' ++ [UpdateNeeded])%list ∧
      timers w'' = delete id (timers w') ∧
      this w'' = this w' ∧
      timer_fires id w'' = (Returns tt, w'').
Proof.
  eexists _, (next_timer w). split; [run_connect; reflexivity|]. simpl.
  split; [done|]. split; [done|]. split; [apply lookup_insert_eq|].
  split; [by rewrite <- app_assoc|].
  split; [done|]. split; [done|]. split; [done|]. split; [done|]. split; [done|].
  eexists. split; [|split; [|split; [|split]]].
  - run_connect. simpl. rewrite lookup_insert_eq. reflexivity.
  - simpl. by rewrite <- !app_assoc.
  - done.
  - done.
  - run_connect. simpl. by rewrite lookup_delete_eq.
Qed.

Lemma onDisconnect_world error_to_string port w :
  onDisconnect error_to_string port w =
    (Returns tt,
     with_events
       (cancelled (connectedCheckTimeout (this w))
          (cancelled (versionCheckTimeout (this w)) w))
       [ Output ("Disconnected from native messaging host: "
                   +:+ error_to_string (port_error port)) (Some true);
         Disconnected
           {| type := match port_error port with Some _ => Unknown | None => None_ end;
              message := error_message <$> port_error port |} ]).
Proof.
  destruct port as [[error|]].
  - apply onDisconnect_any_error.
  - run. destruct w as [[c p v k] ts n tr]; simpl.
    destruct v, k; simpl; rewrite <- ?app_assoc; reflexivity.
Qed.

(** X18: a disconnect cancels the version-check timer and the
    connect-check timer: afterwards neither is pending, and nothing
    happens if their time comes. *)
Theorem onDisconnect_cancels_timers error_to_string port w id :
  versionCheckTimeout (this w) = Some id ∨ connectedCheckTimeout (this w) = Some id →
  ∃ w',
    onDisconnect error_to_string port w = (Returns tt, w') ∧
    timers w' !! id = None ∧
    timer_fires id w' = (Returns tt, w').
Proof.
  intros Hid. eexists. split; [apply onDisconnect_world|].
  match goal with |- ?P ∧ _ => assert P as Hgone end.
  { simpl. destruct Hid as [-> | ->]; simpl.
    - destruct (connectedCheckTimeout (this w)) as [k|]; simpl.
      + destruct (decide (k = id)) as [->|Hne];
          [apply lookup_delete_eq|rewrite lookup_delete_ne by done; apply lookup_delete_eq].
      + apply lookup_delete_eq.
    - apply lookup_delete_eq. }
  split; [exact Hgone|]. by apply timer_fires_not_pending.
Qed.

(** X19: a disconnect changes no field of the session; [isConnected] in
    particular stays as it was, so a request made after the disconnect of a
    connected session is still posted on the port. *)
Theorem onDisconnect_keeps_fields error_to_string port w message :
  ∃ w',
    onDisconnect error_to_string port w = (Returns tt, w') ∧
    this w' = this w ∧
    (isConnected (this w) = Some true → is_Some (NativeApp.port (this w)) →
       sendMessage message w' = (Returns tt, with_events w' [PostMessage message])).
Proof.
  eexists. split; [apply onDisconnect_world|]. split; [done|].
  intros Hc [p Hp]. run. unfold port_postMessage.
  cbv [mbind mret M_bind M_ret bind ret gets modify throw]. simpl.
  rewrite Hc. simpl. rewrite Hp. reflexivity.
Qed.

(** X20: every disconnect ends with one error log entry followed by one
    call of [disconnected]; the error handed over carries the message of
    the port's error, or [null] when the port has none, and its type is
    [None] exactly when the port has no error. *)
Theorem onDisconnect_reports error_to_string port w :
  ∃ w' text e,
    onDisconnect error_to_string port w = (Returns tt, w') ∧
    trace w' = (trace w ++ [Output text (Some true); Disconnected e])%list ∧
    message e = error_message <$> port_error port ∧
    (type e = None_ ↔ port_error port = None).
Proof.
  eexists _, _, _. split; [apply onDisconnect_world|]. split; [done|].
  split; [done|]. simpl. by destruct (port_error port).
Qed.

Lemma connect_failure_witness :
  truthy_flag (isConnected (this new_world)) = false ∧
  ∃ w',
    connect 3000%float "debug:version"
      {| port_error := Some {| error_message := "No such native application pywalfox" |} |}
      new_world = (Returns tt, w') ∧
    requestPywalColors "action:get:pywal" w' =
      (Returns tt,
       with_events w'
         [Output "Failed to send data to native app. You are not connected" (Some true)]).
Proof.
  split; [reflexivity|].
  destruct (connect_failure 3000%float "debug:version" "action:get:pywal"
              {| error_message := "No such native application pywalfox" |} new_world)
    as (w' & Hrun & _ & _ & _ & _ & Hdrop).
  exists w'. split; [exact Hrun|exact (Hdrop eq_refl)].
Defined.

Lemma onDisconnect_cancels_timers_witness :
  (versionCheckTimeout
     (this (connect 3000%float "debug:version" {| port_error := None |} new_world).2) =
     Some 1 ∨
   connectedCheckTimeout
     (this (connect 3000%float "debug:version" {| port_error := None |} new_world).2) =
     Some 1) ∧
  timers (connect 3000%float "debug:version" {| port_error := None |} new_world).2 !! 1 =
    Some UpdateNeeded ∧
  ∃ w',
    onDisconnect (λ _, "null") {| port_error := None |}
      (connect 3000%float "debug:version" {| port_error := None |} new_world).2 =
      (Returns tt, w') ∧
    timers w' !! 1 = None ∧
    timer_fires 1 w' = (Returns tt, w').
Proof.
  split; [by left|]. split; [reflexivity|].
  apply (onDisconnect_cancels_timers (λ _, "null") {| port_error := None |}
           (connect 3000%float "debug:version" {| port_error := None |} new_world).2 1).
  by left.
Defined.

Lemma onDisconnect_keeps_fields_witness :
  isConnected
    (this (connect 3000%float "debug:version" {| port_error := None |} new_world).2) =
    Some true ∧
  is_Some
    (port (this (connect 3000%float "debug:version" {| port_error := None |}
                   new_world).2)) ∧
  ∃ w',
    onDisconnect (λ _, "null") {| port_error := None |}
      (connect 3000%float "debug:version" {| port_error := None |} new_world).2 =
      (Returns tt, w') ∧
    sendMessage {| req_action := "action:get:pywal"; req_target := None;
                   req_size := None |} w' =
      (Returns tt,
       with_events w'
         [PostMessage {| req_action := "action:get:pywal"; req_target := None;
                         req_size := None |}]).
Proof.
  split; [reflexivity|]. split; [by eexists|].
  destruct (onDisconnect_keeps_fields (λ _, "null") {| port_error := None |}
              (connect 3000%float "debug:version" {| port_error := None |} new_world).2
              {| req_action := "action:get:pywal"; req_target := None;
                 req_size := None |})
    as (w' & Hrun & _ & Hpost).
  exists w'. split; [exact Hrun|]. apply Hpost; [reflexivity|by eexists].
Defined.

End NativeAppSpec.

(** * Properties of the colorscheme generator *)

Module ColorschemeSpec.
Import Colorscheme.

(** ** Running statements *)

Lemma bind_Returns {S A B} (m : M S A) (k : A → M S B) s a s' :
  m s = (Returns a, s') → (m ≫= k) s = k a s'.
Proof. intros Hm. cbv [mbind M_bind bind]. by rewrite Hm. Qed.

Lemma bind_unfold {S A B} (m : M S A) (k : A → M S B) s :
  (m ≫= k) s =
    match m s with
    | (Returns a, s') => k a s'
    | (Throws e, s') => (Throws e, s')
    end.
Proof. reflexivity. Qed.

Lemma fresh_None (h : heap) : h !! fresh (dom h) = None.
Proof. apply not_elem_of_dom, is_fresh. Qed.

Lemma fresh_ne (h : heap) l c : h !! l = Some c → l ≠ fresh (dom h).
Proof. intros Hl ->. by rewrite fresh_None in Hl. Qed.

Lemma read_obj_run (h : heap) l o :
  h !! l = Some (Obj o) → read_obj l h = (Returns o, h).
Proof. intros Hl. unfold read_obj. by rewrite Hl. Qed.

Lemma read_arr_run (h : heap) l items :
  h !! l = Some (Arr items) → read_arr l h = (Returns items, h).
Proof. intros Hl. unfold read_arr. by rewrite Hl. Qed.

Lemma obj_get_run (h : heap) l o key :
  h !! l = Some (Obj o) → obj_get l key h = (Returns (props_get key o), h).
Proof.
  intros Hl. unfold obj_get. by rewrite (bind_Returns _ _ _ _ _ (read_obj_run _ _ _ Hl)).
Qed.

Lemma obj_set_run (h : heap) l o key v :
  h !! l = Some (Obj o) →
  obj_set l key v h = (Returns tt, <[l := Obj (props_set key v o)]> h).
Proof.
  intros Hl. unfold obj_set. by rewrite (bind_Returns _ _ _ _ _ (read_obj_run _ _ _ Hl)).
Qed.

Lemma array_get_run (h : heap) l items i :
  h !! l = Some (Arr items) → array_get l i h = (Returns (items_get i items), h).
Proof.
  intros Hl. unfold array_get. by rewrite (bind_Returns _ _ _ _ _ (read_arr_run _ _ _ Hl)).
Qed.

Lemma array_splice_run (h : heap) l items start item :
  h !! l = Some (Arr items) →
  array_splice l start item h = (Returns tt, <[l := Arr (items_splice start item items)]> h).
Proof.
  intros Hl. unfold array_splice.
  by rewrite (bind_Returns _ _ _ _ _ (read_arr_run _ _ _ Hl)).
Qed.

(** ** Tables of own properties *)

Lemma own_set_eq key v (o : props) : own key (props_set key v o) = Some v.
Proof.
  induction o as [|[k w] o IH]; simpl.
  - by rewrite String.eqb_refl.
  - destruct (String.eqb_spec key k) as [->|Hne]; simpl.
    + by rewrite String.eqb_refl.
    + by destruct (String.eqb_spec key k).
Qed.

Lemma own_set_ne key key' v (o : props) :
  key ≠ key' → own key (props_set key' v o) = own key o.
Proof.
  intros Hne. induction o as [|[k w] o IH]; simpl.
  - by destruct (String.eqb_spec key key').
  - destruct (String.eqb_spec key' k) as [->|Hne']; simpl.
    + by destruct (String.eqb_spec key k).
    + destruct (String.eqb_spec key k); [done|apply IH].
Qed.

Lemma own_None key (o : props) : own key o = None ↔ key ∉ o.*1.
Proof.
  induction o as [|[k w] o IH]; simpl.
  - split; [intros _; apply not_elem_of_nil|done].
  - rewrite not_elem_of_cons.
    destruct (String.eqb_spec key k) as [->|Hne].
    + split; [done|by intros [? _]].
    + rewrite IH. tauto.
Qed.

Lemma own_Some key v (o : props) :
  NoDup o.*1 → own key o = Some v ↔ (key, v) ∈ o.
Proof.
  induction o as [|[k w] o IH]; simpl; intros Hnd.
  - split; [done|]. intros Hin. by apply elem_of_nil in Hin.
  - apply NoDup_cons in Hnd as [Hk Hnd]. rewrite elem_of_cons.
    destruct (String.eqb_spec key k) as [->|Hne].
    + split; [intros [= ->]; by left|]. intros [[= ->]|Hin]; [done|].
      exfalso. apply Hk. apply list_elem_of_fmap. by exists (k, v).
    + rewrite IH by done. split; [by right|]. by intros [[= -> ->]|?].
Qed.

Lemma own_Permutation key (o1 o2 : props) :
  NoDup o1.*1 → o1 ≡ₚ o2 → own key o1 = own key o2.
Proof.
  intros Hnd Hperm.
  assert (NoDup o2.*1) as Hnd2 by (by rewrite <- Hperm).
  destruct (own key o1) as [v|] eqn:H1.
  - symmetry. apply own_Some; [done|]. rewrite <- Hperm. by apply own_Some.
  - symmetry. apply own_None. rewrite <- Hperm. by apply own_None.
Qed.

Lemma own_assign_notin key (o source : props) :
  key ∉ source.*1 → own key (assign_props o source) = own key o.
Proof.
  revert o. induction source as [|[k v] source IH]; intros o Hk; [done|].
  simpl in *. apply not_elem_of_cons in Hk as [Hne Hk].
  unfold assign_props in *. simpl. rewrite IH by done. by apply own_set_ne.
Qed.

Lemma own_assign key v (o source : props) :
  NoDup source.*1 → own key source = Some v →
  own key (assign_props o source) = Some v.
Proof.
  revert o. induction source as [|[k w] source IH]; intros o Hnd Hown; [done|].
  simpl in *. apply NoDup_cons in Hnd as [Hk Hnd].
  unfold assign_props in *. simpl.
  destruct (String.eqb_spec key k) as [->|Hne].
  - injection Hown as ->.
    change (own k (assign_props (props_set k v o) source) = Some v).
    rewrite own_assign_notin by done. apply own_set_eq.
  - by apply IH.
Qed.

(** ** Sorting the role names *)

Lemma before_compareFn a b : before compareFn a b ↔ String.le a b.
Proof.
  unfold before, compareFn, string_gt, String.le, String.ltb, String.leb.
  rewrite (String.compare_antisym a b).
  destruct (String.compare b a); simpl; split; try done; lia.
Qed.

Lemma before_compareFn_trans : Transitive (before compareFn).
Proof.
  intros a b c. rewrite !before_compareFn. apply (transitivity (R := String.le)).
Qed.

Lemma before_compareFn_antisymm : AntiSymm (=) (before compareFn).
Proof.
  intros a b. rewrite !before_compareFn. apply (anti_symm String.le).
Qed.

Lemma before_compareFn_total : Total (before compareFn).
Proof.
  intros a b. rewrite !before_compareFn. apply (total String.le).
Qed.

Lemma merge_sort_sorted keys : Sorted (before compareFn) (merge_sort (before compareFn) keys).
Proof. apply (@Sorted_merge_sort _ _ _ before_compareFn_total). Qed.

Lemma Sorted_weaken {A} (R1 R2 : relation A) l :
  (∀ x y, R1 x y → R2 x y) → Sorted R1 l → Sorted R2 l.
Proof.
  intros Himpl. induction 1 as [|x l _ IH Hhd]; constructor; [done|].
  destruct Hhd; constructor; auto.
Qed.

Lemma Array_sort_sorted keys : Sorted String.le (Array_sort compareFn keys).
Proof.
  apply (Sorted_weaken (before compareFn)); [|apply merge_sort_sorted].
  intros a b. by rewrite before_compareFn.
Qed.

Lemma Array_sort_Permutation keys : Array_sort compareFn keys ≡ₚ keys.
Proof. apply merge_sort_Permutation. Qed.

Lemma Array_sort_order keys1 keys2 :
  keys1 ≡ₚ keys2 → Array_sort compareFn keys1 = Array_sort compareFn keys2.
Proof.
  intros Hperm. unfold Array_sort.
  apply (@Sorted_unique _ _ before_compareFn_trans before_compareFn_antisymm);
    [apply merge_sort_sorted .. |].
  by rewrite !merge_sort_Permutation.
Qed.

(** ** [generatePaletteHash] *)

Lemma stripHashSymbol_run color (h : heap) :
  stripHashSymbol color h = (strip color, h).
Proof. by destruct color. Qed.

Lemma hash_loop (h : heap) palette o hash keys :
  h !! palette = Some (Obj o) →
  foldM (λ hash key,
           color ← obj_get palette key;
           stripped ← stripHashSymbol color;
           mret (hash +:+ stripped)) hash keys h =
    (hash_from o hash keys, h).
Proof.
  intros Hp. revert hash. induction keys as [|key keys IH]; intros hash; [done|].
  simpl. unfold bind at 1.
  rewrite (bind_Returns _ _ _ _ _ (obj_get_run _ _ _ _ Hp)).
  cbv [mbind M_bind bind]. rewrite stripHashSymbol_run.
  destruct (strip (props_get key o)); [apply IH|done].
Qed.

Lemma generatePaletteHash_run (h : heap) palette o :
  h !! palette = Some (Obj o) →
  generatePaletteHash palette h = (palette_hash o, h).
Proof.
  intros Hp. unfold generatePaletteHash, Object_keys.
  erewrite bind_Returns
    by (erewrite bind_Returns by (by apply read_obj_run); reflexivity).
  by apply hash_loop.
Qed.

Lemma hash_from_ext (o1 o2 : props) hash keys :
  (∀ key, strip (props_get key o1) = strip (props_get key o2)) →
  hash_from o1 hash keys = hash_from o2 hash keys.
Proof.
  intros Hext. revert hash. induction keys as [|key keys IH]; intros hash; [done|].
  simpl. rewrite Hext. destruct (strip (props_get key o2)); [apply IH|done].
Qed.

Lemma hash_from_ext_in (o1 o2 : props) hash keys :
  (∀ key, key ∈ keys → strip (props_get key o1) = strip (props_get key o2)) →
  hash_from o1 hash keys = hash_from o2 hash keys.
Proof.
  revert hash. induction keys as [|key keys IH]; intros hash Hext; [done|].
  simpl. rewrite <- (Hext key) by apply list_elem_of_here.
  destruct (strip (props_get key o1)); [|done].
  apply IH. intros k Hk. by apply Hext, list_elem_of_further.
Qed.

Lemma strip_same_after_first v1 v2 :
  same_after_first v1 v2 → strip v1 = strip v2.
Proof. by intros [->|(c1 & c2 & s & -> & ->)]. Qed.

(** ** Splicing colors into the sequence *)

Lemma length_items_splice start item items :
  length (items_splice start item items) = S (length items).
Proof.
  unfold items_splice. rewrite length_app, length_cons, length_take, length_drop. lia.
Qed.

Lemma length_insert_color cl colors color :
  length (insert_color cl colors color) = S (length colors).
Proof. destruct color; apply length_items_splice. Qed.

Lemma length_extended cl colors specs :
  length (foldl (insert_color cl) colors specs) = length colors + length specs.
Proof.
  revert colors. induction specs as [|color specs IH]; intros colors; simpl; [lia|].
  rewrite IH, length_insert_color. lia.
Qed.

Lemma items_splice_at (t : Z) item items :
  (0 ≤ t ≤ Z.of_nat (length items))%Z →
  items_splice t item items !! Z.to_nat t = Some item.
Proof.
  intros Ht. unfold items_splice.
  destruct (Z.ltb_spec t 0); [lia|].
  rewrite Z.min_l by lia.
  rewrite lookup_app_r by (rewrite length_take; lia).
  rewrite length_take. by replace (Z.to_nat t - _) with 0 by lia.
Qed.

Lemma items_splice_below (t t' : Z) item items :
  (0 ≤ t < t')%Z → Z.to_nat t < length items →
  items_splice t' item items !! Z.to_nat t = items !! Z.to_nat t.
Proof.
  intros Ht Hlen. unfold items_splice.
  destruct (Z.ltb_spec t' 0); [lia|].
  rewrite lookup_app_l by (rewrite length_take; lia).
  apply lookup_take_lt. lia.
Qed.


Lemma insert_color_below cl colors color (t : Z) :
  (0 ≤ t < targetIndex color)%Z → Z.to_nat t < length colors →
  insert_color cl colors color !! Z.to_nat t = colors !! Z.to_nat t.
Proof. intros Ht Hlen. destruct color; simpl in *; by apply items_splice_below. Qed.

Lemma extended_below cl colors specs (t lo len : Z) :
  ascending lo len specs → (0 ≤ t < lo)%Z → Z.to_nat t < length colors →
  foldl (insert_color cl) colors specs !! Z.to_nat t = colors !! Z.to_nat t.
Proof.
  revert colors lo len.
  induction specs as [|color specs IH]; intros colors lo len Hasc Ht Hlen; [done|].
  simpl in *. destruct Hasc as [Hcolor Hasc].
  rewrite (IH _ _ _ Hasc) by (rewrite ?length_insert_color; lia).
  apply insert_color_below; [lia|done].
Qed.


(** ** [createObjectFromTemplateData] and [Object.assign] *)

Lemma template_loop {K} `{Values K} (read : option K → value)
  data values (template : list (string * K)) (h : heap) l o :
  reads values read h l →
  forEach data (λ item,
      v ← values_get values (own (target item) template);
      obj_set l (target item) v) (<[l := Obj o]> h) =
    (Returns tt, <[l := Obj (template_props read data template o)]> h).
Proof.
  intros Hread. revert o. induction data as [|item data IH]; intros o; [done|].
  simpl. unfold bind at 1.
  rewrite (bind_Returns _ _ _ _ _ (Hread o _)).
  rewrite (obj_set_run _ _ o) by apply lookup_insert_eq.
  rewrite insert_insert_eq. apply IH.
Qed.

Lemma createObjectFromTemplateData_run {K} `{Values K} (read : option K → value)
  data values (template : list (string * K)) (h : heap) :
  reads values read h (fresh (dom h)) →
  createObjectFromTemplateData data values template h =
    (Returns (fresh (dom h)),
     <[fresh (dom h) := Obj (template_props read data template [])]> h).
Proof.
  intros Hread. unfold createObjectFromTemplateData.
  erewrite bind_Returns by reflexivity.
  erewrite bind_Returns by (by apply template_loop).
  reflexivity.
Qed.

Lemma reads_items (h : heap) values items l :
  h !! values = Some (Arr items) → h !! l = None →
  reads values (read_items items) h l.
Proof.
  intros Hv Hl o k.
  assert (<[l := Obj o]> h !! values = Some (Arr items)) as Hv'.
  { rewrite lookup_insert_ne; [done|]. intros ->. congruence. }
  destruct k as [i|]; simpl.
  - by apply array_get_run.
  - unfold values_get, IPywalColors_values.
    by rewrite (bind_Returns _ _ _ _ _ (read_arr_run _ _ _ Hv')).
Qed.

Lemma reads_props (h : heap) values o l :
  h !! values = Some (Obj o) → h !! l = None →
  reads values (read_props o) h l.
Proof.
  intros Hv Hl o' k.
  assert (<[l := Obj o']> h !! values = Some (Obj o)) as Hv'.
  { rewrite lookup_insert_ne; [done|]. intros ->. congruence. }
  by apply obj_get_run.
Qed.

Lemma assign_loop (h : heap) target source o :
  forEach source (λ kv, obj_set target kv.1 kv.2) (<[target := Obj o]> h) =
    (Returns tt, <[target := Obj (assign_props o source)]> h).
Proof.
  revert o. induction source as [|[k v] source IH]; intros o; [done|].
  simpl. unfold bind at 1.
  rewrite (obj_set_run _ _ o) by apply lookup_insert_eq.
  rewrite insert_insert_eq. apply IH.
Qed.

Lemma Object_assign_run (h : heap) target source o cc :
  target ≠ source → h !! source = Some (Obj cc) →
  Object_assign target source (<[target := Obj o]> h) =
    (Returns target, <[target := Obj (assign_props o cc)]> h).
Proof.
  intros Hne Hs. unfold Object_assign.
  erewrite bind_Returns
    by (apply read_obj_run; rewrite lookup_insert_ne; [exact Hs|done]).
  erewrite bind_Returns by apply assign_loop.
  reflexivity.
Qed.

(** ** Keys and values of the generated objects *)

Lemma elem_of_keys_set r key v (o : props) :
  r ∈ (props_set key v o).*1 ↔ r = key ∨ r ∈ o.*1.
Proof.
  induction o as [|[k w] o IH]; simpl.
  - rewrite list_elem_of_singleton. split; [by left|]. intros [?|Hin]; [done|].
    by apply elem_of_nil in Hin.
  - destruct (String.eqb_spec key k) as [->|Hne]; simpl.
    + rewrite elem_of_cons. tauto.
    + rewrite !elem_of_cons, IH. tauto.
Qed.

Lemma NoDup_keys_set key v (o : props) :
  NoDup o.*1 → NoDup (props_set key v o).*1.
Proof.
  induction o as [|[k w] o IH]; simpl; intros Hnd.
  - apply NoDup_singleton.
  - apply NoDup_cons in Hnd as [Hk Hnd].
    destruct (String.eqb_spec key k) as [->|Hne]; simpl.
    + by apply NoDup_cons.
    + apply NoDup_cons. split; [|by apply IH].
      rewrite elem_of_keys_set. intros [?|?]; [congruence|done].
Qed.

Lemma elem_of_keys_template {K} (read : option K → value) data
  (template : list (string * K)) (o : props) r :
  r ∈ (template_props read data template o).*1 ↔ r ∈ o.*1 ∨ r ∈ target <$> data.
Proof.
  revert o. induction data as [|item data IH]; intros o; simpl.
  - split; [by left|]. intros [?|Hin]; [done|]. by apply elem_of_nil in Hin.
  - unfold template_props in *. simpl. rewrite IH, elem_of_keys_set, elem_of_cons. tauto.
Qed.

Lemma NoDup_keys_template {K} (read : option K → value) data
  (template : list (string * K)) (o : props) :
  NoDup o.*1 → NoDup (template_props read data template o).*1.
Proof.
  revert o. induction data as [|item data IH]; intros o Hnd; [done|].
  unfold template_props in *. simpl. by apply IH, NoDup_keys_set.
Qed.

Lemma own_template_notin {K} (read : option K → value) data
  (template : list (string * K)) (o : props) r :
  r ∉ target <$> data → own r (template_props read data template o) = own r o.
Proof.
  revert o. induction data as [|item data IH]; intros o Hr; [done|].
  rewrite fmap_cons, not_elem_of_cons in Hr. destruct Hr as [Hne Hr].
  unfold template_props in *. simpl. rewrite IH by done. by apply own_set_ne.
Qed.

Lemma own_template_in {K} (read : option K → value) data
  (template : list (string * K)) (o : props) r :
  r ∈ target <$> data →
  own r (template_props read data template o) = Some (read (own r template)).
Proof.
  revert o. induction data as [|item data IH]; intros o Hr.
  { by apply elem_of_nil in Hr. }
  unfold template_props in *. simpl.
  destruct (decide (r ∈ target <$> data)) as [Hin|Hnotin]; [by apply IH|].
  rewrite fmap_cons, elem_of_cons in Hr. destruct Hr as [->|?]; [|done].
  change (own (target item)
            (template_props read data template
               (props_set (target item) (read (own (target item) template)) o)) =
          Some (read (own (target item) template))).
  rewrite own_template_notin by done. apply own_set_eq.
Qed.

Lemma elem_of_keys_assign (o source : props) r :
  r ∈ (assign_props o source).*1 ↔ r ∈ o.*1 ∨ r ∈ source.*1.
Proof.
  revert o. induction source as [|[k v] source IH]; intros o; simpl.
  - split; [by left|]. intros [?|Hin]; [done|]. by apply elem_of_nil in Hin.
  - unfold assign_props in *. simpl. rewrite IH, elem_of_keys_set, elem_of_cons. tauto.
Qed.

Lemma NoDup_keys_assign (o source : props) :
  NoDup o.*1 → NoDup (assign_props o source).*1.
Proof.
  revert o. induction source as [|[k v] source IH]; intros o Hnd; [done|].
  unfold assign_props in *. simpl. by apply IH, NoDup_keys_set.
Qed.

Lemma string_app_cons c (s1 s2 : string) : String c s1 +:+ s2 = String c (s1 +:+ s2).
Proof. reflexivity. Qed.

Lemma string_app_assoc (s1 s2 s3 : string) : (s1 +:+ s2) +:+ s3 = s1 +:+ s2 +:+ s3.
Proof.
  induction s1 as [|c s1 IH]; [done|]. by rewrite !string_app_cons, IH.
Qed.

Lemma string_app_nil_r (s : string) : s +:+ "" = s.
Proof. induction s as [|c s IH]; [done|]. by rewrite string_app_cons, IH. Qed.

Lemma string_concat_cons t ts :
  String.concat "" (t :: ts) = t +:+ String.concat "" ts.
Proof. destruct ts as [|t' ts]; simpl; [by rewrite string_app_nil_r|reflexivity]. Qed.

(** Colors that are strings of one character at least: the hash is their
    tails, one after the other. *)
Lemma hash_from_tails (o : props) hash keys tails :
  Forall2 (λ key tail, ∃ c, props_get key o = VString (String c tail)) keys tails →
  hash_from o hash keys = Returns (hash +:+ String.concat "" tails).
Proof.
  intros Hrel. revert hash.
  induction Hrel as [|key tail keys tails [c Hc] _ IH]; intros hash.
  - simpl. by rewrite string_app_nil_r.
  - cbn [hash_from]. rewrite Hc. cbn [strip substring_1].
    by rewrite IH, string_concat_cons, string_app_assoc.
Qed.

Lemma extension_variables_concat data (o : props) variables :
  extension_variables data o variables =
    variables +:+
    String.concat ""
      ((λ item, ToString (cssVariable item) +:+ ":"
                  +:+ ToString (props_get (target item) o) +:+ ";") <$> data).
Proof.
  revert variables. induction data as [|item data IH]; intros variables.
  { by rewrite string_app_nil_r. }
  unfold extension_variables in *. rewrite fmap_cons.
  cbn [foldl]. rewrite IH, string_app_assoc. f_equal.
  destruct data; [by rewrite string_app_nil_r|done].
Qed.

Lemma hash_from_Throws (o : props) hash keys :
  hash_from o hash keys = Throws TypeError ↔
  ∃ key, key ∈ keys ∧ props_get key o = VUndefined.
Proof.
  revert hash. induction keys as [|key keys IH]; intros hash; simpl.
  - split; [done|]. intros (k & Hk & _). by apply elem_of_nil in Hk.
  - destruct (props_get key o) as [|s] eqn:Hget; simpl.
    + split; [|done]. intros _. exists key. split; [apply list_elem_of_here|done].
    + rewrite IH. split.
      * intros (k & Hk & Hu). exists k. split; [by apply list_elem_of_further|done].
      * intros (k & Hk & Hu). apply elem_of_cons in Hk as [->|Hk]; [congruence|eauto].
Qed.

Lemma own_is_Some {V} key (t : list (string * V)) :
  key ∈ t.*1 → is_Some (own key t).
Proof.
  induction t as [|[k v] t IH]; simpl; intros Hin.
  - by apply elem_of_nil in Hin.
  - destruct (String.eqb_spec key k) as [->|Hne]; [by eexists|].
    apply elem_of_cons in Hin as [?|Hin]; [done|by apply IH].
Qed.

Lemma own_elem_of {V} key (v : V) (t : list (string * V)) :
  own key t = Some v → (key, v) ∈ t.
Proof.
  induction t as [|[k w] t IH]; simpl; [done|].
  destruct (String.eqb_spec key k) as [->|Hne].
  - intros [= ->]. apply list_elem_of_here.
  - intros Hown. by apply list_elem_of_further, IH.
Qed.

Lemma own_NoDup {V} key (v : V) (t : list (string * V)) :
  NoDup t.*1 → (key, v) ∈ t → own key t = Some v.
Proof.
  induction t as [|[k w] t IH]; simpl; intros Hnd Hin.
  - by apply elem_of_nil in Hin.
  - apply NoDup_cons in Hnd as [Hk Hnd].
    destruct (String.eqb_spec key k) as [->|Hne].
    + apply elem_of_cons in Hin as [[= ->]|Hin]; [done|].
      exfalso. apply Hk. apply list_elem_of_fmap. by exists (k, v).
    + apply elem_of_cons in Hin as [[= -> ->]|Hin]; [done|by apply IH].
Qed.

Lemma fresh_not_in (h h2 : heap) : h ⊆ h2 → h !! fresh (dom h2) = None.
Proof.
  intros Hsub. destruct (h !! fresh (dom h2)) as [c|] eqn:Hl; [|done].
  apply (lookup_weaken _ _ _ _ Hl) in Hsub. by rewrite fresh_None in Hsub.
Qed.

Lemma all_defined_set key v (o : props) :
  Forall (λ kv, kv.2 ≠ VUndefined) o → v ≠ VUndefined →
  Forall (λ kv, kv.2 ≠ VUndefined) (props_set key v o).
Proof.
  intros Ho Hv. induction Ho as [|[k w] o Hw Ho IH]; simpl.
  - by repeat constructor.
  - destruct (String.eqb key k); constructor; done.
Qed.

Lemma all_defined_get key (o : props) :
  Forall (λ kv, kv.2 ≠ VUndefined) o → key ∈ o.*1 → props_get key o ≠ VUndefined.
Proof.
  intros Ho Hkey. destruct (own_is_Some key o Hkey) as [v Hv].
  unfold props_get. rewrite Hv. simpl.
  apply own_elem_of in Hv. by apply (proj1 (Forall_forall _ _) Ho (key, v)).
Qed.

Section Generator.

Context (changeLuminance : value → number → option number → option number → string).
Context (EXTENDED_PYWAL_COLORS : list IExtendedPywalColor).
Context (PALETTE_TEMPLATE_DATA BROWSER_TEMPLATE_DATA : list ITemplateItem).
Context (EXTENSION_THEME_SELCTOR : string).

Lemma generatePalette_run (h : heap) pywalColors customColors template items cc :
  h !! pywalColors = Some (Arr items) →
  h !! customColors = Some (Obj cc) →
  generatePalette PALETTE_TEMPLATE_DATA pywalColors customColors template h =
    (Returns (fresh (dom h)),
     <[fresh (dom h) := Obj (palette_props PALETTE_TEMPLATE_DATA items cc template)]> h).
Proof.
  intros Hp Hc. unfold generatePalette.
  erewrite bind_Returns
    by (apply createObjectFromTemplateData_run, reads_items; [done|apply fresh_None]).
  apply Object_assign_run; [|done].
  intros Heq. rewrite <- Heq, fresh_None in Hc. done.
Qed.


Lemma extend_loop (h : heap) colors extended specs :
  forEach specs (λ color,
      let targetIndex := targetIndex color in
      match color with
      | ICustomPywalColor _ colorString =>
          array_splice colors targetIndex (VString colorString)
      | IModifiedPywalColor _ colorIndex modifier min max =>
          source ← array_get colors colorIndex;
          array_splice colors targetIndex
            (VString (changeLuminance source modifier min max))
      end) (<[colors := Arr extended]> h) =
    (Returns tt,
     <[colors := Arr (foldl (insert_color changeLuminance) extended specs)]> h).
Proof.
  revert extended. induction specs as [|color specs IH]; intros extended; [done|].
  simpl. unfold bind at 1. destruct color as [t i m lo hi|t s]; simpl.
  - erewrite bind_Returns by (apply array_get_run, lookup_insert_eq).
    erewrite array_splice_run by apply lookup_insert_eq.
    rewrite insert_insert_eq. apply IH.
  - erewrite array_splice_run by apply lookup_insert_eq.
    rewrite insert_insert_eq. apply IH.
Qed.

Lemma generatePywalPalette_run (h : heap) pywalColors items :
  h !! pywalColors = Some (Arr items) →
  generatePywalPalette changeLuminance EXTENDED_PYWAL_COLORS pywalColors h =
    (Returns (fresh (dom h)),
     <[fresh (dom h) :=
         Arr (foldl (insert_color changeLuminance) items EXTENDED_PYWAL_COLORS)]> h).
Proof.
  intros Hp. unfold generatePywalPalette, array_spread.
  erewrite bind_Returns
    by (erewrite bind_Returns by (by apply read_arr_run); reflexivity).
  erewrite bind_Returns by apply extend_loop.
  reflexivity.
Qed.

Lemma generateBrowserTheme_run (h : heap) palette o template :
  h !! palette = Some (Obj o) →
  generateBrowserTheme BROWSER_TEMPLATE_DATA palette template h =
    (Returns (fresh (dom h)),
     <[fresh (dom h) :=
         Obj (template_props (read_props o) BROWSER_TEMPLATE_DATA template [])]> h).
Proof.
  intros Hp. unfold generateBrowserTheme.
  apply createObjectFromTemplateData_run, reads_props; [done|apply fresh_None].
Qed.

Lemma extension_loop (h : heap) palette o variables data :
  h !! palette = Some (Obj o) →
  foldM (λ variables item,
           color ← obj_get palette (target item);
           mret (variables +:+ ToString (cssVariable item) +:+ ":"
                   +:+ ToString color +:+ ";")) variables data h =
    (Returns (extension_variables data o variables), h).
Proof.
  intros Hp. revert variables.
  induction data as [|item data IH]; intros variables; [done|].
  simpl. unfold bind at 1.
  rewrite (bind_Returns _ _ _ _ _ (obj_get_run _ _ _ _ Hp)). apply IH.
Qed.

Lemma generateExtensionTheme_run (h : heap) palette o :
  h !! palette = Some (Obj o) →
  generateExtensionTheme PALETTE_TEMPLATE_DATA EXTENSION_THEME_SELCTOR palette h =
    (Returns (EXTENSION_THEME_SELCTOR +:+ "{"
                +:+ extension_variables PALETTE_TEMPLATE_DATA o "" +:+ "}"), h).
Proof.
  intros Hp. unfold generateExtensionTheme.
  by erewrite bind_Returns by (by apply extension_loop).
Qed.

Lemma duckduckgo_loop (h : heap) palette o template theme t keys :
  h !! palette = Some (Obj o) → palette ≠ theme →
  forEach keys (λ key,
      match own key template with
      | Some item =>
          color ← obj_get palette (colorKey item);
          let color :=
            match modifier item with
            | Some m => VString (changeLuminance color m None None)
            | None => color
            end in
          stripped ← stripHashSymbol color;
          obj_set theme key (VString stripped)
      | None => throw TypeError
      end) (<[theme := Obj t]> h) =
    ((duckduckgo_from changeLuminance o template t keys).1,
     <[theme := Obj (duckduckgo_from changeLuminance o template t keys).2]> h).
Proof.
  intros Hp Hne. revert t. induction keys as [|key keys IH]; intros t; [done|].
  simpl. unfold bind at 1. destruct (own key template) as [item|]; [|done].
  erewrite bind_Returns
    by (apply obj_get_run; rewrite lookup_insert_ne; [exact Hp|done]).
  cbv [mbind M_bind bind]. rewrite stripHashSymbol_run.
  destruct (strip _) as [stripped|e]; [|done].
  erewrite obj_set_run by apply lookup_insert_eq.
  rewrite insert_insert_eq. apply IH.
Qed.

Lemma generateDuckduckgoTheme_run (h : heap) palette o template :
  h !! palette = Some (Obj o) →
  generateDuckduckgoTheme changeLuminance palette template h =
    (match (duckduckgo_from changeLuminance o template [] template.*1).1 with
     | Returns _ => Returns (fresh (dom h))
     | Throws e => Throws e
     end,
     <[fresh (dom h) :=
         Obj (duckduckgo_from changeLuminance o template [] template.*1).2]> h).
Proof.
  intros Hp. unfold generateDuckduckgoTheme.
  erewrite bind_Returns by reflexivity.
  rewrite bind_unfold, (duckduckgo_loop _ _ o) by (by eauto using fresh_ne).
  by destruct (duckduckgo_from _ _ _ _ _).1 as [[]|].
Qed.

Lemma generateDarkreaderScheme_run (h : heap) palette o mode :
  h !! palette = Some (Obj o) →
  generateDarkreaderScheme palette mode h =
    (Returns (fresh (dom h)), <[fresh (dom h) := Obj (darkreader_props o mode)]> h).
Proof.
  intros Hp. unfold generateDarkreaderScheme.
  rewrite (bind_Returns _ _ _ _ _ (obj_get_run _ _ _ _ Hp)).
  rewrite (bind_Returns _ _ _ _ _ (obj_get_run _ _ _ _ Hp)).
  unfold darkreader_props. by destruct (decide (mode = Dark)).
Qed.

Lemma insert_fresh_subseteq (h : heap) c : h ⊆ <[fresh (dom h) := c]> h.
Proof. apply insert_subseteq, fresh_None. Qed.

Lemma lookup_insert_fresh (h : heap) l c c' :
  h !! l = Some c → <[fresh (dom h) := c']> h !! l = Some c.
Proof. intros Hl. rewrite lookup_insert_ne; [done|]. symmetry. by eapply fresh_ne. Qed.

(** One call, from a store that holds the two arguments: every cell of
    the store is still there afterwards, and what the caller sees is
    [colorscheme_view] of the arguments' contents. *)
Lemma generateColorscheme_run (h : heap) mode pywalColors customColors template items cc :
  h !! pywalColors = Some (Arr items) →
  h !! customColors = Some (Obj cc) →
  ∃ r h',
    generateColorscheme changeLuminance PALETTE_TEMPLATE_DATA BROWSER_TEMPLATE_DATA
      EXTENSION_THEME_SELCTOR mode pywalColors customColors template h = (r, h') ∧
    h ⊆ h' ∧
    observe (r, h') =
      colorscheme_view changeLuminance PALETTE_TEMPLATE_DATA BROWSER_TEMPLATE_DATA
        EXTENSION_THEME_SELCTOR mode items cc template.
Proof.
  intros Hp Hc. unfold generateColorscheme, colorscheme_view.
  set (o := palette_props PALETTE_TEMPLATE_DATA items cc (palette template)).
  erewrite bind_Returns by (by eapply generatePalette_run).
  fold o. set (l1 := fresh (dom h)). set (h1 := <[l1 := Obj o]> h).
  assert (h ⊆ h1) as Hsub1 by apply insert_fresh_subseteq.
  assert (h1 !! l1 = Some (Obj o)) as Hl1 by apply lookup_insert_eq.
  rewrite bind_unfold, (generatePaletteHash_run _ _ _ Hl1).
  destruct (palette_hash o) as [hash|e]; [|by eexists _, _].
  erewrite bind_Returns by (by eapply generateBrowserTheme_run).
  set (l2 := fresh (dom h1)). set (h2 := <[l2 := _]> h1).
  assert (h1 ⊆ h2) as Hsub2 by apply insert_fresh_subseteq.
  assert (h2 !! l1 = Some (Obj o)) as Hl1' by (by apply lookup_insert_fresh).
  erewrite bind_Returns by (by eapply generateExtensionTheme_run).
  rewrite bind_unfold, (generateDuckduckgoTheme_run _ _ _ _ Hl1').
  set (theme := duckduckgo_from _ _ _ _ _).
  set (l3 := fresh (dom h2)). set (h3 := <[l3 := _]> h2).
  assert (h2 ⊆ h3) as Hsub3 by apply insert_fresh_subseteq.
  assert (h3 !! l1 = Some (Obj o)) as Hl1'' by (by apply lookup_insert_fresh).
  destruct theme.1 as [[]|e].
  2:{ eexists _, _. split; [reflexivity|]. split; [|done].
      by do 2 (etrans; [eassumption|]). }
  erewrite bind_Returns by (by eapply generateDarkreaderScheme_run).
  set (l4 := fresh (dom h3)). set (h4 := <[l4 := _]> h3).
  assert (h3 ⊆ h4) as Hsub4 by apply insert_fresh_subseteq.
  eexists _, _. split; [reflexivity|]. split.
  { by do 3 (etrans; [eassumption|]). }
  unfold observe, snapshot; simpl.
  assert (h4 !! l1 = Some (Obj o)) as ->.
  { by apply lookup_insert_fresh. }
  assert (h4 !! l2 = Some (Obj (template_props (read_props o) BROWSER_TEMPLATE_DATA
                                  (browser template) []))) as ->.
  { apply lookup_insert_fresh, lookup_insert_fresh, lookup_insert_eq. }
  assert (h4 !! l3 = Some (Obj theme.2)) as ->.
  { apply lookup_insert_fresh, lookup_insert_eq. }
  assert (h4 !! l4 = Some (Obj (darkreader_props o mode))) as ->.
  { apply lookup_insert_eq. }
  reflexivity.
Qed.

(** C5: from a palette, [generateDarkreaderScheme] makes a new object
    with two properties: the dark pair when the mode is [Dark], the light
    pair in every other mode. *)
Theorem generateDarkreaderScheme_shape (h : heap) palette o mode :
  h !! palette = Some (Obj o) →
  ∃ scheme pair,
    generateDarkreaderScheme palette mode h = (Returns scheme, <[scheme := Obj pair]> h) ∧
    h !! scheme = None ∧
    (mode = Dark →
       pair = [("darkSchemeTextColor", props_get "text" o);
               ("darkSchemeBackgroundColor", props_get "background" o)]) ∧
    (mode ≠ Dark →
       pair = [("lightSchemeTextColor", props_get "text" o);
               ("lightSchemeBackgroundColor", props_get "background" o)]).
Proof.
  intros Hp. exists (fresh (dom h)), (darkreader_props o mode).
  split; [by apply generateDarkreaderScheme_run|].
  split; [apply fresh_None|].
  unfold darkreader_props. by destruct (decide (mode = Dark)).
Qed.

(** C6: every role that [customColors] holds is held by the generated
    palette with the custom value, whatever the template and the colors
    say. *)
Theorem generatePalette_custom_colors_win
  (h : heap) pywalColors customColors template items cc :
  h !! pywalColors = Some (Arr items) →
  h !! customColors = Some (Obj cc) →
  NoDup cc.*1 →
  ∃ palette o,
    generatePalette PALETTE_TEMPLATE_DATA pywalColors customColors template h =
      (Returns palette, <[palette := Obj o]> h) ∧
    h !! palette = None ∧
    ∀ r v, own r cc = Some v → own r o = Some v.
Proof.
  intros Hp Hc Hnd. eexists _, _. split; [by eapply generatePalette_run|].
  split; [apply fresh_None|].
  intros r v Hr. by apply own_assign.
Qed.

(** C7: two palette objects that hold the same bindings, entered in any
    order, hash alike: the role names are put in lexicographic order
    first, and the stripped colors are concatenated in that order. *)
Theorem generatePaletteHash_key_order (h1 h2 : heap) palette1 palette2 o1 o2 :
  h1 !! palette1 = Some (Obj o1) →
  h2 !! palette2 = Some (Obj o2) →
  NoDup o1.*1 →
  o1 ≡ₚ o2 →
  ∃ keys,
    Sorted String.le keys ∧ keys ≡ₚ o1.*1 ∧
    generatePaletteHash palette1 h1 = (hash_from o1 "" keys, h1) ∧
    generatePaletteHash palette2 h2 = (hash_from o1 "" keys, h2).
Proof.
  intros Hp1 Hp2 Hnd Hperm. exists (Array_sort compareFn o1.*1).
  split; [apply Array_sort_sorted|]. split; [apply Array_sort_Permutation|].
  split; [by apply generatePaletteHash_run|].
  rewrite (generatePaletteHash_run _ _ _ Hp2). unfold palette_hash.
  rewrite <- (Array_sort_order o1.*1 o2.*1) by (by rewrite Hperm).
  f_equal. apply hash_from_ext. intros key. unfold props_get.
  by rewrite (own_Permutation key o1 o2).
Qed.

(** C10: [stripHashSymbol] drops the first character of a color
    whatever it is, and the hash of a palette is made of its colors, taken
    in the order of the sorted role names, each from its second character
    on.  So two palettes with the same role names, entered in any order,
    whose colors are the same from the second character on, hash alike. *)
Theorem generatePaletteHash_ignores_first_character :
  (∀ c s (h : heap), stripHashSymbol (VString (String c s)) h = (Returns s, h)) ∧
  (∀ (h1 h2 : heap) palette1 palette2 o1 o2,
     h1 !! palette1 = Some (Obj o1) →
     h2 !! palette2 = Some (Obj o2) →
     o1.*1 ≡ₚ o2.*1 →
     (∀ key, key ∈ o1.*1 →
        same_after_first (props_get key o1) (props_get key o2)) →
     ∃ keys hash,
       Sorted String.le keys ∧ keys ≡ₚ o1.*1 ∧
       generatePaletteHash palette1 h1 = (hash, h1) ∧
       generatePaletteHash palette2 h2 = (hash, h2) ∧
       hash = hash_from o1 "" keys ∧
       ∀ tails,
         Forall2 (λ key tail, ∃ c, props_get key o1 = VString (String c tail))
           keys tails →
         hash = Returns (String.concat "" tails)).
Proof.
  split; [done|].
  intros h1 h2 palette1 palette2 o1 o2 Hp1 Hp2 Hperm Hrel.
  exists (Array_sort compareFn o1.*1), (palette_hash o1).
  split; [apply Array_sort_sorted|]. split; [apply Array_sort_Permutation|].
  split; [by apply generatePaletteHash_run|].
  split.
  { rewrite (generatePaletteHash_run _ _ _ Hp2). f_equal. unfold palette_hash.
    rewrite <- (Array_sort_order o1.*1 o2.*1) by done.
    symmetry. apply hash_from_ext_in. intros key Hkey.
    apply strip_same_after_first, Hrel.
    by rewrite (Array_sort_Permutation o1.*1) in Hkey. }
  split; [reflexivity|].
  intros tails Htails. unfold palette_hash.
  by rewrite (hash_from_tails _ _ _ _ Htails).
Qed.


(** C9: what [generateColorscheme] hands back is fixed by its mode, its
    template and the contents of the two objects it is given.  From two
    stores that hold the same raw palette and the same custom colors, the
    two calls end alike: both throw the same error, or both return, with
    equal hashes and extension themes, and palette, browser, DuckDuckGo and
    Dark Reader objects that hold the same properties.  So do a call and a
    second call made right after it, and the second call leaves the
    objects of the first as they were. *)
Theorem generateColorscheme_deterministic
  (h h' : heap) mode pywalColors customColors template items cc :
  h !! pywalColors = Some (Arr items) →
  h !! customColors = Some (Obj cc) →
  h' !! pywalColors = Some (Arr items) →
  h' !! customColors = Some (Obj cc) →
  let generate :=
    generateColorscheme changeLuminance PALETTE_TEMPLATE_DATA BROWSER_TEMPLATE_DATA
      EXTENSION_THEME_SELCTOR mode pywalColors customColors template in
  let first := generate h in
  let second := generate first.2 in
  observe (generate h) = observe (generate h') ∧
  observe (first.1, second.2) = observe second ∧
  observe (first.1, second.2) = observe first ∧
  ∀ c, first.1 = Returns c →
    ∃ o1 o2 o3 o4,
      snapshot c first.2 =
        (cs_hash c, Some (Obj o1), Some (Obj o2), cs_extension c,
         Some (Obj o3), Some (Obj o4)).
Proof.
  intros Hp Hc Hp' Hc' generate first second.
  destruct (generateColorscheme_run h mode _ _ template _ _ Hp Hc)
    as (r1 & h1 & Hrun1 & Hsub1 & Hview1).
  destruct (generateColorscheme_run h' mode _ _ template _ _ Hp' Hc')
    as (r' & h1' & Hrun' & _ & Hview').
  assert (first = (r1, h1)) as Hfirst by exact Hrun1.
  destruct (generateColorscheme_run h1 mode pywalColors customColors template items cc)
    as (r2 & h2 & Hrun2 & Hsub2 & Hview2);
    [exact (lookup_weaken _ _ _ _ Hp Hsub1)|exact (lookup_weaken _ _ _ _ Hc Hsub1)|].
  assert (second = (r2, h2)) as Hsecond.
  { unfold second. rewrite Hfirst. exact Hrun2. }
  assert (observe (r1, h2) = observe (r1, h1)) as Hkept.
  { unfold observe, colorscheme_view in *. simpl in *.
    destruct r1 as [c|e]; [|done].
    destruct (palette_hash _); [|done].
    destruct (duckduckgo_from _ _ _ _ _).1; [|done].
    injection Hview1 as Hh Hpal Hbro Hext Hddg Hdark.
    unfold snapshot. f_equal.
    by rewrite (lookup_weaken _ _ _ _ Hpal Hsub2), (lookup_weaken _ _ _ _ Hbro Hsub2),
      (lookup_weaken _ _ _ _ Hddg Hsub2), (lookup_weaken _ _ _ _ Hdark Hsub2),
      Hpal, Hbro, Hddg, Hdark. }
  rewrite Hsecond, Hfirst. simpl. unfold generate. rewrite Hrun1, Hrun'.
  split; [congruence|]. split; [congruence|]. split; [done|].
  intros c ->. unfold observe, colorscheme_view in Hview1. simpl in Hview1.
  destruct (palette_hash _); [|done].
  destruct (duckduckgo_from _ _ _ _ _).1; [|done].
  injection Hview1 as Hh Hpal Hbro Hext Hddg Hdark.
  unfold snapshot. rewrite Hpal, Hbro, Hddg, Hdark. by eexists _, _, _, _.
Qed.

(** ** Further properties of the generator *)

(** X1: a role of the template data that [customColors] does not hold
    gets the color found in [pywalColors] at the index the template gives
    for it, and [undefined] when the template has no index for it or the
    index is out of range. *)
Theorem generatePalette_derived_roles
  (h : heap) pywalColors customColors template items cc :
  h !! pywalColors = Some (Arr items) →
  h !! customColors = Some (Obj cc) →
  ∃ palette o,
    generatePalette PALETTE_TEMPLATE_DATA pywalColors customColors template h =
      (Returns palette, <[palette := Obj o]> h) ∧
    ∀ r, r ∈ target <$> PALETTE_TEMPLATE_DATA → r ∉ cc.*1 →
      own r o = Some (match own r template with
                      | Some i => items_get i items
                      | None => VUndefined
                      end).
Proof.
  intros Hp Hc. eexists _, _. split; [by eapply generatePalette_run|].
  intros r Hr Hcc. unfold palette_props.
  rewrite own_assign_notin by done.
  by rewrite (own_template_in (read_items items)).
Qed.

(** X2: the generated palette is a new object, well formed, that holds
    the roles of the template data and the keys of [customColors], and
    nothing else; nothing but the new object is written, so the two
    arguments are left as they were. *)
Theorem generatePalette_roles
  (h : heap) pywalColors customColors template items cc :
  h !! pywalColors = Some (Arr items) →
  h !! customColors = Some (Obj cc) →
  ∃ palette o h',
    generatePalette PALETTE_TEMPLATE_DATA pywalColors customColors template h =
      (Returns palette, h') ∧
    h' !! palette = Some (Obj o) ∧
    NoDup o.*1 ∧
    (∀ r, r ∈ o.*1 ↔ r ∈ target <$> PALETTE_TEMPLATE_DATA ∨ r ∈ cc.*1) ∧
    h' !! pywalColors = Some (Arr items) ∧
    h' !! customColors = Some (Obj cc) ∧
    h !! palette = None ∧
    palette ≠ pywalColors ∧ palette ≠ customColors ∧
    h' = <[palette := Obj o]> h.
Proof.
  intros Hp Hc. eexists _, _, _. split; [by eapply generatePalette_run|].
  split; [apply lookup_insert_eq|].
  split; [apply NoDup_keys_assign, NoDup_keys_template, NoDup_nil_2|].
  split.
  { intros r. unfold palette_props.
    rewrite elem_of_keys_assign, elem_of_keys_template.
    split; [intros [[Hin|?]|?]; auto; by apply elem_of_nil in Hin|].
    intros [?|?]; auto. }
  split; [by apply lookup_insert_fresh|]. split; [by apply lookup_insert_fresh|].
  split; [apply fresh_None|].
  split; [symmetry; by eapply fresh_ne|]. split; [symmetry; by eapply fresh_ne|].
  reflexivity.
Qed.

(** X3: the browser theme holds, for each target of the template data,
    the palette color under the key the template names for it (the key
    [undefined] when the template names none), and holds nothing else; the
    palette is left as it was. *)
Theorem generateBrowserTheme_targets (h : heap) palette o template :
  h !! palette = Some (Obj o) →
  ∃ theme t h',
    generateBrowserTheme BROWSER_TEMPLATE_DATA palette template h = (Returns theme, h') ∧
    h !! theme = None ∧
    h' !! theme = Some (Obj t) ∧
    h' !! palette = Some (Obj o) ∧
    (∀ r, r ∈ target <$> BROWSER_TEMPLATE_DATA →
       own r t = Some (props_get (default "undefined" (own r template)) o)) ∧
    (∀ r, r ∉ target <$> BROWSER_TEMPLATE_DATA → own r t = None).
Proof.
  intros Hp. eexists _, _, _. split; [by eapply generateBrowserTheme_run|].
  split; [apply fresh_None|]. split; [apply lookup_insert_eq|].
  split; [by apply lookup_insert_fresh|]. split.
  - intros r Hr. by rewrite (own_template_in (read_props o)).
  - intros r Hr. by rewrite own_template_notin.
Qed.

(** X4: the extension theme is the selector followed by one
    [variable:color;] declaration for each entry of the template data, in
    the order of the entries, between braces.  A role the palette does not
    hold is written as [undefined]; nothing is thrown and the store is not
    touched. *)
Theorem generateExtensionTheme_declarations (h : heap) palette o :
  h !! palette = Some (Obj o) →
  generateExtensionTheme PALETTE_TEMPLATE_DATA EXTENSION_THEME_SELCTOR palette h =
    (Returns
       (EXTENSION_THEME_SELCTOR +:+ "{"
          +:+ String.concat ""
                ((λ item, ToString (cssVariable item) +:+ ":"
                            +:+ ToString (props_get (target item) o) +:+ ";")
                   <$> PALETTE_TEMPLATE_DATA)
          +:+ "}"),
     h).
Proof.
  intros Hp. rewrite (generateExtensionTheme_run _ _ _ Hp).
  by rewrite extension_variables_concat.
Qed.

(** X5: hashing a palette leaves the store as it is, and throws a
    [TypeError] exactly when the palette holds a role whose color is
    [undefined]; otherwise it returns a string. *)
Theorem generatePaletteHash_throws_iff (h : heap) palette o :
  h !! palette = Some (Obj o) →
  ∃ r,
    generatePaletteHash palette h = (r, h) ∧
    (r = Throws TypeError ↔ ∃ key, key ∈ o.*1 ∧ props_get key o = VUndefined) ∧
    (r ≠ Throws TypeError → ∃ hash, r = Returns hash).
Proof.
  intros Hp. exists (palette_hash o). split; [by apply generatePaletteHash_run|].
  split.
  - unfold palette_hash. rewrite hash_from_Throws.
    split; intros (key & Hk & Hu); exists key; (split; [|done]).
    + by rewrite <- (Array_sort_Permutation o.*1).
    + by rewrite (Array_sort_Permutation o.*1).
  - destruct (palette_hash o) as [hash|[]]; [eauto|done].
Qed.

(** X6: whatever the length of the array and whatever the specs,
    [generatePywalPalette] returns a new array with one more entry per spec
    and leaves the given array as it is; handed an object instead of an
    array it throws a [TypeError] and stores nothing. *)
Theorem generatePywalPalette_length (h : heap) pywalColors :
  (∀ items, h !! pywalColors = Some (Arr items) →
     ∃ colors extended h',
       generatePywalPalette changeLuminance EXTENDED_PYWAL_COLORS pywalColors h =
         (Returns colors, h') ∧
       h !! colors = None ∧
       h' !! colors = Some (Arr extended) ∧
       h' !! pywalColors = Some (Arr items) ∧
       length extended = length items + length EXTENDED_PYWAL_COLORS) ∧
  (∀ o, h !! pywalColors = Some (Obj o) →
     generatePywalPalette changeLuminance EXTENDED_PYWAL_COLORS pywalColors h =
       (Throws TypeError, h)).
Proof.
  split.
  - intros items Hp. eexists _, _, _. split; [by apply generatePywalPalette_run|].
    split; [apply fresh_None|]. split; [apply lookup_insert_eq|].
    split; [by apply lookup_insert_fresh|]. apply length_extended.
  - intros o Hp. unfold generatePywalPalette, array_spread, read_arr.
    cbv [mbind M_bind bind]. by rewrite Hp.
Qed.

(** X7: when the target indices go up strictly from [lo] on, the colors
    of the given array that lie below [lo] are found at the same indices in
    the extended array. *)
Theorem generatePywalPalette_keeps_prefix (h : heap) pywalColors items (lo : Z) :
  h !! pywalColors = Some (Arr items) →
  ascending lo (Z.of_nat (length items)) EXTENDED_PYWAL_COLORS →
  ∃ colors extended,
    generatePywalPalette changeLuminance EXTENDED_PYWAL_COLORS pywalColors h =
      (Returns colors, <[colors := Arr extended]> h) ∧
    ∀ i : nat, (Z.of_nat i < lo)%Z → extended !! i = items !! i.
Proof.
  intros Hp Hasc. eexists _, _. split; [by apply generatePywalPalette_run|].
  intros i Hi. destruct EXTENDED_PYWAL_COLORS as [|color specs] eqn:Hspecs; [done|].
  rewrite <- (Nat2Z.id i).
  apply (extended_below _ _ _ _ lo (Z.of_nat (length items))); [done|lia|].
  simpl in Hasc. lia.
Qed.

Lemma extended_modified colors specs (lo : Z) t ci m mn mx :
  ascending lo (Z.of_nat (length colors)) specs → (0 ≤ lo)%Z →
  IModifiedPywalColor t ci m mn mx ∈ specs → (0 ≤ ci < t)%Z →
  ∃ source,
    foldl (insert_color changeLuminance) colors specs !! Z.to_nat ci = Some source ∧
    foldl (insert_color changeLuminance) colors specs !! Z.to_nat t =
      Some (VString (changeLuminance source m mn mx)).
Proof.
  revert colors lo.
  induction specs as [|color specs IH]; intros colors lo Hasc Hlo Hin Hci.
  { by apply elem_of_nil in Hin. }
  simpl in *. destruct Hasc as [Hcolor Hasc].
  apply elem_of_cons in Hin as [<-|Hin].
  - simpl in *.
    assert (Z.to_nat ci < length colors) as Hlen by lia.
    destruct (lookup_lt_is_Some_2 colors (Z.to_nat ci) Hlen) as [source Hsource].
    exists source. split.
    + rewrite (extended_below _ _ _ ci _ _ Hasc); [|lia|rewrite length_items_splice; lia].
      rewrite items_splice_below by lia. done.
    + rewrite (extended_below _ _ _ t _ _ Hasc); [|lia|rewrite length_items_splice; lia].
      rewrite items_splice_at by lia. unfold items_get.
      destruct (Z.ltb_spec ci 0); [lia|]. by rewrite Hsource.
  - apply (IH _ (targetIndex color + 1)%Z); [|lia|done|done].
    rewrite length_insert_color. by replace (Z.of_nat (S (length colors)))
      with (Z.of_nat (length colors) + 1)%Z by lia.
Qed.

(** X8: when the target indices go up strictly within the growing
    sequence, a color made from the entry at [colorIndex], with
    [colorIndex] below its target index, is in the extended array the
    luminance change of the entry the extended array holds at
    [colorIndex]. *)
Theorem generatePywalPalette_modified_colors (h : heap) pywalColors items :
  h !! pywalColors = Some (Arr items) →
  ascending 0 (Z.of_nat (length items)) EXTENDED_PYWAL_COLORS →
  ∃ colors extended,
    generatePywalPalette changeLuminance EXTENDED_PYWAL_COLORS pywalColors h =
      (Returns colors, <[colors := Arr extended]> h) ∧
    ∀ targetIndex colorIndex modifier min max,
      IModifiedPywalColor targetIndex colorIndex modifier min max
        ∈ EXTENDED_PYWAL_COLORS →
      (0 ≤ colorIndex < targetIndex)%Z →
      ∃ source,
        extended !! Z.to_nat colorIndex = Some source ∧
        extended !! Z.to_nat targetIndex =
          Some (VString (changeLuminance source modifier min max)).
Proof.
  intros Hp Hasc. eexists _, _. split; [by apply generatePywalPalette_run|].
  intros t ci m mn mx Hin Hci. by apply (extended_modified _ _ 0%Z).
Qed.

Lemma duckduckgo_from_Throws (o : props) template theme keys :
  (∀ key, key ∈ keys → is_Some (own key template)) →
  (duckduckgo_from changeLuminance o template theme keys).1 = Throws TypeError ↔
  ∃ key item,
    key ∈ keys ∧ own key template = Some item ∧
    modifier item = None ∧ props_get (colorKey item) o = VUndefined.
Proof.
  revert theme. induction keys as [|key keys IH]; intros theme Hkeys; simpl.
  { split; [done|]. intros (k & i & Hk & _). by apply elem_of_nil in Hk. }
  destruct (Hkeys key) as [item Hitem]; [apply list_elem_of_here|].
  rewrite Hitem.
  assert (∀ k, k ∈ keys → is_Some (own k template)) as Hkeys'.
  { intros k Hk. by apply Hkeys, list_elem_of_further. }
  destruct (modifier item) as [m|] eqn:Hm; simpl.
  - rewrite (IH _ Hkeys'). split.
    + intros (k & i & Hk & ?). exists k, i. split; [by apply list_elem_of_further|done].
    + intros (k & i & Hk & Hi & Hmi & Hu).
      apply elem_of_cons in Hk as [->|Hk]; [congruence|by exists k, i].
  - destruct (props_get (colorKey item) o) as [|s] eqn:Hget; simpl.
    + split; [|done]. intros _. exists key, item.
      split; [apply list_elem_of_here|done].
    + rewrite (IH _ Hkeys'). split.
      * intros (k & i & Hk & ?). exists k, i. split; [by apply list_elem_of_further|done].
      * intros (k & i & Hk & Hi & Hmi & Hu).
        apply elem_of_cons in Hk as [->|Hk]; [congruence|by exists k, i].
Qed.

Lemma duckduckgo_from_Returns (o : props) template theme keys t :
  NoDup keys →
  duckduckgo_from changeLuminance o template theme keys = (Returns tt, t) →
  (∀ key, key ∈ keys →
     ∃ item, own key template = Some item ∧
       match modifier item with
       | Some m =>
           own key t =
             Some (VString (substring_1
                              (changeLuminance (props_get (colorKey item) o) m None None)))
       | None =>
           ∃ s, props_get (colorKey item) o = VString s ∧
                own key t = Some (VString (substring_1 s))
       end) ∧
  (∀ key, key ∉ keys → own key t = own key theme).
Proof.
  revert theme. induction keys as [|key keys IH]; intros theme Hnd Hrun; simpl in *.
  { injection Hrun as <-. split; [|done]. intros k Hk. by apply elem_of_nil in Hk. }
  apply NoDup_cons in Hnd as [Hkey Hnd].
  destruct (own key template) as [item|] eqn:Hitem; [|done].
  destruct (strip _) as [stripped|e] eqn:Hstrip; [|done].
  destruct (IH _ Hnd Hrun) as [Hin Hout]. split.
  - intros k Hk. apply elem_of_cons in Hk as [->|Hk]; [|by apply Hin].
    exists item. split; [done|].
    rewrite (Hout key Hkey), own_set_eq.
    destruct (modifier item) as [m|]; simpl in Hstrip.
    + by injection Hstrip as <-.
    + destruct (props_get (colorKey item) o) as [|s]; [done|].
      injection Hstrip as <-. by exists s.
  - intros k Hk. apply not_elem_of_cons in Hk as [Hne Hk].
    rewrite (Hout k Hk). by apply own_set_ne.
Qed.

(** X9: the DuckDuckGo theme cannot be made, and a [TypeError] is
    thrown, exactly when some entry of the template has no modifier and
    names a palette color that is [undefined]; the palette is left as it
    was either way. *)
Theorem generateDuckduckgoTheme_throws_iff (h : heap) palette o template :
  h !! palette = Some (Obj o) →
  NoDup template.*1 →
  ∃ r h',
    generateDuckduckgoTheme changeLuminance palette template h = (r, h') ∧
    h' !! palette = Some (Obj o) ∧
    (r = Throws TypeError ↔
       ∃ key item, (key, item) ∈ template ∧ modifier item = None ∧
         props_get (colorKey item) o = VUndefined) ∧
    (r ≠ Throws TypeError → ∃ theme, r = Returns theme).
Proof.
  intros Hp Hnd. eexists _, _. split; [by apply generateDuckduckgoTheme_run|].
  split; [by apply lookup_insert_fresh|].
  pose proof (duckduckgo_from_Throws o template [] template.*1
                (λ key, own_is_Some key template)) as Hiff.
  destruct (duckduckgo_from _ _ _ _ _).1 as [[]|[]] eqn:Hr.
  - split; [|eauto]. split; [done|].
    intros (key & item & Hin & Hm & Hu). exfalso.
    assert (Returns () = Throws TypeError) as Habs; [|done].
    apply Hiff. exists key, item. split; [|split; [by apply own_NoDup|done]].
    apply list_elem_of_fmap. by exists (key, item).
  - split; [|done]. split; [|done]. intros _.
    destruct (proj1 Hiff eq_refl) as (key & item & _ & Hown & ?).
    exists key, item. split; [by apply own_elem_of|done].
Qed.

(** X10: when the DuckDuckGo theme is made, it is a new object with
    one color per entry of the template and nothing else, each without its
    first character: the palette color the entry names, or, for an entry
    with a modifier, the luminance change of that color. *)
Theorem generateDuckduckgoTheme_colors (h h' : heap) palette o template theme :
  h !! palette = Some (Obj o) →
  NoDup template.*1 →
  generateDuckduckgoTheme changeLuminance palette template h = (Returns theme, h') →
  ∃ t,
    h !! theme = None ∧
    h' !! theme = Some (Obj t) ∧
    (∀ key item, (key, item) ∈ template →
       match modifier item with
       | Some m =>
           own key t =
             Some (VString (substring_1
                              (changeLuminance (props_get (colorKey item) o) m None None)))
       | None =>
           ∃ s, props_get (colorKey item) o = VString s ∧
                own key t = Some (VString (substring_1 s))
       end) ∧
    (∀ key, key ∉ template.*1 → own key t = None).
Proof.
  intros Hp Hnd. rewrite (generateDuckduckgoTheme_run _ _ _ _ Hp).
  destruct (duckduckgo_from changeLuminance o template [] template.*1)
    as [[[]|e] t] eqn:Hfrom; simpl; [|done].
  intros [= <- <-]. exists t.
  split; [apply fresh_None|]. split; [apply lookup_insert_eq|].
  destruct (duckduckgo_from_Returns _ _ _ _ _ Hnd Hfrom) as [Hin Hout].
  split; [|by intros key Hkey; rewrite (Hout key Hkey)].
  intros key item Hitem.
  destruct (Hin key) as (item' & Hown & Hval).
  { apply list_elem_of_fmap. by exists (key, item). }
  rewrite (own_NoDup _ _ _ Hnd Hitem) in Hown. by injection Hown as <-.
Qed.

(** What a returned colorscheme refers to: four new objects, whose
    contents are those [colorscheme_view] lists. *)
Lemma generateColorscheme_returns
  (h h' : heap) mode pywalColors customColors template items cc c :
  h !! pywalColors = Some (Arr items) →
  h !! customColors = Some (Obj cc) →
  generateColorscheme changeLuminance PALETTE_TEMPLATE_DATA BROWSER_TEMPLATE_DATA
    EXTENSION_THEME_SELCTOR mode pywalColors customColors template h = (Returns c, h') →
  h ⊆ h' ∧
  NoDup [cs_palette c; cs_browser c; cs_duckduckgo c; cs_darkreader c] ∧
  Forall (λ l, h !! l = None)
    [cs_palette c; cs_browser c; cs_duckduckgo c; cs_darkreader c] ∧
  colorscheme_view changeLuminance PALETTE_TEMPLATE_DATA BROWSER_TEMPLATE_DATA
    EXTENSION_THEME_SELCTOR mode items cc template = Returns (snapshot c h').
Proof.
  intros Hp Hc Hrun.
  destruct (generateColorscheme_run h mode _ _ template _ _ Hp Hc)
    as (r & h1 & Hrun' & Hsub & Hview).
  rewrite Hrun in Hrun'. injection Hrun' as <- <-.
  split; [done|]. split; [|split; [|done]].
  all: revert Hrun; unfold generateColorscheme.
  all: set (o := palette_props PALETTE_TEMPLATE_DATA items cc (palette template)).
  all: erewrite bind_Returns by (by eapply generatePalette_run); fold o.
  all: set (l1 := fresh (dom h)); set (h1 := <[l1 := Obj o]> h).
  all: assert (h1 !! l1 = Some (Obj o)) as Hl1 by apply lookup_insert_eq.
  all: assert (h ⊆ h1) as Hsub1 by apply insert_fresh_subseteq.
  all: rewrite bind_unfold, (generatePaletteHash_run _ _ _ Hl1).
  all: destruct (palette_hash o) as [hash|e]; [|done].
  all: erewrite bind_Returns by (by eapply generateBrowserTheme_run).
  all: set (l2 := fresh (dom h1)); set (h2 := <[l2 := _]> h1).
  all: assert (h1 ⊆ h2) as Hsub2 by apply insert_fresh_subseteq.
  all: assert (h2 !! l1 = Some (Obj o)) as Hl1' by (by apply lookup_insert_fresh).
  all: assert (h2 !! l2 = Some (Obj (template_props (read_props o) BROWSER_TEMPLATE_DATA
                                       (browser template) []))) as Hl2
         by apply lookup_insert_eq.
  all: erewrite bind_Returns by (by eapply generateExtensionTheme_run).
  all: rewrite bind_unfold, (generateDuckduckgoTheme_run _ _ _ _ Hl1').
  all: set (theme := duckduckgo_from _ _ _ _ _).
  all: set (l3 := fresh (dom h2)); set (h3 := <[l3 := _]> h2).
  all: assert (h2 ⊆ h3) as Hsub3 by apply insert_fresh_subseteq.
  all: assert (h3 !! l1 = Some (Obj o)) as Hl1'' by (by apply lookup_insert_fresh).
  all: assert (h3 !! l2 = Some (Obj (template_props (read_props o) BROWSER_TEMPLATE_DATA
                                       (browser template) []))) as Hl2'
         by (by apply lookup_insert_fresh).
  all: assert (h3 !! l3 = Some (Obj theme.2)) as Hl3 by apply lookup_insert_eq.
  all: destruct theme.1 as [[]|e]; [|done].
  all: erewrite bind_Returns by (by eapply generateDarkreaderScheme_run).
  all: set (l4 := fresh (dom h3)).
  all: intros [= <- _]; simpl.
  - assert (l2 ≠ l1) by (symmetry; by eapply fresh_ne).
    assert (l3 ≠ l1) by (symmetry; by eapply fresh_ne).
    assert (l3 ≠ l2) by (symmetry; by eapply fresh_ne).
    assert (l4 ≠ l1) by (symmetry; by eapply fresh_ne).
    assert (l4 ≠ l2) by (symmetry; by eapply fresh_ne).
    assert (l4 ≠ l3) by (symmetry; by eapply fresh_ne).
    repeat (apply NoDup_cons; split; [rewrite ?elem_of_cons, elem_of_nil; intuition congruence|]).
    apply NoDup_nil_2.
  - repeat apply Forall_cons_2; [apply fresh_None|apply fresh_not_in..|apply Forall_nil_2].
    + done.
    + by etrans.
    + by do 2 (etrans; [eassumption|]).
Qed.

(** X11: a returned colorscheme refers to four new objects: they are
    distinct from each other and from every object the store held before
    the call, the store still holds all it held, and so the two arguments
    are as they were. *)
Theorem generateColorscheme_fresh
  (h h' : heap) mode pywalColors customColors template items cc c :
  h !! pywalColors = Some (Arr items) →
  h !! customColors = Some (Obj cc) →
  generateColorscheme changeLuminance PALETTE_TEMPLATE_DATA BROWSER_TEMPLATE_DATA
    EXTENSION_THEME_SELCTOR mode pywalColors customColors template h = (Returns c, h') →
  NoDup [cs_palette c; cs_browser c; cs_duckduckgo c; cs_darkreader c] ∧
  (∀ l, l ∈ [cs_palette c; cs_browser c; cs_duckduckgo c; cs_darkreader c] →
     h !! l = None ∧ is_Some (h' !! l)) ∧
  (∀ l x, h !! l = Some x → h' !! l = Some x) ∧
  h' !! pywalColors = Some (Arr items) ∧
  h' !! customColors = Some (Obj cc).
Proof.
  intros Hp Hc Hrun.
  destruct (generateColorscheme_returns _ _ _ _ _ _ _ _ _ Hp Hc Hrun)
    as (Hsub & Hnd & Hnew & Hview).
  split; [done|]. split; [|split; [|split]].
  - intros l Hl. split; [by eapply (proj1 (Forall_forall _ _) Hnew)|].
    unfold colorscheme_view in Hview.
    destruct (palette_hash _); [|done].
    destruct (duckduckgo_from _ _ _ _ _).1; [|done].
    injection Hview as _ Hpal Hbro _ Hddg Hdark.
    repeat (apply elem_of_cons in Hl as [->|Hl]); [by eexists..|].
    by apply elem_of_nil in Hl.
  - intros l x Hl. by eapply lookup_weaken.
  - by eapply lookup_weaken.
  - by eapply lookup_weaken.
Qed.

(** X12: the [hash] of a returned colorscheme is the hash of the
    palette it returns: hashing that palette afterwards gives the same
    string. *)
Theorem generateColorscheme_hash
  (h h' : heap) mode pywalColors customColors template items cc c :
  h !! pywalColors = Some (Arr items) →
  h !! customColors = Some (Obj cc) →
  generateColorscheme changeLuminance PALETTE_TEMPLATE_DATA BROWSER_TEMPLATE_DATA
    EXTENSION_THEME_SELCTOR mode pywalColors customColors template h = (Returns c, h') →
  generatePaletteHash (cs_palette c) h' = (Returns (cs_hash c), h').
Proof.
  intros Hp Hc Hrun.
  destruct (generateColorscheme_returns _ _ _ _ _ _ _ _ _ Hp Hc Hrun)
    as (_ & _ & _ & Hview).
  unfold colorscheme_view in Hview.
  destruct (palette_hash _) as [hash|] eqn:Hhash; [|done].
  destruct (duckduckgo_from _ _ _ _ _).1; [|done].
  injection Hview as Hh Hpal _ _ _ _.
  symmetry in Hpal. rewrite (generatePaletteHash_run _ _ _ Hpal). by rewrite Hhash, Hh.
Qed.

(** X13: custom colors reach the derived themes.  In a returned
    colorscheme the browser theme holds a custom color under every target
    that the browser template maps to the color's role, and the Dark Reader
    scheme is made of the custom text and background colors. *)
Theorem generateColorscheme_custom_colors_in_themes
  (h h' : heap) mode pywalColors customColors template items cc c :
  h !! pywalColors = Some (Arr items) →
  h !! customColors = Some (Obj cc) →
  NoDup cc.*1 →
  generateColorscheme changeLuminance PALETTE_TEMPLATE_DATA BROWSER_TEMPLATE_DATA
    EXTENSION_THEME_SELCTOR mode pywalColors customColors template h = (Returns c, h') →
  ∃ b d,
    h' !! cs_browser c = Some (Obj b) ∧
    h' !! cs_darkreader c = Some (Obj d) ∧
    (∀ r role v,
       r ∈ target <$> BROWSER_TEMPLATE_DATA →
       own r (browser template) = Some role →
       own role cc = Some v →
       own r b = Some v) ∧
    (∀ text background,
       own "text" cc = Some text → own "background" cc = Some background →
       d = if decide (mode = Dark) then
             [("darkSchemeTextColor", text); ("darkSchemeBackgroundColor", background)]
           else
             [("lightSchemeTextColor", text); ("lightSchemeBackgroundColor", background)]).
Proof.
  intros Hp Hc Hnd Hrun.
  destruct (generateColorscheme_returns _ _ _ _ _ _ _ _ _ Hp Hc Hrun)
    as (_ & _ & _ & Hview).
  unfold colorscheme_view in Hview.
  destruct (palette_hash _); [|done].
  destruct (duckduckgo_from _ _ _ _ _).1; [|done].
  injection Hview as _ _ Hbro _ _ Hdark.
  eexists _, _. split; [done|]. split; [done|]. split.
  - intros r role v Hr Hrole Hv.
    rewrite (own_template_in (read_props _)) by done.
    rewrite Hrole. simpl. unfold read_props, props_get, palette_props. simpl.
    by rewrite (own_assign _ _ _ _ Hnd Hv).
  - intros text background Ht Hb.
    unfold darkreader_props, props_get, palette_props.
    by rewrite (own_assign _ _ _ _ Hnd Ht), (own_assign _ _ _ _ Hnd Hb).
Qed.

(** X14: a role of the template data that is left [undefined] (the
    palette template has no index for it, or the index is out of the
    range of [pywalColors], and [customColors] does not hold it) makes
    [generateColorscheme] throw a [TypeError]. *)
Theorem generateColorscheme_undefined_role
  (h : heap) mode pywalColors customColors template items cc r :
  h !! pywalColors = Some (Arr items) →
  h !! customColors = Some (Obj cc) →
  r ∈ target <$> PALETTE_TEMPLATE_DATA →
  r ∉ cc.*1 →
  match own r (palette template) with
  | Some i => items_get i items = VUndefined
  | None => True
  end →
  (generateColorscheme changeLuminance PALETTE_TEMPLATE_DATA BROWSER_TEMPLATE_DATA
     EXTENSION_THEME_SELCTOR mode pywalColors customColors template h).1 =
    Throws TypeError.
Proof.
  intros Hp Hc Hr Hcc Hundef.
  destruct (generateColorscheme_run h mode _ _ template _ _ Hp Hc)
    as (res & h1 & Hrun & _ & Hview).
  rewrite Hrun. simpl. unfold observe, colorscheme_view in Hview. simpl in Hview.
  set (o := palette_props PALETTE_TEMPLATE_DATA items cc (palette template)) in *.
  assert (palette_hash o = Throws TypeError) as Hhash.
  { unfold palette_hash. apply hash_from_Throws. exists r. split.
    - rewrite (Array_sort_Permutation o.*1). unfold o, palette_props.
      rewrite elem_of_keys_assign, elem_of_keys_template. auto.
    - unfold props_get, o, palette_props.
      rewrite own_assign_notin by done.
      rewrite (own_template_in (read_items items)) by done. simpl.
      unfold read_items. by destruct (own r (palette template)). }
  rewrite Hhash in Hview. simpl in Hview. by destruct res as [c|[]].
Qed.

(** X15: with [DEFAULT_THEME_TEMPLATE], a raw palette of 18 colors and
    custom colors that are all defined, every role gets a color, provided
    the template data lists only roles of the default template: the
    generated palette can be hashed. *)
Theorem default_template_palette_hashes
  (h : heap) pywalColors customColors (colors : list string) cc :
  h !! pywalColors = Some (Arr (VString <$> colors)) →
  length colors = PYWAL_PALETTE_LENGTH →
  h !! customColors = Some (Obj cc) →
  Forall (λ kv, kv.2 ≠ VUndefined) cc →
  (∀ r, r ∈ target <$> PALETTE_TEMPLATE_DATA → r ∈ DEFAULT_THEME_TEMPLATE.*1) →
  ∃ palette h' hash,
    generatePalette PALETTE_TEMPLATE_DATA pywalColors customColors
      DEFAULT_THEME_TEMPLATE h = (Returns palette, h') ∧
    generatePaletteHash palette h' = (Returns hash, h').
Proof.
  intros Hp Hlen Hc Hcc Hroles.
  set (o := palette_props PALETTE_TEMPLATE_DATA (VString <$> colors) cc
              DEFAULT_THEME_TEMPLATE).
  assert (Forall (λ kv, kv.2 ≠ VUndefined) o) as Ho.
  { unfold o, palette_props.
    assert (∀ acc, Forall (λ kv : string * value, kv.2 ≠ VUndefined) acc →
              Forall (λ kv, kv.2 ≠ VUndefined) (assign_props acc cc)) as Hassign.
    { clear Hc. induction Hcc as [|[k v] cc Hv Hcc IH]; intros acc Hacc; [done|].
      unfold assign_props in *. simpl. by apply IH, all_defined_set. }
    apply Hassign. clear Hassign.
    assert (∀ data acc,
              (∀ r, r ∈ target <$> data → r ∈ DEFAULT_THEME_TEMPLATE.*1) →
              Forall (λ kv : string * value, kv.2 ≠ VUndefined) acc →
              Forall (λ kv, kv.2 ≠ VUndefined)
                (template_props (read_items (VString <$> colors)) data
                   DEFAULT_THEME_TEMPLATE acc)) as Htemplate.
    { induction data as [|item data IH]; intros acc Hdata Hacc; [done|].
      unfold template_props in *. cbn [foldl]. apply IH.
      - intros r Hr. apply Hdata. rewrite fmap_cons. by apply list_elem_of_further.
      - apply all_defined_set; [done|].
        destruct (own_is_Some (target item) DEFAULT_THEME_TEMPLATE) as [i Hi].
        { apply Hdata. rewrite fmap_cons. apply list_elem_of_here. }
        rewrite Hi. simpl. apply own_elem_of in Hi.
        assert (0 ≤ i < 18)%Z as Hrange.
        { unfold DEFAULT_THEME_TEMPLATE in Hi.
          repeat (apply elem_of_cons in Hi as [[= _ ->]|Hi]; [lia|]).
          by apply elem_of_nil in Hi. }
        unfold items_get. destruct (Z.ltb_spec i 0); [lia|].
        destruct (lookup_lt_is_Some_2 (VString <$> colors) (Z.to_nat i)) as [v Hv].
        { rewrite length_fmap, Hlen. unfold PYWAL_PALETTE_LENGTH. lia. }
        rewrite Hv. simpl. apply list_lookup_fmap_Some in Hv as (s & -> & _). done. }
    by apply Htemplate. }
  destruct (palette_hash o) as [hash|[]] eqn:Hhash.
  { eexists _, _, hash. split; [by eapply generatePalette_run|].
    rewrite (generatePaletteHash_run _ _ o) by apply lookup_insert_eq.
    by rewrite Hhash. }
  exfalso. unfold palette_hash in Hhash.
  apply hash_from_Throws in Hhash as (key & Hkey & Hu).
  rewrite (Array_sort_Permutation o.*1) in Hkey.
  by apply (all_defined_get key o Ho Hkey).
Qed.

End Generator.

(** Without the order on the target indices a later splice at a lower
    index moves an earlier color up. *)
Remark descending_targets_shift :
  foldl (insert_color sample_luminance)
        [VString "#a"; VString "#b"; VString "#c"]
        [ICustomPywalColor 2 "#X"; ICustomPywalColor 1 "#Y"] =
    [VString "#a"; VString "#Y"; VString "#b"; VString "#X"; VString "#c"].
Proof. reflexivity. Qed.

(** The sample configuration, generated. *)
Example generateColorscheme_sample :
  observe (generateColorscheme sample_luminance sample_palette_data sample_browser_data
             ":root" Dark 1%positive 2%positive sample_template sample_store) =
    Returns
      ("284f798971a1d20213c3836ebdbb2ffffff",
       Some (Obj [ ("background", VString "#1d2021"); ("foreground", VString "#ebdbb2");
                   ("backgroundLight", VString "#3c3836");
                   ("accentPrimary", VString "0284f7");
                   ("accentSecondary", VString "#98971a"); ("text", VString "#ffffff") ]),
       Some (Obj [ ("frame", VString "#1d2021"); ("tab_text", VString "#ffffff");
                   ("popup", VUndefined) ]),
       ":root{--background:#1d2021;--foreground:#ebdbb2;--background-light:#3c3836;--accent-primary:0284f7;--accent-secondary:#98971a;--text-color:#ffffff;}",
       Some (Obj [ ("background", VString "1d2021");
                   ("headerBackground", VString "1d2021") ]),
       Some (Obj [ ("darkSchemeTextColor", VString "#ffffff");
                   ("darkSchemeBackgroundColor", VString "#1d2021") ])).
Proof. vm_compute. reflexivity. Qed.

(** A palette with a role left [undefined] cannot be hashed. *)
Example generatePaletteHash_undefined_color :
  generatePaletteHash 2%positive
    (<[2%positive := Obj [("text", VUndefined)]]> sample_store) =
    (Throws TypeError, <[2%positive := Obj [("text", VUndefined)]]> sample_store).
Proof. reflexivity. Qed.

(** ** The properties at the sample configuration *)

Lemma generateDarkreaderScheme_shape_witness :
  sample_store !! 3%positive = Some (Obj sample_palette) ∧
  ∃ scheme pair,
    generateDarkreaderScheme 3%positive Light sample_store =
      (Returns scheme, <[scheme := Obj pair]> sample_store) ∧
    sample_store !! scheme = None ∧
    (Light = Dark →
       pair = [("darkSchemeTextColor", props_get "text" sample_palette);
               ("darkSchemeBackgroundColor", props_get "background" sample_palette)]) ∧
    (Light ≠ Dark →
       pair = [("lightSchemeTextColor", props_get "text" sample_palette);
               ("lightSchemeBackgroundColor", props_get "background" sample_palette)]).
Proof.
  split; [reflexivity|].
  apply (generateDarkreaderScheme_shape sample_store 3%positive sample_palette Light).
  reflexivity.
Defined.

Lemma generatePalette_custom_colors_win_witness :
  sample_store !! 1%positive = Some (Arr sample_colors) ∧
  sample_store !! 2%positive = Some (Obj sample_custom) ∧
  NoDup sample_custom.*1 ∧
  ∃ palette o,
    generatePalette sample_palette_data 1%positive 2%positive DEFAULT_THEME_TEMPLATE
      sample_store = (Returns palette, <[palette := Obj o]> sample_store) ∧
    sample_store !! palette = None ∧
    ∀ r v, own r sample_custom = Some v → own r o = Some v.
Proof.
  assert (NoDup sample_custom.*1) as Hnd by (apply (bool_decide_unpack (NoDup _)); vm_compute; exact I).
  split; [reflexivity|]. split; [reflexivity|]. split; [exact Hnd|].
  apply (generatePalette_custom_colors_win sample_palette_data sample_store
           1%positive 2%positive DEFAULT_THEME_TEMPLATE sample_colors sample_custom);
    [reflexivity|reflexivity|exact Hnd].
Defined.

Lemma generatePaletteHash_key_order_witness :
  sample_store !! 3%positive = Some (Obj sample_palette) ∧
  sample_store !! 4%positive = Some (Obj sample_palette_reordered) ∧
  NoDup sample_palette.*1 ∧
  sample_palette ≡ₚ sample_palette_reordered ∧
  ∃ keys,
    Sorted String.le keys ∧ keys ≡ₚ sample_palette.*1 ∧
    generatePaletteHash 3%positive sample_store =
      (hash_from sample_palette "" keys, sample_store) ∧
    generatePaletteHash 4%positive sample_store =
      (hash_from sample_palette "" keys, sample_store).
Proof.
  assert (NoDup sample_palette.*1) as Hnd by (apply (bool_decide_unpack (NoDup _)); vm_compute; exact I).
  assert (sample_palette ≡ₚ sample_palette_reordered) as Hperm.
  { unfold sample_palette, sample_palette_reordered.
    apply (Permutation_cons_append [_; _]). }
  split; [reflexivity|]. split; [reflexivity|]. split; [exact Hnd|]. split; [exact Hperm|].
  apply (generatePaletteHash_key_order sample_store sample_store 3%positive 4%positive
           sample_palette sample_palette_reordered);
    [reflexivity|reflexivity|exact Hnd|exact Hperm].
Defined.

Lemma generatePaletteHash_ignores_first_character_witness :
  sample_store !! 3%positive = Some (Obj sample_palette) ∧
  sample_store !! 5%positive = Some (Obj sample_palette_unmarked) ∧
  sample_palette.*1 ≡ₚ sample_palette_unmarked.*1 ∧
  (∀ key, key ∈ sample_palette.*1 →
     same_after_first (props_get key sample_palette)
       (props_get key sample_palette_unmarked)) ∧
  generatePaletteHash 3%positive sample_store = (Returns "cc241d1d2021fbf1c7", sample_store) ∧
  generatePaletteHash 5%positive sample_store = (Returns "cc241d1d2021fbf1c7", sample_store).
Proof.
  assert (sample_palette.*1 ≡ₚ sample_palette_unmarked.*1) as Hperm.
  { unfold sample_palette, sample_palette_unmarked. simpl. apply perm_swap. }
  assert (∀ key, key ∈ sample_palette.*1 →
            same_after_first (props_get key sample_palette)
              (props_get key sample_palette_unmarked)) as Hrel.
  { intros key Hin. unfold sample_palette in Hin. simpl in Hin.
    repeat (apply elem_of_cons in Hin as [->|Hin]);
      [right; by eexists _, _, _|by left|right; by eexists _, _, _
      |by apply elem_of_nil in Hin]. }
  split; [reflexivity|]. split; [reflexivity|]. split; [exact Hperm|].
  split; [exact Hrel|].
  destruct (proj2 generatePaletteHash_ignores_first_character sample_store sample_store
              3%positive 5%positive sample_palette sample_palette_unmarked
              eq_refl eq_refl Hperm Hrel)
    as (keys & hash & _ & _ & Hrun1 & Hrun2 & _ & _).
  rewrite Hrun2, <- Hrun1. split; vm_compute; reflexivity.
Defined.



Lemma generateColorscheme_deterministic_witness :
  sample_store !! 1%positive = Some (Arr sample_colors) ∧
  sample_store !! 2%positive = Some (Obj sample_custom) ∧
  delete 3%positive sample_store !! 1%positive = Some (Arr sample_colors) ∧
  delete 3%positive sample_store !! 2%positive = Some (Obj sample_custom) ∧
  observe (generateColorscheme sample_luminance sample_palette_data sample_browser_data
             ":root" Dark 1%positive 2%positive sample_template sample_store) =
  observe (generateColorscheme sample_luminance sample_palette_data sample_browser_data
             ":root" Dark 1%positive 2%positive sample_template
             (delete 3%positive sample_store)).
Proof.
  split; [reflexivity|]. split; [reflexivity|]. split; [reflexivity|]. split; [reflexivity|].
  apply (generateColorscheme_deterministic sample_luminance sample_palette_data
           sample_browser_data ":root" sample_store (delete 3%positive sample_store)
           Dark 1%positive 2%positive sample_template sample_colors sample_custom);
    reflexivity.
Defined.

(** ** The further properties at the sample configuration *)

Ltac decide_it := apply (bool_decide_unpack _); vm_compute; exact I.

Lemma generatePalette_derived_roles_witness :
  sample_store !! 1%positive = Some (Arr sample_colors) ∧
  sample_store !! 2%positive = Some (Obj sample_custom) ∧
  "background" ∈ target <$> sample_palette_data ∧
  ("background" ∉ sample_custom.*1) ∧
  ∃ palette o,
    generatePalette sample_palette_data 1%positive 2%positive DEFAULT_THEME_TEMPLATE
      sample_store = (Returns palette, <[palette := Obj o]> sample_store) ∧
    own "background" o = Some (VString "#1d2021").
Proof.
  assert ("background" ∈ target <$> sample_palette_data) as Hin by decide_it.
  assert ("background" ∉ sample_custom.*1) as Hout by decide_it.
  split; [reflexivity|]. split; [reflexivity|]. split; [exact Hin|]. split; [exact Hout|].
  destruct (generatePalette_derived_roles sample_palette_data sample_store 1%positive
              2%positive DEFAULT_THEME_TEMPLATE sample_colors sample_custom
              eq_refl eq_refl) as (palette & o & Hrun & Hroles).
  exists palette, o. split; [exact Hrun|].
  rewrite (Hroles "background" Hin Hout). reflexivity.
Defined.

Lemma generatePalette_roles_witness :
  sample_store !! 1%positive = Some (Arr sample_colors) ∧
  sample_store !! 2%positive = Some (Obj sample_custom) ∧
  ∃ palette o h',
    generatePalette sample_palette_data 1%positive 2%positive DEFAULT_THEME_TEMPLATE
      sample_store = (Returns palette, h') ∧
    h' !! palette = Some (Obj o) ∧
    NoDup o.*1 ∧
    (∀ r, r ∈ o.*1 ↔ r ∈ target <$> sample_palette_data ∨ r ∈ sample_custom.*1) ∧
    h' !! 1%positive = Some (Arr sample_colors) ∧
    h' !! 2%positive = Some (Obj sample_custom) ∧
    sample_store !! palette = None ∧
    palette ≠ 1%positive ∧ palette ≠ 2%positive ∧
    h' = <[palette := Obj o]> sample_store.
Proof.
  split; [reflexivity|]. split; [reflexivity|].
  apply (generatePalette_roles sample_palette_data sample_store 1%positive 2%positive
           DEFAULT_THEME_TEMPLATE sample_colors sample_custom); reflexivity.
Defined.

Lemma generateBrowserTheme_targets_witness :
  sample_store !! 3%positive = Some (Obj sample_palette) ∧
  ∃ theme t h',
    generateBrowserTheme sample_browser_data 3%positive (browser sample_template)
      sample_store = (Returns theme, h') ∧
    sample_store !! theme = None ∧
    h' !! theme = Some (Obj t) ∧
    h' !! 3%positive = Some (Obj sample_palette) ∧
    (∀ r, r ∈ target <$> sample_browser_data →
       own r t =
         Some (props_get (default "undefined" (own r (browser sample_template)))
                 sample_palette)) ∧
    (∀ r, r ∉ target <$> sample_browser_data → own r t = None).
Proof.
  split; [reflexivity|].
  apply (generateBrowserTheme_targets sample_browser_data sample_store 3%positive
           sample_palette (browser sample_template)); reflexivity.
Defined.

Lemma generateExtensionTheme_declarations_witness :
  sample_store !! 3%positive = Some (Obj sample_palette) ∧
  generateExtensionTheme sample_palette_data ":root" 3%positive sample_store =
    (Returns ":root{--background:#1d2021;--foreground:undefined;--background-light:undefined;--accent-primary:#cc241d;--accent-secondary:undefined;--text-color:#fbf1c7;}",
     sample_store).
Proof.
  split; [reflexivity|].
  rewrite (generateExtensionTheme_declarations sample_palette_data ":root" sample_store
             3%positive sample_palette eq_refl).
  reflexivity.
Defined.

Lemma generatePaletteHash_throws_iff_witness :
  sample_store !! 3%positive = Some (Obj sample_palette) ∧
  ∃ r,
    generatePaletteHash 3%positive sample_store = (r, sample_store) ∧
    (r = Throws TypeError ↔
       ∃ key, key ∈ sample_palette.*1 ∧ props_get key sample_palette = VUndefined) ∧
    (r ≠ Throws TypeError → ∃ hash, r = Returns hash).
Proof.
  split; [reflexivity|].
  apply (generatePaletteHash_throws_iff sample_store 3%positive sample_palette).
  reflexivity.
Defined.

Lemma generatePywalPalette_length_witness :
  sample_store !! 1%positive = Some (Arr sample_colors) ∧
  ∃ colors extended h',
    generatePywalPalette sample_luminance sample_extended 1%positive sample_store =
      (Returns colors, h') ∧
    sample_store !! colors = None ∧
    h' !! colors = Some (Arr extended) ∧
    h' !! 1%positive = Some (Arr sample_colors) ∧
    length extended = length sample_colors + length sample_extended.
Proof.
  split; [reflexivity|].
  apply (proj1 (generatePywalPalette_length sample_luminance sample_extended
                  sample_store 1%positive)).
  reflexivity.
Defined.

Lemma generatePywalPalette_keeps_prefix_witness :
  sample_store !! 1%positive = Some (Arr sample_colors) ∧
  ascending 16 (Z.of_nat (length sample_colors)) sample_extended ∧
  ∃ colors extended,
    generatePywalPalette sample_luminance sample_extended 1%positive sample_store =
      (Returns colors, <[colors := Arr extended]> sample_store) ∧
    ∀ i : nat, (Z.of_nat i < 16)%Z → extended !! i = sample_colors !! i.
Proof.
  assert (ascending 16 (Z.of_nat (length sample_colors)) sample_extended) as Hasc.
  { unfold sample_extended. simpl. lia. }
  split; [reflexivity|]. split; [exact Hasc|].
  apply (generatePywalPalette_keeps_prefix sample_luminance sample_extended sample_store
           1%positive sample_colors 16%Z); [reflexivity|exact Hasc].
Defined.

Lemma generatePywalPalette_modified_colors_witness :
  sample_store !! 1%positive = Some (Arr sample_colors) ∧
  ascending 0 (Z.of_nat (length sample_colors)) sample_extended ∧
  ∃ colors extended,
    generatePywalPalette sample_luminance sample_extended 1%positive sample_store =
      (Returns colors, <[colors := Arr extended]> sample_store) ∧
    ∀ targetIndex colorIndex modifier min max,
      IModifiedPywalColor targetIndex colorIndex modifier min max ∈ sample_extended →
      (0 ≤ colorIndex < targetIndex)%Z →
      ∃ source,
        extended !! Z.to_nat colorIndex = Some source ∧
        extended !! Z.to_nat targetIndex =
          Some (VString (sample_luminance source modifier min max)).
Proof.
  assert (ascending 0 (Z.of_nat (length sample_colors)) sample_extended) as Hasc.
  { unfold sample_extended. simpl. lia. }
  split; [reflexivity|]. split; [exact Hasc|].
  apply (generatePywalPalette_modified_colors sample_luminance sample_extended
           sample_store 1%positive sample_colors); [reflexivity|exact Hasc].
Defined.

Lemma generateDuckduckgoTheme_throws_iff_witness :
  sample_store !! 3%positive = Some (Obj sample_palette) ∧
  NoDup (duckduckgo sample_template).*1 ∧
  ∃ r h',
    generateDuckduckgoTheme sample_luminance 3%positive (duckduckgo sample_template)
      sample_store = (r, h') ∧
    h' !! 3%positive = Some (Obj sample_palette) ∧
    (r = Throws TypeError ↔
       ∃ key item, (key, item) ∈ duckduckgo sample_template ∧ modifier item = None ∧
         props_get (colorKey item) sample_palette = VUndefined) ∧
    (r ≠ Throws TypeError → ∃ theme, r = Returns theme).
Proof.
  assert (NoDup (duckduckgo sample_template).*1) as Hnd by decide_it.
  split; [reflexivity|]. split; [exact Hnd|].
  apply (generateDuckduckgoTheme_throws_iff sample_luminance sample_store 3%positive
           sample_palette (duckduckgo sample_template)); [reflexivity|exact Hnd].
Defined.

Lemma generateDuckduckgoTheme_colors_witness :
  sample_store !! 3%positive = Some (Obj sample_palette) ∧
  NoDup (duckduckgo sample_template).*1 ∧
  generateDuckduckgoTheme sample_luminance 3%positive (duckduckgo sample_template)
    sample_store =
    (Returns 6%positive,
     (generateDuckduckgoTheme sample_luminance 3%positive (duckduckgo sample_template)
        sample_store).2) ∧
  ∃ t,
    sample_store !! 6%positive = None ∧
    (generateDuckduckgoTheme sample_luminance 3%positive (duckduckgo sample_template)
       sample_store).2 !! 6%positive = Some (Obj t) ∧
    (∀ key item, (key, item) ∈ duckduckgo sample_template →
       match modifier item with
       | Some m =>
           own key t =
             Some (VString (substring_1
                              (sample_luminance
                                 (props_get (colorKey item) sample_palette) m None None)))
       | None =>
           ∃ s, props_get (colorKey item) sample_palette = VString s ∧
                own key t = Some (VString (substring_1 s))
       end) ∧
    (∀ key, key ∉ (duckduckgo sample_template).*1 → own key t = None).
Proof.
  assert (NoDup (duckduckgo sample_template).*1) as Hnd by decide_it.
  assert (generateDuckduckgoTheme sample_luminance 3%positive (duckduckgo sample_template)
            sample_store =
          (Returns 6%positive,
           (generateDuckduckgoTheme sample_luminance 3%positive
              (duckduckgo sample_template) sample_store).2)) as Hrun
    by (vm_compute; reflexivity).
  split; [reflexivity|]. split; [exact Hnd|]. split; [exact Hrun|].
  apply (generateDuckduckgoTheme_colors sample_luminance sample_store _ 3%positive
           sample_palette (duckduckgo sample_template) 6%positive eq_refl Hnd Hrun).
Defined.

Lemma generateColorscheme_fresh_witness :
  sample_store !! 1%positive = Some (Arr sample_colors) ∧
  sample_store !! 2%positive = Some (Obj sample_custom) ∧
  generateColorscheme sample_luminance sample_palette_data sample_browser_data ":root"
    Dark 1%positive 2%positive sample_template sample_store =
    (Returns
       {| cs_hash := "284f798971a1d20213c3836ebdbb2ffffff"; cs_palette := 6%positive;
          cs_browser := 7%positive;
          cs_extension :=
            ":root{--background:#1d2021;--foreground:#ebdbb2;--background-light:#3c3836;--accent-primary:0284f7;--accent-secondary:#98971a;--text-color:#ffffff;}";
          cs_duckduckgo := 8%positive; cs_darkreader := 9%positive |},
     (generateColorscheme sample_luminance sample_palette_data sample_browser_data
        ":root" Dark 1%positive 2%positive sample_template sample_store).2) ∧
  NoDup [6%positive; 7%positive; 8%positive; 9%positive] ∧
  (generateColorscheme sample_luminance sample_palette_data sample_browser_data ":root"
     Dark 1%positive 2%positive sample_template sample_store).2 !! 2%positive =
    Some (Obj sample_custom).
Proof.
  assert (generateColorscheme sample_luminance sample_palette_data sample_browser_data
            ":root" Dark 1%positive 2%positive sample_template sample_store =
          (Returns
             {| cs_hash := "284f798971a1d20213c3836ebdbb2ffffff"; cs_palette := 6%positive;
                cs_browser := 7%positive;
                cs_extension :=
                  ":root{--background:#1d2021;--foreground:#ebdbb2;--background-light:#3c3836;--accent-primary:0284f7;--accent-secondary:#98971a;--text-color:#ffffff;}";
                cs_duckduckgo := 8%positive; cs_darkreader := 9%positive |},
           (generateColorscheme sample_luminance sample_palette_data sample_browser_data
              ":root" Dark 1%positive 2%positive sample_template sample_store).2)) as Hrun
    by (vm_compute; reflexivity).
  split; [reflexivity|]. split; [reflexivity|]. split; [exact Hrun|].
  destruct (generateColorscheme_fresh sample_luminance sample_palette_data
              sample_browser_data ":root" sample_store _ Dark 1%positive 2%positive
              sample_template sample_colors sample_custom _ eq_refl eq_refl Hrun)
    as (Hnd & _ & _ & _ & Hcustom).
  split; [exact Hnd|exact Hcustom].
Defined.

Lemma generateColorscheme_hash_witness :
  sample_store !! 1%positive = Some (Arr sample_colors) ∧
  sample_store !! 2%positive = Some (Obj sample_custom) ∧
  generateColorscheme sample_luminance sample_palette_data sample_browser_data ":root"
    Dark 1%positive 2%positive sample_template sample_store =
    (Returns
       {| cs_hash := "284f798971a1d20213c3836ebdbb2ffffff"; cs_palette := 6%positive;
          cs_browser := 7%positive;
          cs_extension :=
            ":root{--background:#1d2021;--foreground:#ebdbb2;--background-light:#3c3836;--accent-primary:0284f7;--accent-secondary:#98971a;--text-color:#ffffff;}";
          cs_duckduckgo := 8%positive; cs_darkreader := 9%positive |},
     (generateColorscheme sample_luminance sample_palette_data sample_browser_data
        ":root" Dark 1%positive 2%positive sample_template sample_store).2) ∧
  generatePaletteHash 6%positive
    (generateColorscheme sample_luminance sample_palette_data sample_browser_data ":root"
       Dark 1%positive 2%positive sample_template sample_store).2 =
    (Returns "284f798971a1d20213c3836ebdbb2ffffff",
     (generateColorscheme sample_luminance sample_palette_data sample_browser_data ":root"
        Dark 1%positive 2%positive sample_template sample_store).2).
Proof.
  assert (generateColorscheme sample_luminance sample_palette_data sample_browser_data
            ":root" Dark 1%positive 2%positive sample_template sample_store =
          (Returns
             {| cs_hash := "284f798971a1d20213c3836ebdbb2ffffff"; cs_palette := 6%positive;
                cs_browser := 7%positive;
                cs_extension :=
                  ":root{--background:#1d2021;--foreground:#ebdbb2;--background-light:#3c3836;--accent-primary:0284f7;--accent-secondary:#98971a;--text-color:#ffffff;}";
                cs_duckduckgo := 8%positive; cs_darkreader := 9%positive |},
           (generateColorscheme sample_luminance sample_palette_data sample_browser_data
              ":root" Dark 1%positive 2%positive sample_template sample_store).2)) as Hrun
    by (vm_compute; reflexivity).
  split; [reflexivity|]. split; [reflexivity|]. split; [exact Hrun|].
  exact (generateColorscheme_hash sample_luminance sample_palette_data
           sample_browser_data ":root" sample_store _ Dark 1%positive 2%positive
           sample_template sample_colors sample_custom _ eq_refl eq_refl Hrun).
Defined.

Lemma generateColorscheme_custom_colors_in_themes_witness :
  sample_store !! 1%positive = Some (Arr sample_colors) ∧
  sample_store !! 2%positive = Some (Obj sample_custom) ∧
  NoDup sample_custom.*1 ∧
  generateColorscheme sample_luminance sample_palette_data sample_browser_data ":root"
    Dark 1%positive 2%positive sample_template sample_store =
    (Returns
       {| cs_hash := "284f798971a1d20213c3836ebdbb2ffffff"; cs_palette := 6%positive;
          cs_browser := 7%positive;
          cs_extension :=
            ":root{--background:#1d2021;--foreground:#ebdbb2;--background-light:#3c3836;--accent-primary:0284f7;--accent-secondary:#98971a;--text-color:#ffffff;}";
          cs_duckduckgo := 8%positive; cs_darkreader := 9%positive |},
     (generateColorscheme sample_luminance sample_palette_data sample_browser_data
        ":root" Dark 1%positive 2%positive sample_template sample_store).2) ∧
  "tab_text" ∈ target <$> sample_browser_data ∧
  own "tab_text" (browser sample_template) = Some "text" ∧
  own "text" sample_custom = Some (VString "#ffffff") ∧
  ∃ b,
    (generateColorscheme sample_luminance sample_palette_data sample_browser_data ":root"
       Dark 1%positive 2%positive sample_template sample_store).2 !! 7%positive =
      Some (Obj b) ∧
    own "tab_text" b = Some (VString "#ffffff").
Proof.
  assert (NoDup sample_custom.*1) as Hnd by decide_it.
  assert ("tab_text" ∈ target <$> sample_browser_data) as Hin by decide_it.
  assert (generateColorscheme sample_luminance sample_palette_data sample_browser_data
            ":root" Dark 1%positive 2%positive sample_template sample_store =
          (Returns
             {| cs_hash := "284f798971a1d20213c3836ebdbb2ffffff"; cs_palette := 6%positive;
                cs_browser := 7%positive;
                cs_extension :=
                  ":root{--background:#1d2021;--foreground:#ebdbb2;--background-light:#3c3836;--accent-primary:0284f7;--accent-secondary:#98971a;--text-color:#ffffff;}";
                cs_duckduckgo := 8%positive; cs_darkreader := 9%positive |},
           (generateColorscheme sample_luminance sample_palette_data sample_browser_data
              ":root" Dark 1%positive 2%positive sample_template sample_store).2)) as Hrun
    by (vm_compute; reflexivity).
  split; [reflexivity|]. split; [reflexivity|]. split; [exact Hnd|].
  split; [exact Hrun|]. split; [exact Hin|]. split; [reflexivity|]. split; [reflexivity|].
  destruct (generateColorscheme_custom_colors_in_themes sample_luminance
              sample_palette_data sample_browser_data ":root" sample_store _ Dark
              1%positive 2%positive sample_template sample_colors sample_custom _
              eq_refl eq_refl Hnd Hrun)
    as (b & d & Hb & _ & Hbrowser & _).
  exists b. split; [exact Hb|].
  exact (Hbrowser "tab_text" "text" (VString "#ffffff") Hin eq_refl eq_refl).
Defined.

Lemma generateColorscheme_undefined_role_witness :
  sample_store !! 1%positive = Some (Arr sample_colors) ∧
  sample_store !! 2%positive = Some (Obj sample_custom) ∧
  "background" ∈ target <$> sample_palette_data ∧
  ("background" ∉ sample_custom.*1) ∧
  own "background" (@nil (string * Z)) = None ∧
  (generateColorscheme sample_luminance sample_palette_data sample_browser_data ":root"
     Dark 1%positive 2%positive
     {| palette := []; browser := []; duckduckgo := [] |} sample_store).1 =
    Throws TypeError.
Proof.
  assert ("background" ∈ target <$> sample_palette_data) as Hin by decide_it.
  assert ("background" ∉ sample_custom.*1) as Hout by decide_it.
  split; [reflexivity|]. split; [reflexivity|]. split; [exact Hin|]. split; [exact Hout|].
  split; [reflexivity|].
  exact (generateColorscheme_undefined_role sample_luminance sample_palette_data
           sample_browser_data ":root" sample_store Dark 1%positive 2%positive
           {| palette := []; browser := []; duckduckgo := [] |} sample_colors
           sample_custom "background" eq_refl eq_refl Hin Hout I).
Defined.

Lemma default_template_palette_hashes_witness :
  sample_store !! 1%positive = Some (Arr sample_colors) ∧
  sample_store !! 2%positive = Some (Obj sample_custom) ∧
  Forall (λ kv, kv.2 ≠ VUndefined) sample_custom ∧
  (∀ r, r ∈ target <$> sample_palette_data → r ∈ DEFAULT_THEME_TEMPLATE.*1) ∧
  ∃ palette h' hash,
    generatePalette sample_palette_data 1%positive 2%positive DEFAULT_THEME_TEMPLATE
      sample_store = (Returns palette, h') ∧
    generatePaletteHash palette h' = (Returns hash, h').
Proof.
  assert (Forall (λ kv : string * value, kv.2 ≠ VUndefined) sample_custom) as Hcc.
  { repeat constructor; discriminate. }
  assert (∀ r, r ∈ target <$> sample_palette_data → r ∈ DEFAULT_THEME_TEMPLATE.*1)
    as Hroles.
  { intros r Hr. unfold sample_palette_data in Hr. rewrite !fmap_cons in Hr. simpl in Hr.
    repeat (apply elem_of_cons in Hr as [->|Hr]; [decide_it|]).
    by apply elem_of_nil in Hr. }
  split; [reflexivity|]. split; [reflexivity|]. split; [exact Hcc|]. split; [exact Hroles|].
  exact (default_template_palette_hashes sample_palette_data sample_store 1%positive
           2%positive
           [ "#1d2021"; "#cc241d"; "#98971a"; "#d79921"; "#458588"; "#b16286";
             "#689d6a"; "#a89984"; "#928374"; "#fb4934"; "#b8bb26"; "#fabd2f";
             "#83a598"; "#d3869b"; "#8ec07c"; "#ebdbb2"; "#fbf1c7"; "#3c3836" ]
           sample_custom eq_refl eq_refl eq_refl Hcc Hroles).
Defined.

End ColorschemeSpec.

(** * Properties of the message handlers *)

Module NativeAppHandlersSpec.
Import NativeApp NativeAppHandlers.

Ltac run_handler :=
  unfold onMessage, onCssToggleResponse, onCssFontSizeResponse, onThemeModeResponse,
    onDebuggingOutput, getData, earlier, onVersionResponse, onPywalColorsResponse,
    NativeApp.getData, NativeApp.logError, NativeApp.log, emit, clearTimeout,
    logError, make, with_calls, version_timer_cancelled, parseInt, shadowed;
  cbv [mbind mret M_bind M_ret bind ret gets modify throw of_outcome].

Lemma with_calls_nil s : with_calls s [] = s.
Proof. destruct s. unfold with_calls. simpl. by rewrite app_nil_r. Qed.

Section Handlers.

Context (VERSION OUTPUT PYWAL_COLORS CSS_ENABLE CSS_DISABLE : string).
Context (CSS_FONT_SIZE THEME_MODE INVALID_ACTION : string).
Context (ThemeModes_value : Colorscheme.ThemeModes → string).
Context (parseInt_string : string → number).
Context (Number_toString : number → string).

(** X21: a CSS toggle response that owns a key [hasOwnProperty] makes the
    handler throw before any call.  Otherwise the handler returns: a
    response that reports success calls [cssToggleSuccess] with its payload
    when the payload is truthy, and only logs an error when the payload is
    missing or falsy; one that does not report success calls
    [cssToggleFailed] with the payload and the carried error, and when the
    payload is missing, the target handed over is [null] and the missing
    field is logged first. *)
Theorem onCssToggleResponse_cases message s :
  ∃ r cs,
    onCssToggleResponse message s = (r, with_calls s cs) ∧
    (shadowed message = true → r = Throws TypeError ∧ cs = []) ∧
    (shadowed message = false →
       r = Returns tt ∧
       (truthy_flag (success message) = true →
          ∀ d, data message = Some d → truthy d = true →
            cs = [CallCssToggleSuccess d]) ∧
       (truthy_flag (success message) = true →
          data message = None ∨ (∃ d, data message = Some d ∧ truthy d = false) →
            cs ≠ [] ∧ forallb is_callback_error_log cs = true) ∧
       (truthy_flag (success message) = false →
          ∀ d, data message = Some d →
            cs = [CallCssToggleFailed d (error message)]) ∧
       (truthy_flag (success message) = false → data message = None →
          cs = [ CallOutput
                   (JString "Recieved invalid message from native app. The 'data' field is undefined.")
                   (Some true);
                 CallCssToggleFailed JNull (error message) ])).
Proof.
  destruct message as [a ok e d o]; unfold shadowed; simpl.
  destruct (bool_decide ("hasOwnProperty" ∈ o.*1)) eqn:Ho.
  { exists (Throws TypeError), []. split; [|done].
    run_handler; simpl. rewrite Ho. simpl. by rewrite app_nil_r. }
  destruct (truthy_flag ok) eqn:Hok; destruct d as [d|].
  - destruct (truthy d) eqn:Hd.
    + exists (Returns tt), [CallCssToggleSuccess d]. split.
      { run_handler; simpl. rewrite Ho. simpl. rewrite Hok, Hd. simpl. by rewrite app_nil_r. }
      split; [done|]. intros _. split; [done|].
      split; [by intros _ d' [= <-] _|].
      split; [intros _ [?|(d' & [= <-] & ?)]; congruence|done].
    + exists (Returns tt),
        [CallOutput
           (JString "Custom CSS was applied successfully, but the target was not specified")
           (Some true)].
      split.
      { run_handler; simpl. rewrite Ho. simpl. rewrite Hok, Hd. simpl. by rewrite app_nil_r. }
      split; [done|]. intros _. split; [done|].
      split; [intros _ d' [= <-] ?; congruence|]. done.
  - exists (Returns tt),
      [CallOutput
         (JString "Recieved invalid message from native app. The 'data' field is undefined.")
         (Some true);
       CallOutput
         (JString "Custom CSS was applied successfully, but the target was not specified")
         (Some true)].
    split.
    { run_handler; simpl. rewrite Ho. simpl. rewrite Hok. simpl. by rewrite <- app_assoc. }
    done.
  - exists (Returns tt), [CallCssToggleFailed d e]. split.
    { run_handler; simpl. rewrite Ho. simpl. rewrite Hok. simpl. by rewrite app_nil_r. }
    split; [done|]. intros _. split; [done|].
    split; [done|]. split; [done|]. split; [by intros _ d' [= <-]|done].
  - exists (Returns tt),
      [CallOutput
         (JString "Recieved invalid message from native app. The 'data' field is undefined.")
         (Some true);
       CallCssToggleFailed JNull e].
    split.
    { run_handler; simpl. rewrite Ho. simpl. rewrite Hok. simpl. by rewrite <- app_assoc. }
    done.
Qed.

(** X22: a font-size response that does not report success calls
    [cssFontSizeSetFailed] with the carried error and nothing else,
    whatever else it holds.  One that reports success and owns a key
    [hasOwnProperty] makes the handler throw before any call.  Otherwise,
    with a truthy payload, the payload is converted to a string and
    [cssFontSizeSetSuccess] is called with [parseInt] of that string, or
    the handler throws with no call when the conversion throws; with a
    payload that is missing or falsy, the handler only logs an error. *)
Theorem onCssFontSizeResponse_cases message s :
  ∃ r cs,
    onCssFontSizeResponse parseInt_string Number_toString message s =
      (r, with_calls s cs) ∧
    (truthy_flag (success message) = false →
       r = Returns tt ∧ cs = [CallCssFontSizeSetFailed (error message)]) ∧
    (truthy_flag (success message) = true → shadowed message = true →
       r = Throws TypeError ∧ cs = []) ∧
    (truthy_flag (success message) = true → shadowed message = false →
       ∀ d, data message = Some d → truthy d = true →
         (∀ text, ToString Number_toString d = Returns text →
            r = Returns tt ∧ cs = [CallCssFontSizeSetSuccess (parseInt_string text)]) ∧
         (ToString Number_toString d = Throws TypeError →
            r = Throws TypeError ∧ cs = [])) ∧
    (truthy_flag (success message) = true → shadowed message = false →
       data message = None ∨ (∃ d, data message = Some d ∧ truthy d = false) →
         r = Returns tt ∧ cs ≠ [] ∧ forallb is_callback_error_log cs = true).
Proof.
  destruct message as [a ok e d o]; unfold shadowed; simpl.
  destruct (truthy_flag ok) eqn:Hok.
  2:{ exists (Returns tt), [CallCssFontSizeSetFailed e]. split.
      { run_handler; simpl. rewrite Hok. reflexivity. }
      done. }
  destruct (bool_decide ("hasOwnProperty" ∈ o.*1)) eqn:Ho.
  { exists (Throws TypeError), []. split; [|done].
    run_handler; simpl. rewrite Hok. simpl. rewrite Ho. simpl. by rewrite app_nil_r. }
  destruct d as [d|].
  - destruct (truthy d) eqn:Hd.
    + destruct (ToString Number_toString d) as [text|[]] eqn:Ht.
      * exists (Returns tt), [CallCssFontSizeSetSuccess (parseInt_string text)]. split.
        { run_handler; simpl. rewrite Hok. simpl. rewrite Ho. simpl. rewrite Hd. simpl.
          rewrite Ht. simpl. by rewrite app_nil_r. }
        split; [done|]. split; [done|].
        split; [|intros _ _ [?|(d' & [= <-] & ?)]; congruence].
        intros _ _ d' [= <-] _. split; [|by rewrite Ht].
        intros text'. rewrite Ht. by intros [= <-].
      * exists (Throws TypeError), []. split.
        { run_handler; simpl. rewrite Hok. simpl. rewrite Ho. simpl. rewrite Hd. simpl.
          rewrite Ht. simpl. by rewrite app_nil_r. }
        split; [done|]. split; [done|].
        split; [|intros _ _ [?|(d' & [= <-] & ?)]; congruence].
        intros _ _ d' [= <-] _. split; [by rewrite Ht|done].
    + exists (Returns tt),
        [CallOutput
           (JString "Font size was updated successfully, but the new size was not specified")
           (Some true)].
      split.
      { run_handler; simpl. rewrite Hok. simpl. rewrite Ho. simpl. rewrite Hd. simpl.
        by rewrite app_nil_r. }
      split; [done|]. split; [done|].
      split; [intros _ _ d' [= <-] ?; congruence|]. done.
  - exists (Returns tt),
      [CallOutput
         (JString "Recieved invalid message from native app. The 'data' field is undefined.")
         (Some true);
       CallOutput
         (JString "Font size was updated successfully, but the new size was not specified")
         (Some true)].
    split.
    { run_handler; simpl. rewrite Hok. simpl. rewrite Ho. simpl. by rewrite <- app_assoc. }
    done.
Qed.

Lemma strict_eq_string_true v s : strict_eq_string v s = true ↔ v = JString s.
Proof.
  destruct v; simpl; try (split; [done|discriminate]).
  rewrite String.eqb_eq. split; [by intros ->|by intros [= ->]].
Qed.

(** X23: a theme-mode response that owns a key [hasOwnProperty] makes
    the handler throw before any call.  Otherwise [themeModeSet] is called
    only when the payload is the string of one of the three modes, and
    then with that mode (the strings of the modes being non-empty and
    distinct).  Any other payload, or none, gives no call of
    [themeModeSet]: the handler logs an error and returns, unless the
    payload is truthy and its conversion to a string, for the log entry,
    throws; then nothing is logged. *)
Theorem onThemeModeResponse_modes message s :
  ∃ r cs,
    onThemeModeResponse ThemeModes_value Number_toString message s =
      (r, with_calls s cs) ∧
    (shadowed message = true → r = Throws TypeError ∧ cs = []) ∧
    (shadowed message = false →
       ∀ mode,
         data message = Some (JString (ThemeModes_value mode)) →
         ThemeModes_value mode ≠ "" →
         (∀ other, ThemeModes_value other = ThemeModes_value mode → other = mode) →
         r = Returns tt ∧ cs = [CallThemeModeSet mode]) ∧
    (shadowed message = false →
       (∀ mode, data message ≠ Some (JString (ThemeModes_value mode))) →
       forallb is_callback_error_log cs = true ∧
       ((∀ d, data message = Some d → truthy d = true →
           returns (ToString Number_toString d) = true) →
          r = Returns tt ∧ cs ≠ []) ∧
       (∀ d, data message = Some d → truthy d = true →
          ToString Number_toString d = Throws TypeError →
          r = Throws TypeError ∧ cs = [])).
Proof.
  destruct message as [a ok e d o]; unfold shadowed; simpl.
  destruct (bool_decide ("hasOwnProperty" ∈ o.*1)) eqn:Ho.
  { exists (Throws TypeError), []. split; [|done].
    run_handler; simpl. rewrite Ho. simpl. by rewrite app_nil_r. }
  destruct d as [d|].
  2:{ eexists (Returns tt), [_; _]. split.
      { run_handler; simpl. rewrite Ho. simpl. by rewrite <- app_assoc. }
      done. }
  destruct (truthy d) eqn:Hd.
  2:{ eexists (Returns tt), [_]. split.
      { run_handler; simpl. rewrite Ho. simpl. rewrite Hd. simpl. by rewrite app_nil_r. }
      split; [done|]. split.
      - intros _ mode [= ->] Hne _. simpl in Hd.
        destruct (String.eqb_spec (ThemeModes_value mode) ""); done.
      - intros _ _. split; [done|]. split; [done|].
        intros d' [= <-] ?; congruence. }
  destruct (strict_eq_string d (ThemeModes_value Colorscheme.Dark)) eqn:HD.
  { exists (Returns tt), [CallThemeModeSet Colorscheme.Dark]. split.
    { run_handler; simpl. rewrite Ho. simpl. rewrite Hd, HD. simpl. by rewrite app_nil_r. }
    apply strict_eq_string_true in HD as ->. split; [done|]. split.
    - intros _ mode [= Heq] _ Hinj. by rewrite (Hinj Colorscheme.Dark Heq).
    - intros _ Hnone. by destruct (Hnone Colorscheme.Dark). }
  destruct (strict_eq_string d (ThemeModes_value Colorscheme.Light)) eqn:HL.
  { exists (Returns tt), [CallThemeModeSet Colorscheme.Light]. split.
    { run_handler; simpl. rewrite Ho. simpl. rewrite Hd, HD, HL. simpl.
      by rewrite app_nil_r. }
    apply strict_eq_string_true in HL as ->. split; [done|]. split.
    - intros _ mode [= Heq] _ Hinj. by rewrite (Hinj Colorscheme.Light Heq).
    - intros _ Hnone. by destruct (Hnone Colorscheme.Light). }
  destruct (strict_eq_string d (ThemeModes_value Colorscheme.Auto)) eqn:HA.
  { exists (Returns tt), [CallThemeModeSet Colorscheme.Auto]. split.
    { run_handler; simpl. rewrite Ho. simpl. rewrite Hd, HD, HL, HA. simpl.
      by rewrite app_nil_r. }
    apply strict_eq_string_true in HA as ->. split; [done|]. split.
    - intros _ mode [= Heq] _ Hinj. by rewrite (Hinj Colorscheme.Auto Heq).
    - intros _ Hnone. by destruct (Hnone Colorscheme.Auto). }
  assert (∀ mode, d ≠ JString (ThemeModes_value mode)) as Hother.
  { intros mode ->. destruct mode.
    - by rewrite (proj2 (strict_eq_string_true _ _) eq_refl) in HD.
    - by rewrite (proj2 (strict_eq_string_true _ _) eq_refl) in HL.
    - by rewrite (proj2 (strict_eq_string_true _ _) eq_refl) in HA. }
  destruct (ToString Number_toString d) as [text|[]] eqn:Ht.
  - eexists (Returns tt), [_]. split.
    { run_handler; simpl. rewrite Ho. simpl. rewrite Hd, HD, HL, HA. simpl.
      rewrite Ht. simpl. by rewrite app_nil_r. }
    split; [done|]. split.
    + intros _ mode [= ->]. by destruct (Hother mode).
    + intros _ _. split; [done|]. split; [done|].
      intros d' [= <-] _. by rewrite Ht.
  - exists (Throws TypeError), []. split.
    { run_handler; simpl. rewrite Ho. simpl. rewrite Hd, HD, HL, HA. simpl.
      rewrite Ht. simpl. by rewrite app_nil_r. }
    split; [done|]. split.
    + intros _ mode [= ->]. by destruct (Hother mode).
    + intros _ _. split; [done|]. split; [|done].
      intros Hsafe. specialize (Hsafe d eq_refl Hd). by rewrite Ht in Hsafe.
Qed.

(** X24: a debugging-output message that owns a key [hasOwnProperty]
    makes the handler throw before any call.  Otherwise the handler
    returns: a truthy payload is passed to [output] as it came, without
    the error flag; a payload that is there and falsy is dropped with no
    call at all, and a missing payload gives one error log entry. *)
Theorem onDebuggingOutput_cases message s :
  ∃ r cs,
    onDebuggingOutput message s = (r, with_calls s cs) ∧
    (shadowed message = true → r = Throws TypeError ∧ cs = []) ∧
    (shadowed message = false →
       r = Returns tt ∧
       (∀ d, data message = Some d → truthy d = true → cs = [CallOutput d None]) ∧
       (∀ d, data message = Some d → truthy d = false → cs = []) ∧
       (data message = None →
          cs = [CallOutput
                  (JString "Recieved invalid message from native app. The 'data' field is undefined.")
                  (Some true)])).
Proof.
  destruct message as [a ok e d o]; unfold shadowed; simpl.
  destruct (bool_decide ("hasOwnProperty" ∈ o.*1)) eqn:Ho.
  { exists (Throws TypeError), []. split; [|done].
    run_handler; simpl. rewrite Ho. simpl. by rewrite app_nil_r. }
  destruct d as [d|].
  - destruct (truthy d) eqn:Hd.
    + exists (Returns tt), [CallOutput d None]. split.
      { run_handler; simpl. rewrite Ho. simpl. rewrite Hd. simpl. by rewrite app_nil_r. }
      split; [done|]. intros _. split; [done|].
      split; [by intros d' [= <-] _|]. split; [|done].
      intros d' [= <-] ?; congruence.
    + exists (Returns tt), []. split.
      { run_handler; simpl. rewrite Ho. simpl. rewrite Hd. simpl. reflexivity. }
      split; [done|]. intros _. split; [done|].
      split; [|done]. intros d' [= <-] ?; congruence.
  - eexists (Returns tt), [_]. split.
    { run_handler; simpl. rewrite Ho. simpl. reflexivity. }
    done.
Qed.

#[local] Abbreviation onMessage_ :=
  (onMessage VERSION OUTPUT PYWAL_COLORS CSS_ENABLE CSS_DISABLE CSS_FONT_SIZE
     THEME_MODE INVALID_ACTION ThemeModes_value parseInt_string Number_toString).

(** X25: a message whose action is none of the known tags is not
    fatal: [onMessage] logs one error that names the action, and does
    nothing else. *)
Theorem onMessage_unhandled_action message s :
  action message ∉ [ VERSION; OUTPUT; PYWAL_COLORS; CSS_ENABLE; CSS_DISABLE;
                     CSS_FONT_SIZE; THEME_MODE; INVALID_ACTION ] →
  onMessage_ message s =
    (Returns tt,
     with_calls s
       [CallOutput (JString ("Received unhandled message action: " +:+ action message))
          (Some true)]).
Proof.
  intros Hnot. rewrite !not_elem_of_cons in Hnot.
  destruct Hnot as (H1 & H2 & H3 & H4 & H5 & H6 & H7 & H8 & _).
  unfold onMessage.
  repeat match goal with
         | H : action message ≠ ?tag |- _ =>
             apply String.eqb_neq in H; rewrite H; clear H
         end.
  reflexivity.
Qed.

Ltac quiet_cases :=
  unfold harmless, plain, quiet, with_calls, version_timer_cancelled, shadowed;
  repeat (cbn [fst snd from_option this timers next_timer trace s_this s_timers
               s_next_timer calls versionCheckTimeout fmap list_fmap app
               data others truthy negb];
          match goal with
          | |- context [bool_decide ("hasOwnProperty" ∈ ?l)] =>
              destruct (bool_decide ("hasOwnProperty" ∈ l))
          | |- context [truthy_flag ?b] => destruct (truthy_flag b)
          | |- context [truthy ?d] => destruct (truthy d) eqn:?
          | |- context [hasOwnProperty ?d ?k] =>
              destruct (hasOwnProperty d k) as [[]|[]] eqn:?
          | |- context [ToString ?f ?d] => destruct (ToString f d) as [?|[]] eqn:?
          | |- context [strict_eq_string ?d ?k] => destruct (strict_eq_string d k)
          end);
  simpl;
  (split;
   [ rewrite <- ?app_assoc; eexists; (split; [reflexivity|reflexivity])
   | intros [Hplain Hsafe]; try reflexivity; try discriminate Hplain;
     destruct (Hsafe _ eq_refl) as [Hown Hret];
     match goal with
     | H : ToString _ _ = Throws _ |- _ => rewrite H in Hret; discriminate Hret
     | Ht : truthy ?d = true, H : hasOwnProperty ?d _ = Throws _ |- _ =>
         rewrite (NativeAppSpec.hasOwnProperty_Returns _ _ Ht Hown) in H; discriminate H
     end ]).

Lemma onCssToggleResponse_quiet message s :
  harmless Number_toString message s (onCssToggleResponse message s).
Proof. destruct message as [a ok e [d|] o]; run_handler; simpl; quiet_cases. Qed.

Lemma onCssFontSizeResponse_quiet message s :
  harmless Number_toString message s (onCssFontSizeResponse parseInt_string Number_toString message s).
Proof. destruct message as [a ok e [d|] o]; run_handler; simpl; quiet_cases. Qed.

Lemma onThemeModeResponse_quiet message s :
  harmless Number_toString message s (onThemeModeResponse ThemeModes_value Number_toString message s).
Proof. destruct message as [a ok e [d|] o]; run_handler; simpl; quiet_cases. Qed.

Lemma onDebuggingOutput_quiet message s :
  harmless Number_toString message s (onDebuggingOutput message s).
Proof. destruct message as [a ok e [d|] o]; run_handler; simpl; quiet_cases. Qed.

Lemma onPywalColorsResponse_quiet message s :
  harmless Number_toString message s (earlier (onPywalColorsResponse message) s).
Proof. destruct message as [a ok e [d|] o]; run_handler; simpl; quiet_cases. Qed.

Lemma onVersionResponse_quiet message s :
  harmless Number_toString message s (earlier (onVersionResponse message) s) ∨
  harmless Number_toString message (version_timer_cancelled s)
    (earlier (onVersionResponse message) s).
Proof.
  destruct (shadowed message) eqn:Hsh.
  - left. unfold earlier. rewrite (NativeAppSpec.onVersionResponse_shadowed _ _ Hsh).
    split; [by exists []|]. intros [Hplain _]. congruence.
  - right.
    destruct s as [[c p [v|] k] ts n cs0];
      destruct message as [a ok e [d|] o]; unfold shadowed in Hsh; simpl in Hsh;
      run_handler; simpl; rewrite Hsh; quiet_cases.
Qed.

Lemma logError_quiet message text s : harmless Number_toString message s (logError text s).
Proof. split; [|done]. by exists [CallOutput (JString text) (Some true)]. Qed.

(** X26: whatever the message, and whether [onMessage] returns or
    throws, it posts nothing on the port, changes no field of the session
    and arms no timer; only a message with the version tag touches the
    timers, and it only cancels the version-check timer.  On a message
    that is [plain], [onMessage] returns. *)
Theorem onMessage_quiet message s :
  ∃ r s' cs,
    onMessage_ message s = (r, s') ∧
    s_this s' = s_this s ∧
    s_next_timer s' = s_next_timer s ∧
    calls s' = (calls s ++ cs)%list ∧
    existsb posts cs = false ∧
    (s_timers s' = s_timers s ∨
     action message = VERSION ∧ s_timers s' = s_timers (version_timer_cancelled s)) ∧
    (plain Number_toString message → r = Returns tt).
Proof.
  assert (∀ (m : M session unit) s0,
            harmless Number_toString message s0 (m s) →
            s_this s0 = s_this s → s_next_timer s0 = s_next_timer s →
            calls s0 = calls s →
            ∃ r s' cs, m s = (r, s') ∧ s_this s' = s_this s ∧
              s_next_timer s' = s_next_timer s ∧ calls s' = (calls s ++ cs)%list ∧
              existsb posts cs = false ∧ s_timers s' = s_timers s0 ∧
              (plain Number_toString message → r = Returns tt)) as Hshape.
  { intros m s0 [(cs & Hs' & Hcs) Hr] Ht Hn Hc. exists (m s).1, (m s).2, cs.
    split; [by destruct (m s)|].
    rewrite Hs'. simpl. by rewrite Ht, Hn, Hc. }
  assert (∀ m : M session unit,
            harmless Number_toString message s (m s) →
            ∃ r s' cs, m s = (r, s') ∧ s_this s' = s_this s ∧
              s_next_timer s' = s_next_timer s ∧ calls s' = (calls s ++ cs)%list ∧
              existsb posts cs = false ∧
              (s_timers s' = s_timers s ∨
               action message = VERSION ∧
               s_timers s' = s_timers (version_timer_cancelled s)) ∧
              (plain Number_toString message → r = Returns tt)) as Hsame.
  { intros m Hm.
    destruct (Hshape m s Hm) as (r & s' & cs & ? & ? & ? & ? & ? & ? & ?); [done..|].
    exists r, s', cs. auto 10. }
  unfold onMessage.
  destruct (String.eqb_spec (action message) VERSION) as [Hv|_].
  { destruct (onVersionResponse_quiet message s) as [Hq|Hq]; [by apply Hsame|].
    destruct (Hshape _ _ Hq) as (r & s' & cs & ? & ? & ? & ? & ? & ? & ?); [done..|].
    exists r, s', cs. auto 10. }
  destruct (String.eqb _ OUTPUT); [apply Hsame, onDebuggingOutput_quiet|].
  destruct (String.eqb _ PYWAL_COLORS); [apply Hsame, onPywalColorsResponse_quiet|].
  destruct (_ || _); [apply Hsame, onCssToggleResponse_quiet|].
  destruct (String.eqb _ CSS_FONT_SIZE); [apply Hsame, onCssFontSizeResponse_quiet|].
  destruct (String.eqb _ THEME_MODE); [apply Hsame, onThemeModeResponse_quiet|].
  destruct (String.eqb _ INVALID_ACTION); apply Hsame, logError_quiet.
Qed.

End Handlers.

(** ** The properties at sample messages *)

Lemma onCssToggleResponse_cases_witness :
  shadowed {| action := "css:enable"; success := None; error := Some "No such file";
              data := None; others := [] |} = false ∧
  truthy_flag None = false ∧
  onCssToggleResponse
    {| action := "css:enable"; success := None; error := Some "No such file";
       data := None; others := [] |} empty_session =
    (Returns tt,
     with_calls empty_session
       [ CallOutput
           (JString "Recieved invalid message from native app. The 'data' field is undefined.")
           (Some true);
         CallCssToggleFailed JNull (Some "No such file") ]).
Proof.
  split; [reflexivity|]. split; [reflexivity|].
  destruct (onCssToggleResponse_cases
              {| action := "css:enable"; success := None; error := Some "No such file";
                 data := None; others := [] |} empty_session)
    as (r & cs & Hrun & _ & Hplain).
  destruct (Hplain eq_refl) as (-> & _ & _ & _ & Hmissing).
  rewrite Hrun, (Hmissing eq_refl eq_refl). reflexivity.
Defined.

Lemma onCssFontSizeResponse_cases_witness :
  truthy_flag (Some true) = true ∧
  truthy (JString "13") = true ∧
  ToString sample_Number_toString (JString "13") = Returns "13" ∧
  onCssFontSizeResponse sample_parseInt sample_Number_toString
    {| action := "css:font:size"; success := Some true; error := None;
       data := Some (JString "13"); others := [] |} empty_session =
    (Returns tt, with_calls empty_session [CallCssFontSizeSetSuccess 13%float]) ∧
  truthy (JObject [("toString", JNumber 1%float)]) = true ∧
  ToString sample_Number_toString (JObject [("toString", JNumber 1%float)]) =
    Throws TypeError ∧
  onCssFontSizeResponse sample_parseInt sample_Number_toString
    {| action := "css:font:size"; success := Some true; error := None;
       data := Some (JObject [("toString", JNumber 1%float)]); others := [] |}
    empty_session =
    (Throws TypeError, with_calls empty_session []).
Proof.
  split; [reflexivity|]. split; [reflexivity|]. split; [reflexivity|].
  split.
  { destruct (onCssFontSizeResponse_cases sample_parseInt sample_Number_toString
                {| action := "css:font:size"; success := Some true; error := None;
                   data := Some (JString "13"); others := [] |} empty_session)
      as (r & cs & Hrun & _ & _ & Hok & _).
    destruct (Hok eq_refl eq_refl _ eq_refl eq_refl) as [Hret _].
    destruct (Hret "13" eq_refl) as [-> ->]. exact Hrun. }
  split; [reflexivity|]. split; [reflexivity|].
  destruct (onCssFontSizeResponse_cases sample_parseInt sample_Number_toString
              {| action := "css:font:size"; success := Some true; error := None;
                 data := Some (JObject [("toString", JNumber 1%float)]);
                 others := [] |} empty_session)
    as (r & cs & Hrun & _ & _ & Hok & _).
  destruct (Hok eq_refl eq_refl _ eq_refl eq_refl) as [_ Hthrows].
  destruct (Hthrows eq_refl) as [-> ->]. exact Hrun.
Defined.

Lemma onThemeModeResponse_modes_witness :
  shadowed {| action := "theme:mode"; success := Some true; error := None;
              data := Some (JString "light"); others := [] |} = false ∧
  sample_mode_value Colorscheme.Light ≠ "" ∧
  (∀ other, sample_mode_value other = sample_mode_value Colorscheme.Light →
     other = Colorscheme.Light) ∧
  onThemeModeResponse sample_mode_value sample_Number_toString
    {| action := "theme:mode"; success := Some true; error := None;
       data := Some (JString "light"); others := [] |} empty_session =
    (Returns tt, with_calls empty_session [CallThemeModeSet Colorscheme.Light]).
Proof.
  assert (sample_mode_value Colorscheme.Light ≠ "") as Hne by discriminate.
  assert (∀ other, sample_mode_value other = sample_mode_value Colorscheme.Light →
            other = Colorscheme.Light) as Hinj.
  { intros [] Heq; [discriminate|reflexivity|discriminate]. }
  split; [reflexivity|]. split; [exact Hne|]. split; [exact Hinj|].
  destruct (onThemeModeResponse_modes sample_mode_value sample_Number_toString
              {| action := "theme:mode"; success := Some true; error := None;
                 data := Some (JString "light"); others := [] |} empty_session)
    as (r & cs & Hrun & _ & Hmode & _).
  destruct (Hmode eq_refl Colorscheme.Light eq_refl Hne Hinj) as [-> ->]. exact Hrun.
Defined.

Lemma onDebuggingOutput_cases_witness :
  shadowed {| action := "debug:output"; success := None; error := None;
              data := Some (JNumber 0%float); others := [] |} = false ∧
  truthy (JNumber 0%float) = false ∧
  onDebuggingOutput
    {| action := "debug:output"; success := None; error := None;
       data := Some (JNumber 0%float); others := [] |} empty_session =
    (Returns tt, with_calls empty_session []) ∧
  shadowed {| action := "debug:output"; success := None; error := None;
              data := Some (JString "Fetching colors");
              others := [("hasOwnProperty", JNull)] |} = true ∧
  onDebuggingOutput
    {| action := "debug:output"; success := None; error := None;
       data := Some (JString "Fetching colors");
       others := [("hasOwnProperty", JNull)] |} empty_session =
    (Throws TypeError, with_calls empty_session []).
Proof.
  split; [reflexivity|]. split; [reflexivity|].
  split.
  { destruct (onDebuggingOutput_cases
                {| action := "debug:output"; success := None; error := None;
                   data := Some (JNumber 0%float); others := [] |} empty_session)
      as (r & cs & Hrun & _ & Hplain).
    destruct (Hplain eq_refl) as (-> & _ & Hfalsy & _).
    rewrite Hrun, (Hfalsy _ eq_refl eq_refl). reflexivity. }
  split; [reflexivity|].
  destruct (onDebuggingOutput_cases
              {| action := "debug:output"; success := None; error := None;
                 data := Some (JString "Fetching colors");
                 others := [("hasOwnProperty", JNull)] |} empty_session)
    as (r & cs & Hrun & Hthrows & _).
  destruct (Hthrows eq_refl) as [-> ->]. exact Hrun.
Defined.

Lemma onMessage_unhandled_action_witness :
  ("action:reload" ∉ [ "debug:version"; "debug:output"; "action:get:pywal"; "css:enable";
                       "css:disable"; "css:font:size"; "theme:mode"; "action:invalid" ]) ∧
  onMessage "debug:version" "debug:output" "action:get:pywal" "css:enable" "css:disable"
    "css:font:size" "theme:mode" "action:invalid" sample_mode_value sample_parseInt
    sample_Number_toString
    {| action := "action:reload"; success := None; error := None; data := None;
       others := [] |}
    empty_session =
    (Returns tt,
     with_calls empty_session
       [CallOutput (JString "Received unhandled message action: action:reload")
          (Some true)]).
Proof.
  assert ("action:reload" ∉ [ "debug:version"; "debug:output"; "action:get:pywal";
                              "css:enable"; "css:disable"; "css:font:size"; "theme:mode";
                              "action:invalid" ]) as Hnot.
  { apply (bool_decide_unpack _). vm_compute. exact I. }
  split; [exact Hnot|].
  exact (onMessage_unhandled_action "debug:version" "debug:output" "action:get:pywal"
           "css:enable" "css:disable" "css:font:size" "theme:mode" "action:invalid"
           sample_mode_value sample_parseInt sample_Number_toString
           {| action := "action:reload"; success := None; error := None; data := None;
              others := [] |}
           empty_session Hnot).
Defined.

Lemma onMessage_quiet_witness :
  plain sample_Number_toString
    {| action := "action:get:pywal"; success := Some true; error := None;
       data := Some (JArray [JString "#000000"; JString "#ffffff"]); others := [] |} ∧
  ∃ s' cs,
    onMessage "debug:version" "debug:output" "action:get:pywal" "css:enable" "css:disable"
      "css:font:size" "theme:mode" "action:invalid" sample_mode_value sample_parseInt
      sample_Number_toString
      {| action := "action:get:pywal"; success := Some true; error := None;
         data := Some (JArray [JString "#000000"; JString "#ffffff"]); others := [] |}
      empty_session = (Returns tt, s') ∧
    calls s' = (calls empty_session ++ cs)%list ∧
    existsb posts cs = false.
Proof.
  assert (plain sample_Number_toString
            {| action := "action:get:pywal"; success := Some true; error := None;
               data := Some (JArray [JString "#000000"; JString "#ffffff"]);
               others := [] |}) as Hplain.
  { split; [reflexivity|]. intros d [= <-]. split; reflexivity. }
  split; [exact Hplain|].
  destruct (onMessage_quiet "debug:version" "debug:output" "action:get:pywal" "css:enable"
              "css:disable" "css:font:size" "theme:mode" "action:invalid"
              sample_mode_value sample_parseInt sample_Number_toString
              {| action := "action:get:pywal"; success := Some true; error := None;
                 data := Some (JArray [JString "#000000"; JString "#ffffff"]);
                 others := [] |} empty_session)
    as (r & s' & cs & Hrun & _ & _ & Hcalls & Hposts & _ & Hreturns).
  exists s', cs. rewrite Hrun, (Hreturns Hplain). by repeat split.
Defined.

End NativeAppHandlersSpec.
